(** * Smart trash-bin dashboard: line classification and state reconciliation

    A shallow embedding of the serial-ingestion core of the dashboard:
    [javascript.js] (the [TongSampahApp] module: [Storage], [Utils],
    [DataProcessor], [HistoryManager], [Logger], the part of [UI] that
    writes [db], and the [padStart] polyfill) and [style.js] (the older
    Web-Serial handler: [processSerialData], [updateFromArduinoData],
    [calculateCapacity]).

    Modelling conventions.
    - A JavaScript string is a [string]: a sequence of 8-bit code units (the
      device speaks newline-delimited ASCII).
    - A JavaScript number that the modelled code can store is an integer or
      NaN ([number]); integers are exact ([Z]), i.e. the model coincides with
      IEEE doubles for magnitudes below 2^53.  The one non-integer computation,
      the distance-to-capacity map, is carried out over exact rationals ([Q])
      before [Math.round]; [capacity64_agrees] checks the binary64 evaluation
      against it on every clamped distance.
    - [Date.now()] is a clock oracle: the [n]-th reading of the clock since the
      start of the run is [clock n]; the world counts the readings made.
    - [new Date(t).getFullYear()], [.getMonth()], [.getDate()] depend on the
      host's time zone and are fields of the [Host] record.
    - [state.db] is the record [DB]; the DOM and the console are outside the
      model.  [localStorage] is modelled on its own, in [Storage]; the saves
      that the logger and the history manager make on the side are not.
    - The values [Math.random()] returns are arguments of the functions that
      call it. *)

From Stdlib Require Import ZArith QArith Qround Qminmax.
From Stdlib Require Import List String Ascii Bool Lia.
From Stdlib Require Import DecimalString DecimalPos.
From Stdlib Require Import Floats.
Import ListNotations.

Local Open Scope string_scope.
Local Open Scope list_scope.
Local Open Scope Z_scope.

(** ** JavaScript primitives used by the two files *)

Module JS.

(** A number as stored in [db]: an integer, or NaN. *)
Inductive number : Type :=
| NaN : number
| Num : Z -> number.

(** [x || 0] on a number: NaN and 0 are falsy. *)
Definition or_zero (x : number) : Z :=
  match x with
  | NaN => 0
  | Num z => z
  end.

(** [x++] on a number-valued property. *)
Definition incr (x : number) : number :=
  match x with
  | NaN => NaN
  | Num z => Num (z + 1)
  end.

(** WhiteSpace and LineTerminator code units below 256: TAB, LF, VT, FF, CR,
    SP, NBSP. *)
Definition isWhiteSpace (c : ascii) : bool :=
  let n := nat_of_ascii c in
  ((9 <=? n)%nat && (n <=? 13)%nat) || (n =? 32)%nat || (n =? 160)%nat.

(** LineTerminator code units below 256: LF and CR (what [.] refuses). *)
Definition isLineTerminator (c : ascii) : bool :=
  let n := nat_of_ascii c in
  (n =? 10)%nat || (n =? 13)%nat.

Fixpoint trimStart (s : string) : string :=
  match s with
  | EmptyString => EmptyString
  | String c r => if isWhiteSpace c then trimStart r else s
  end.

Fixpoint trimEnd (s : string) : string :=
  match s with
  | EmptyString => EmptyString
  | String c r =>
      let r' := trimEnd r in
      if isWhiteSpace c && (r' =? "")%string then EmptyString else String c r'
  end.

(** [s.trim()] *)
Definition trim (s : string) : string := trimEnd (trimStart s).

(** [s.includes(c)] for a one-character needle. *)
Fixpoint includes (c : ascii) (s : string) : bool :=
  match s with
  | EmptyString => false
  | String d r => (d =? c)%char || includes c r
  end.

(** [s.split(sep)] for a one-character separator: never empty, and the empty
    string splits into one empty piece. *)
Fixpoint split (sep : ascii) (s : string) : list string :=
  match s with
  | EmptyString => [EmptyString]
  | String c r =>
      if (c =? sep)%char then EmptyString :: split sep r
      else match split sep r with
           | [] => [String c EmptyString]
           | p :: ps => String c p :: ps
           end
  end.

(** [s.startsWith(p)], returning what follows the prefix. *)
Fixpoint stripPrefix (p s : string) : option string :=
  match p with
  | EmptyString => Some s
  | String a p' =>
      match s with
      | EmptyString => None
      | String b s' => if (a =? b)%char then stripPrefix p' s' else None
      end
  end.

Definition startsWith (s p : string) : bool :=
  match stripPrefix p s with
  | Some _ => true
  | None => false
  end.

(** Value of a digit in radices up to 36. *)
Definition digitValue (c : ascii) : option Z :=
  let n := Z.of_nat (nat_of_ascii c) in
  if (48 <=? n) && (n <=? 57) then Some (n - 48)
  else if (97 <=? n) && (n <=? 122) then Some (n - 87)
  else if (65 <=? n) && (n <=? 90) then Some (n - 55)
  else None.

(** The longest prefix of radix-[radix] digits, read as a number; [acc] is
    what has been read so far ([None]: no digit yet). *)
Fixpoint parseDigits (radix : Z) (s : string) (acc : option Z) : option Z :=
  match s with
  | EmptyString => acc
  | String c r =>
      match digitValue c with
      | Some d =>
          if d <? radix
          then parseDigits radix r
                 (Some (radix * match acc with Some a => a | None => 0 end + d))
          else acc
      | None => acc
      end
  end.

(** [parseInt(s)] with no radix argument: leading white space is skipped, a
    sign is read, a [0x]/[0X] prefix selects radix 16, and the longest run of
    digits is converted; no digit at all gives NaN. *)
Definition parseInt (s : string) : number :=
  let s1 := trimStart s in
  let '(sign, s2) :=
    match s1 with
    | String "-" r => (-1, r)
    | String "+" r => (1, r)
    | _ => (1, s1)
    end in
  let '(radix, s3) :=
    match s2 with
    | String "0" (String "x" r) => (16, r)
    | String "0" (String "X" r) => (16, r)
    | _ => (10, s2)
    end in
  match parseDigits radix s3 None with
  | None => NaN
  | Some n => Num (sign * n)
  end.

(** [Math.round] on a rational: nearest integer, ties towards +infinity. *)
Definition Math_round (x : Q) : Z := Qfloor (x + (1 # 2))%Q.

(** [Math.ceil(a / b)] for integers [a] and [b]. *)
Definition Math_ceil_div (a b : Z) : Z := - ((- a) / b).

(** Template-literal rendering of an integer. *)
Definition toString (z : Z) : string := NilEmpty.string_of_int (Z.to_int z).

(** A regular-expression match: [None] is no match, [Some g] a match whose
    first capture group is [g] ([None] when the pattern has no group). *)
Definition Match : Type := option (option string).

Fixpoint noLineTerminator (s : string) : bool :=
  match s with
  | EmptyString => true
  | String c r => negb (isLineTerminator c) && noLineTerminator r
  end.

Definition isDigit (c : ascii) : bool :=
  let n := nat_of_ascii c in (48 <=? n)%nat && (n <=? 57)%nat.

Fixpoint takeDigits (s : string) : string :=
  match s with
  | EmptyString => EmptyString
  | String c r => if isDigit c then String c (takeDigits r) else EmptyString
  end.

(** [/^prefix(.+)$/] *)
Definition re_prefix_rest (prefix line : string) : Match :=
  match stripPrefix prefix line with
  | Some rest =>
      if negb (rest =? "")%string && noLineTerminator rest then Some (Some rest)
      else None
  | None => None
  end.

(** [/^prefix(\d+)/] *)
Definition re_prefix_digits (prefix line : string) : Match :=
  match stripPrefix prefix line with
  | Some rest =>
      let d := takeDigits rest in
      if (d =? "")%string then None else Some (Some d)
  | None => None
  end.

(** [/^prefix/] *)
Definition re_prefix (prefix line : string) : Match :=
  match stripPrefix prefix line with
  | Some _ => Some None
  | None => None
  end.

End JS.

Import JS.

(** ** The host environment *)

(** What the browser supplies: the successive values of [Date.now()] and the
    local-time calendar fields of [new Date(t)]. *)
Record Host : Type := {
  clock : nat -> Z;
  getFullYear : Z -> Z;
  getMonth : Z -> Z;
  getDate : Z -> Z
}.

(** ** The data model of [javascript.js] *)

(** A property holding a string or the boolean [true] ([match[1] || true]). *)
Inductive Value : Type :=
| VString : string -> Value
| VTrue : Value.

Definition Value_eqb (a b : Value) : bool :=
  match a, b with
  | VString s, VString t => (s =? t)%string
  | VTrue, VTrue => true
  | _, _ => false
  end.

(** The keys of [patterns] in [parseSerialLine], in declaration order. *)
Inductive PatternKey : Type :=
| k_status | k_distance | k_usage | k_ready | k_command.

(** What [parseSerialLine] returns: an object whose [type] is ['full'], one of
    the pattern keys, or ['message']. *)
Inductive Update : Type :=
| full (u_status : string) (u_capacity u_distance u_dailyUsage u_totalUsage : Z)
       (raw : string)
| matched (key : PatternKey) (value : Value) (raw : string)
| message (value : string) (raw : string).

(** [u.type === 'full'] *)
Definition isFull (u : Update) : bool :=
  match u with
  | full _ _ _ _ _ _ => true
  | _ => false
  end.

(** An entry of [db.logs]; [log_id] is the [Date.now()] part of the generated
    id (its random suffix is not modelled). *)
Record LogEntry : Type := {
  log_id : Z;
  log_timestamp : Z;
  log_message : string;
  log_type : string
}.

(** An entry of [usageHistory.daily]. *)
Record Sample : Type := {
  s_timestamp : Z;
  s_capacity : Z
}.

(** A weekly or monthly aggregate. *)
Record Bucket : Type := {
  b_total : Z;
  b_count : Z;
  b_max : Z;
  b_min : Z;
  b_timestamps : list Z
}.

(** A plain object used as a map: its own string keys in insertion order
    (week and month keys are never array indices). *)
Definition Obj : Type := list (string * Bucket).

Record UsageHistory : Type := {
  daily : list Sample;
  weekly : Obj;
  monthly : Obj
}.

(** [state.db], without [alertTriggered] and [settings], which the modelled
    functions neither read nor write. *)
Record DB : Type := {
  status : Value;
  capacity : number;
  distance : number;
  dailyUsage : number;
  totalUsage : number;
  lastActivity : option Z;
  lastUpdate : Z;
  logs : list LogEntry;
  usageHistory : UsageHistory
}.

Definition set_status (v : Value) (d : DB) : DB :=
  {| status := v; capacity := capacity d; distance := distance d;
     dailyUsage := dailyUsage d; totalUsage := totalUsage d;
     lastActivity := lastActivity d; lastUpdate := lastUpdate d;
     logs := logs d; usageHistory := usageHistory d |}.

Definition set_capacity (v : number) (d : DB) : DB :=
  {| status := status d; capacity := v; distance := distance d;
     dailyUsage := dailyUsage d; totalUsage := totalUsage d;
     lastActivity := lastActivity d; lastUpdate := lastUpdate d;
     logs := logs d; usageHistory := usageHistory d |}.

Definition set_distance (v : number) (d : DB) : DB :=
  {| status := status d; capacity := capacity d; distance := v;
     dailyUsage := dailyUsage d; totalUsage := totalUsage d;
     lastActivity := lastActivity d; lastUpdate := lastUpdate d;
     logs := logs d; usageHistory := usageHistory d |}.

Definition set_dailyUsage (v : number) (d : DB) : DB :=
  {| status := status d; capacity := capacity d; distance := distance d;
     dailyUsage := v; totalUsage := totalUsage d;
     lastActivity := lastActivity d; lastUpdate := lastUpdate d;
     logs := logs d; usageHistory := usageHistory d |}.

Definition set_totalUsage (v : number) (d : DB) : DB :=
  {| status := status d; capacity := capacity d; distance := distance d;
     dailyUsage := dailyUsage d; totalUsage := v;
     lastActivity := lastActivity d; lastUpdate := lastUpdate d;
     logs := logs d; usageHistory := usageHistory d |}.

Definition set_lastActivity (v : option Z) (d : DB) : DB :=
  {| status := status d; capacity := capacity d; distance := distance d;
     dailyUsage := dailyUsage d; totalUsage := totalUsage d;
     lastActivity := v; lastUpdate := lastUpdate d;
     logs := logs d; usageHistory := usageHistory d |}.

Definition set_lastUpdate (v : Z) (d : DB) : DB :=
  {| status := status d; capacity := capacity d; distance := distance d;
     dailyUsage := dailyUsage d; totalUsage := totalUsage d;
     lastActivity := lastActivity d; lastUpdate := v;
     logs := logs d; usageHistory := usageHistory d |}.

Definition set_logs (v : list LogEntry) (d : DB) : DB :=
  {| status := status d; capacity := capacity d; distance := distance d;
     dailyUsage := dailyUsage d; totalUsage := totalUsage d;
     lastActivity := lastActivity d; lastUpdate := lastUpdate d;
     logs := v; usageHistory := usageHistory d |}.

Definition set_usageHistory (v : UsageHistory) (d : DB) : DB :=
  {| status := status d; capacity := capacity d; distance := distance d;
     dailyUsage := dailyUsage d; totalUsage := totalUsage d;
     lastActivity := lastActivity d; lastUpdate := lastUpdate d;
     logs := logs d; usageHistory := v |}.

(** ** The state monad the code runs in *)

(** The mutable world: [state.db] and the number of clock readings so far. *)
Record World : Type := {
  db : DB;
  ticks : nat
}.

Definition M (A : Type) : Type := World -> A * World.

Definition ret {A : Type} (a : A) : M A := fun w => (a, w).

Definition bind {A B : Type} (m : M A) (k : A -> M B) : M B :=
  fun w => let '(a, w') := m w in k a w'.

Notation "x <- m ;; k" := (bind m (fun x => k))
  (at level 61, m at next level, right associativity).
Notation "m ;; k" := (bind m (fun _ => k))
  (at level 61, right associativity).

(** Read a property of [state.db]. *)
Definition get {A : Type} (f : DB -> A) : M A := fun w => (f (db w), w).

(** Assign into [state.db]. *)
Definition modify (f : DB -> DB) : M unit :=
  fun w => (tt, {| db := f (db w); ticks := ticks w |}).

(** [Date.now()] *)
Definition Date_now (H : Host) : M Z :=
  fun w => (clock H (ticks w), {| db := db w; ticks := S (ticks w) |}).

(** [xs.forEach(f)] *)
Fixpoint forEach {A : Type} (f : A -> M unit) (xs : list A) : M unit :=
  match xs with
  | [] => ret tt
  | x :: rest => f x ;; forEach f rest
  end.

(** The world after running [m]. *)
Definition exec {A : Type} (m : M A) (w : World) : World := snd (m w).

(** ** Plain objects as insertion-ordered maps *)

Module Object.

(** [o[k]] *)
Fixpoint lookup (k : string) (o : Obj) : option Bucket :=
  match o with
  | [] => None
  | (k', v) :: rest => if (k =? k')%string then Some v else lookup k rest
  end.

(** [o[k] = v] for a key [o] does not have: the key goes last. *)
Definition create (k : string) (v : Bucket) (o : Obj) : Obj := o ++ [(k, v)].

(** In-place mutation of the object stored under [k]. *)
Fixpoint adjust (k : string) (f : Bucket -> Bucket) (o : Obj) : Obj :=
  match o with
  | [] => []
  | (k', v) :: rest =>
      if (k =? k')%string then (k', f v) :: rest
      else (k', v) :: adjust k f rest
  end.

(** [delete o[k]] *)
Definition delete (k : string) (o : Obj) : Obj :=
  filter (fun kv => negb (k =? fst kv)%string) o.

(** [Object.keys(o)] *)
Definition keys (o : Obj) : list string := map fst o.

End Object.

(** ** [javascript.js]: [Storage] *)

Module Storage.

(** [localStorage]: string keys and string values, each key once. *)
Definition LocalStorage : Type := list (string * string).

(** [state.config.storagePrefix] *)
Definition storagePrefix : string := "tongSampah_".

(** [localStorage.getItem(k)]; [None] is [null]. *)
Fixpoint getItem (k : string) (ls : LocalStorage) : option string :=
  match ls with
  | [] => None
  | (k', v) :: rest => if (k =? k')%string then Some v else getItem k rest
  end.

(** [localStorage.setItem(k, v)] when the quota allows it. *)
Fixpoint setItem (k v : string) (ls : LocalStorage) : LocalStorage :=
  match ls with
  | [] => [(k, v)]
  | (k', v') :: rest =>
      if (k =? k')%string then (k', v) :: rest
      else (k', v') :: setItem k v rest
  end.

(** [localStorage.removeItem(k)] *)
Definition removeItem (k : string) (ls : LocalStorage) : LocalStorage :=
  filter (fun kv => negb (k =? fst kv)%string) ls.

(** [remove(key)] *)
Definition remove (key : string) (ls : LocalStorage) : LocalStorage :=
  removeItem (storagePrefix ++ key) ls.

(** [clear()]: the keys are listed once, then each prefixed one is
    removed. *)
Definition clear (ls : LocalStorage) : LocalStorage :=
  fold_left
    (fun acc key => if startsWith key storagePrefix then removeItem key acc else acc)
    (map fst ls) ls.

(** [getSize()]: an empty value is falsy and counts 0, which is its
    length. *)
Definition getSize (ls : LocalStorage) : nat :=
  fold_left
    (fun total key =>
       if startsWith key storagePrefix then
         match getItem key ls with
         | Some v => if (v =? "")%string then total else (total + String.length v)%nat
         | None => total
         end
       else total)
    (map fst ls) 0%nat.

Section WithJSON.

(** The values stored, with [JSON.stringify] and [JSON.parse] on them
    ([None]: the call throws), and the browser's quota check on the store a
    [setItem] would produce. *)
Variable V : Type.
Variable JSON_stringify : V -> option string.
Variable JSON_parse : string -> option V.
Variable withinQuota : LocalStorage -> bool.

(** [get(key, defaultValue)]: a missing or empty item and a parse error all
    give the default. *)
Definition get (key : string) (defaultValue : V) (ls : LocalStorage) : V :=
  match getItem (storagePrefix ++ key) ls with
  | Some item =>
      if (item =? "")%string then defaultValue
      else match JSON_parse item with
           | Some v => v
           | None => defaultValue
           end
  | None => defaultValue
  end.

(** [set(key, value)]: [false] when [JSON.stringify] or [setItem] throws,
    and the store is then as it was. *)
Definition set (key : string) (value : V) (ls : LocalStorage)
  : bool * LocalStorage :=
  match JSON_stringify value with
  | Some text =>
      let ls' := setItem (storagePrefix ++ key) text ls in
      if withinQuota ls' then (true, ls') else (false, ls)
  | None => (false, ls)
  end.

End WithJSON.

End Storage.

(** ** [javascript.js]: [Utils] *)

Module Utils.

(** [calculateCapacity(distance, maxDistance = 50, minDistance = 0)].  NaN
    propagates through [Math.min], [Math.max], the arithmetic and
    [Math.round]. *)
Definition calculateCapacity (distance : number) (maxDistance minDistance : Q)
  : number :=
  match distance with
  | NaN => NaN
  | Num d =>
      let clamped := Qmax minDistance (Qmin maxDistance (inject_Z d)) in
      let capacity :=
        (100 - ((clamped - minDistance) / (maxDistance - minDistance)) * 100)%Q in
      Num (Math_round (Qmax 0 (Qmin 100 capacity)))
  end.

(** The call with both defaults, as every call site makes it. *)
Definition calculateCapacity1 (distance : number) : number :=
  calculateCapacity distance 50 0.

(** [generateId(prefix)]: only the clock reading inside the id is kept. *)
Definition generateId (H : Host) (prefix : string) : M Z := Date_now H.

(** [units] of [formatTime], largest first. *)
Definition units : list (string * Z) :=
  [("hari", 86400); ("jam", 3600); ("menit", 60); ("detik", 1)].

(** The [for ... of units] loop of [formatTime]; [None] when it falls
    through. *)
Fixpoint formatTimeLoop (us : list (string * Z)) (seconds : Z) : option string :=
  match us with
  | [] => None
  | (label, value) :: rest =>
      if value <=? seconds
      then Some (toString (seconds / value) ++ " " ++ label)%string
      else formatTimeLoop rest seconds
  end.

(** [formatTime(seconds)] on a whole number of seconds. *)
Definition formatTime (seconds : Z) : string :=
  match formatTimeLoop units seconds with
  | Some text => text
  | None => "0 detik"
  end.

End Utils.

(** ** [javascript.js]: [Logger] *)

Module Logger.

Definition maxLogs : nat := 500.

(** [log(message, type)]: the entry goes first; the list is cut back to
    [maxLogs].  Saving, the UI and the console are not part of [db]. *)
Definition log (H : Host) (msg type : string) : M Z :=
  id <- Utils.generateId H "log" ;;
  ts <- Date_now H ;;
  let logEntry :=
    {| log_id := id; log_timestamp := ts; log_message := msg;
       log_type := type |} in
  modify (fun d => set_logs (logEntry :: logs d) d) ;;
  modify (fun d =>
            if (maxLogs <? List.length (logs d))%nat
            then set_logs (firstn maxLogs (logs d)) d
            else d) ;;
  ret id.

(** [clearLogs()], as far as [db] goes. *)
Definition clearLogs : M unit := modify (set_logs []).

End Logger.

(** ** [javascript.js]: [HistoryManager] *)

Module HistoryManager.

Definition maxHistorySize : nat := 1000.

(** The object literal a new bucket starts from. *)
Definition newBucket : Bucket :=
  {| b_total := 0; b_count := 0; b_max := 0; b_min := 100;
     b_timestamps := [] |}.

(** The five updates made to a bucket. *)
Definition record (timestamp capacity : Z) (b : Bucket) : Bucket :=
  {| b_total := b_total b + capacity;
     b_count := b_count b + 1;
     b_max := Z.max (b_max b) capacity;
     b_min := Z.min (b_min b) capacity;
     b_timestamps := b_timestamps b ++ [timestamp] |}.

Definition weekKey (H : Host) (timestamp : Z) : string :=
  toString (getFullYear H timestamp) ++ "-W"
    ++ toString (Math_ceil_div (getDate H timestamp) 7).

Definition monthKey (H : Host) (timestamp : Z) : string :=
  toString (getFullYear H timestamp) ++ "-"
    ++ toString (getMonth H timestamp + 1).

(** [if (!o[k]) o[k] = {...}; o[k].total += ...]: a stored bucket is an
    object, hence truthy. *)
Definition aggregateInto (k : string) (timestamp capacity : Z) (o : Obj) : Obj :=
  let o1 :=
    match Object.lookup k o with
    | None => Object.create k newBucket o
    | Some _ => o
    end in
  Object.adjust k (record timestamp capacity) o1.

(** The clean-up at the end of [aggregateHistory]: [months.slice(0, -12)] are
    deleted when there are more than 12 keys. *)
Definition cleanup (o : Obj) : Obj :=
  let months := Object.keys o in
  if (12 <? List.length months)%nat
  then
    let oldMonths := firstn (List.length months - 12) months in
    fold_left (fun acc m => Object.delete m acc) oldMonths o
  else o.

(** [aggregateHistory(timestamp, capacity)] on [db.usageHistory]. *)
Definition aggregateHistory (H : Host) (timestamp capacity : Z)
  (h : UsageHistory) : UsageHistory :=
  let weekly1 := aggregateInto (weekKey H timestamp) timestamp capacity (weekly h) in
  let monthly1 :=
    aggregateInto (monthKey H timestamp) timestamp capacity (monthly h) in
  {| daily := daily h; weekly := weekly1; monthly := cleanup monthly1 |}.

(** [daily.slice(-n)] *)
Definition slice_last (n : nat) (l : list Sample) : list Sample :=
  skipn (List.length l - n) l.

(** [addToHistory(capacity)] *)
Definition addToHistory (H : Host) (capacity : Z) : M unit :=
  timestamp <- Date_now H ;;
  let entry := {| s_timestamp := timestamp; s_capacity := capacity |} in
  modify (fun d =>
            let h := usageHistory d in
            set_usageHistory
              {| daily := daily h ++ [entry]; weekly := weekly h;
                 monthly := monthly h |} d) ;;
  modify (fun d =>
            let h := usageHistory d in
            if (maxHistorySize <? List.length (daily h))%nat
            then set_usageHistory
                   {| daily := slice_last 500 (daily h); weekly := weekly h;
                      monthly := monthly h |} d
            else d) ;;
  modify (fun d =>
            set_usageHistory (aggregateHistory H timestamp capacity (usageHistory d)) d).

(** The properties of [usageHistory] that [getStats] can be asked for. *)
Inductive Period : Type := p_daily | p_weekly | p_monthly.

(** What [getStats] returns when it returns an object. *)
Record Stats : Type := {
  st_average : Q;
  st_max : Z;
  st_min : Z;
  st_last : Z;
  st_count : nat
}.

(** How a call ends: with a value, or with the [TypeError] of calling a
    property that is not a function. *)
Inductive Completion (A : Type) : Type :=
| Returned : A -> Completion A
| ThrewTypeError : Completion A.

Arguments Returned {A} _.
Arguments ThrewTypeError {A}.

(** [Math.max(...values)] and [Math.min(...values)] on a non-empty list. *)
Definition maximum (first : Z) (others : list Z) : Z := fold_left Z.max others first.
Definition minimum (first : Z) (others : list Z) : Z := fold_left Z.min others first.

(** [getStats(period = 'daily')]: [daily] is an array; [weekly] and [monthly]
    are plain objects, whose [length] is [undefined] and which have no
    [map]. *)
Definition getStats (period : Period) (h : UsageHistory)
  : Completion (option Stats) :=
  match period with
  | p_daily =>
      match map s_capacity (daily h) with
      | [] => Returned None
      | v :: vs =>
          Returned
            (Some {| st_average :=
                       Qdiv (inject_Z (fold_left Z.add (v :: vs) 0))
                            (inject_Z (Z.of_nat (List.length (v :: vs))));
                     st_max := maximum v vs;
                     st_min := minimum v vs;
                     st_last := last vs v;
                     st_count := List.length (v :: vs) |})
      end
  | p_weekly => ThrewTypeError
  | p_monthly => ThrewTypeError
  end.

End HistoryManager.

(** ** [javascript.js]: [DataProcessor] *)

Module DataProcessor.

(** [patterns], in the order [Object.entries] lists it. *)
Definition patterns : list (PatternKey * (string -> Match)) :=
  [ (k_status, re_prefix_rest "STATUS:");
    (k_distance, re_prefix_digits "DISTANCE:");
    (k_usage, re_prefix_digits "USAGE:");
    (k_ready, re_prefix "SYSTEM_READY");
    (k_command, re_prefix_rest "CMD_RECEIVED:") ].

(** [match[1] || true]: an absent or empty group is falsy. *)
Definition group_or_true (g : option string) : Value :=
  match g with
  | Some EmptyString => VTrue
  | Some s => VString s
  | None => VTrue
  end.

(** The [for ... of Object.entries(patterns)] loop: the first pattern that
    matches decides; [None] when the loop falls through. *)
Fixpoint firstMatch (ps : list (PatternKey * (string -> Match))) (line : string)
  : option Update :=
  match ps with
  | [] => None
  | (key, regex) :: rest =>
      match regex line with
      | Some g => Some (matched key (group_or_true g) line)
      | None => firstMatch rest line
      end
  end.

(** The comma branch of [parseSerialLine]: [None] when it does not return. *)
Definition parseFull (line : string) : option Update :=
  if includes "," line then
    let parts := split "," line in
    if (5 <=? List.length parts)%nat then
      Some (full (nth 0 parts "")
                 (or_zero (parseInt (nth 1 parts "")))
                 (or_zero (parseInt (nth 2 parts "")))
                 (or_zero (parseInt (nth 3 parts "")))
                 (or_zero (parseInt (nth 4 parts "")))
                 line)
    else None
  else None.

(** [parseSerialLine(line)] *)
Definition parseSerialLine (line : string) : Update :=
  match parseFull line with
  | Some u => u
  | None =>
      match firstMatch patterns line with
      | Some u => u
      | None => message line line
      end
  end.

(** The loop of [processSerialChunk] over the lines. *)
Fixpoint processLines (lines : list string) : list Update :=
  match lines with
  | [] => []
  | line :: rest =>
      let trimmed := trim line in
      if (trimmed =? "")%string then processLines rest
      else parseSerialLine trimmed :: processLines rest
  end.

(** [processSerialChunk(chunk)] *)
Definition processSerialChunk (chunk : string) : list Update :=
  processLines (split "010" (trim chunk)).

(** [handleStatusChange(newStatus, oldStatus)] *)
Definition handleStatusChange (H : Host) (newStatus : string) (oldStatus : Value)
  : M unit :=
  if (newStatus =? "BUKA")%string && Value_eqb oldStatus (VString "TUTUP") then
    now <- Date_now H ;;
    modify (set_lastActivity (Some now)) ;;
    modify (fun d => set_dailyUsage (incr (dailyUsage d)) d) ;;
    modify (fun d => set_totalUsage (incr (totalUsage d)) d) ;;
    Logger.log H "Tong dibuka oleh Arduino" "success" ;;
    ret tt
  else if (newStatus =? "TUTUP")%string && Value_eqb oldStatus (VString "BUKA") then
    Logger.log H "Tong ditutup oleh Arduino" "success" ;;
    ret tt
  else ret tt.

(** [applyUpdate(data)]; [None] is an [undefined] argument. *)
Definition applyUpdate (H : Host) (data : option Update) : M unit :=
  match data with
  | Some (full st cap dist daily total _) =>
      oldStatus <- get status ;;
      modify (set_status (VString st)) ;;
      modify (set_capacity (Num cap)) ;;
      modify (set_distance (Num dist)) ;;
      modify (set_dailyUsage (Num daily)) ;;
      modify (set_totalUsage (Num total)) ;;
      now <- Date_now H ;;
      modify (set_lastUpdate now) ;;
      (if negb (Value_eqb oldStatus (VString st))
       then handleStatusChange H st oldStatus
       else ret tt) ;;
      HistoryManager.addToHistory H cap
  | _ => ret tt
  end.

(** [parseInt(data.value)]: [true] is converted to the string ["true"]. *)
Definition parseIntValue (v : Value) : number :=
  match v with
  | VString s => parseInt s
  | VTrue => parseInt "true"
  end.

(** [applyPartialUpdate(data)]: the [switch] has three cases and no default;
    the assignment to [lastUpdate] follows it. *)
Definition applyPartialUpdate (H : Host) (data : Update) : M unit :=
  match data with
  | matched k_status v _ => modify (set_status v)
  | matched k_distance v _ =>
      modify (set_distance (parseIntValue v)) ;;
      modify (fun d => set_capacity (Utils.calculateCapacity1 (distance d)) d)
  | matched k_usage v _ => modify (set_dailyUsage (parseIntValue v))
  | _ => ret tt
  end ;;
  now <- Date_now H ;;
  modify (set_lastUpdate now).

(** [batchUpdate(updates)] *)
Definition batchUpdate (H : Host) (updates : list Update) : M bool :=
  let fullUpdates := filter isFull updates in
  if (0 <? List.length fullUpdates)%nat then
    let latest := nth_error fullUpdates (List.length fullUpdates - 1) in
    applyUpdate H latest ;;
    ret true
  else
    forEach (applyPartialUpdate H) updates ;;
    ret (0 <? List.length updates)%nat.

End DataProcessor.

(** ** [javascript.js]: [SerialManager.processData] *)

Module SerialManager.

(** Rendering of [update.value] inside a template literal. *)
Definition renderValue (u : Update) : string :=
  match u with
  | message v _ => v
  | matched _ (VString s) _ => s
  | matched _ VTrue _ => "true"
  | full _ _ _ _ _ _ => "undefined"
  end.

(** [update.type === 'message' || update.type === 'ready'] *)
Definition isLogged (u : Update) : bool :=
  match u with
  | message _ _ => true
  | matched k_ready _ _ => true
  | _ => false
  end.

(** [processData(data)]; scheduling the UI refresh is outside the model. *)
Definition processData (H : Host) (data : string) : M unit :=
  let updates := DataProcessor.processSerialChunk data in
  DataProcessor.batchUpdate H updates ;;
  forEach (fun update =>
             if isLogged update
             then Logger.log H ("Arduino: " ++ renderValue update) "arduino" ;; ret tt
             else ret tt)
          updates.

End SerialManager.

(** ** [javascript.js]: [UI], the part that writes [db] *)

Module UI.

Section WithPage.

(** The host; whether the page has a notification container (with one,
    [showNotification] generates an id, which reads the clock); and what the
    synchronous part of [SerialManager.send] does. *)
Variable H : Host.
Variable hasNotificationContainer : bool.
Variable send : string -> M unit.

(** [showNotification(message, type)], as far as the clock goes. *)
Definition showNotification (msg type : string) : M unit :=
  if hasNotificationContainer
  then Utils.generateId H "notif" ;; ret tt
  else ret tt.

(** [a + b] with [a] a stored number. *)
Definition plus (a : number) (b : Z) : number :=
  match a with
  | NaN => NaN
  | Num z => Num (z + b)
  end.

(** [Math.max(0, Math.min(50, x))] *)
Definition clampDistance (x : number) : number :=
  match x with
  | NaN => NaN
  | Num z => Num (Z.max 0 (Z.min 50 z))
  end.

(** [generateSimulatedData()]; [r1] and [r2] are the values its two calls of
    [Math.random()] return. *)
Definition generateSimulatedData (r1 r2 : Q) : M unit :=
  let randomChange := if Qlt_le_dec (1 # 2) r1 then 1 else -1 in
  let changeAmount := Qfloor (r2 * 10) * randomChange in
  modify (fun d => set_distance (clampDistance (plus (distance d) changeAmount)) d) ;;
  modify (fun d => set_capacity (Utils.calculateCapacity1 (distance d)) d) ;;
  now <- Date_now H ;;
  modify (set_lastUpdate now).

(** [simulateCommand(command)]; the text of the notification plays no part
    in the model. *)
Definition simulateCommand (r1 r2 : Q) (command : string) : M unit :=
  (if (command =? "BUKA")%string then
     modify (set_status (VString "BUKA")) ;;
     now <- Date_now H ;;
     modify (set_lastActivity (Some now)) ;;
     modify (fun d => set_dailyUsage (incr (dailyUsage d)) d) ;;
     modify (fun d => set_totalUsage (incr (totalUsage d)) d) ;;
     Logger.log H "Tong dibuka (simulasi)" "success" ;;
     ret tt
   else if (command =? "TUTUP")%string then
     modify (set_status (VString "TUTUP")) ;;
     Logger.log H "Tong ditutup (simulasi)" "success" ;;
     ret tt
   else if (command =? "STATUS")%string then
     generateSimulatedData r1 r2 ;;
     Logger.log H "Status diperbarui (simulasi)" "info" ;;
     ret tt
   else ret tt) ;;
  showNotification ("Command " ++ command ++ " dieksekusi (simulasi)")%string "info".

(** [sendCommand(command)]; [isConnected] is [state.serial.isConnected]. *)
Definition sendCommand (isConnected : bool) (r1 r2 : Q) (command : string)
  : M unit :=
  if isConnected then send command else simulateCommand r1 r2 command.

(** [toggleDoor()] *)
Definition toggleDoor (isConnected : bool) (r1 r2 : Q) : M unit :=
  st <- get status ;;
  sendCommand isConnected r1 r2
    (if Value_eqb st (VString "BUKA") then "TUTUP" else "BUKA").

(** [refreshData()] *)
Definition refreshData (isConnected : bool) (r1 r2 : Q) : M unit :=
  sendCommand isConnected r1 r2 "STATUS" ;;
  Logger.log H "Data direfresh" "info" ;;
  ret tt.

End WithPage.

End UI.

(** ** [javascript.js]: the [padStart] polyfill *)

Module Polyfill.

(** [while (times--) fillString += fillString] *)
Fixpoint double (times : nat) (fillString : string) : string :=
  match times with
  | O => fillString
  | S n => double n (fillString ++ fillString)%string
  end.

(** [String.prototype.padStart(maxLength, fillString)] as the polyfill
    defines it, for a whole [maxLength]. *)
Definition padStart (this : string) (maxLength : Z) (fillString : string)
  : string :=
  if Z.of_nat (String.length this) >=? maxLength then this
  else
    let fillString := if (String.length fillString =? 0)%nat then " " else fillString in
    let fillLen := maxLength - Z.of_nat (String.length this) in
    let times := Math_ceil_div fillLen (Z.of_nat (String.length fillString)) in
    let fillString := double (Z.to_nat times) fillString in
    (substring 0 (Z.to_nat fillLen) fillString ++ this)%string.

End Polyfill.

(** ** The device fields shared by the two files *)

(** The fields of the device state that both [javascript.js] and [style.js]
    maintain, for comparing the two. *)
Record Device : Type := {
  dev_status : Value;
  dev_capacity : number;
  dev_distance : number;
  dev_dailyUsage : number;
  dev_totalUsage : number;
  dev_lastActivity : option Z
}.

Definition device_of_DB (d : DB) : Device :=
  {| dev_status := status d; dev_capacity := capacity d;
     dev_distance := distance d; dev_dailyUsage := dailyUsage d;
     dev_totalUsage := totalUsage d; dev_lastActivity := lastActivity d |}.

(** ** [style.js] *)

Module StyleJs.

(** The global [db] as [style.js] uses it; [lastActivity] and [lastUpdate]
    hold [Date] objects, kept as their time values. *)
Record Db : Type := {
  status : string;
  capacity : number;
  distance : number;
  dailyUsage : number;
  totalUsage : number;
  lastActivity : option Z;
  lastUpdate : Z
}.

(** The argument object of [updateFromArduinoData]. *)
Record Data : Type := {
  d_status : string;
  d_capacity : number;
  d_distance : number;
  d_dailyUsage : number;
  d_totalUsage : number
}.

Definition device (d : Db) : Device :=
  {| dev_status := VString (status d); dev_capacity := capacity d;
     dev_distance := distance d; dev_dailyUsage := dailyUsage d;
     dev_totalUsage := totalUsage d; dev_lastActivity := lastActivity d |}.

(** Rendering of a number inside a template literal. *)
Definition renderNumber (x : number) : string :=
  match x with
  | NaN => "NaN"
  | Num z => toString z
  end.

(** [calculateCapacity(distance)]: no clamp before the linear map; the clamp
    follows [Math.round]. *)
Definition calculateCapacity (distance : number) : number :=
  match distance with
  | NaN => NaN
  | Num d =>
      let maxDistance := 50%Q in
      let minDistance := 0%Q in
      let capacity :=
        (100 - ((inject_Z d - minDistance) / (maxDistance - minDistance)) * 100)%Q in
      Num (Z.max 0 (Z.min 100 (Math_round capacity)))
  end.

Section WithScript.

(** Modelled from the spec: [addLog], [addToUsageHistory] and
    [updateAllDisplays] are defined in [script.js], which is not among the
    sources.  Following the spec (log entries and history samples are kept
    apart from the device state, which only event application mutates) they
    act on the rest of the page state, [Aux], and may read the clock. *)
Variable Aux : Type.
Variable addLog : string -> string -> Aux * nat -> Aux * nat.
Variable addToUsageHistory : number -> Aux * nat -> Aux * nat.
Variable updateAllDisplays : Aux * nat -> Aux * nat.
Variable H : Host.

(** The page state: [db], everything else, and the clock readings made. *)
Record World : Type := {
  db : Db;
  aux : Aux;
  ticks : nat
}.

(** An assignment to a property of [db]. *)
Definition assign (f : Db -> Db) (w : World) : World :=
  {| db := f (db w); aux := aux w; ticks := ticks w |}.

(** A call of one of the [script.js] helpers. *)
Definition call (f : Aux * nat -> Aux * nat) (w : World) : World :=
  let '(a, t) := f (aux w, ticks w) in
  {| db := db w; aux := a; ticks := t |}.

(** [new Date()], handed to the assignment [k]. *)
Definition newDate (k : Z -> Db -> Db) (w : World) : World :=
  {| db := k (clock H (ticks w)) (db w); aux := aux w; ticks := S (ticks w) |}.

Definition set_status (v : string) (d : Db) : Db :=
  {| status := v; capacity := capacity d; distance := distance d;
     dailyUsage := dailyUsage d; totalUsage := totalUsage d;
     lastActivity := lastActivity d; lastUpdate := lastUpdate d |}.

Definition set_capacity (v : number) (d : Db) : Db :=
  {| status := status d; capacity := v; distance := distance d;
     dailyUsage := dailyUsage d; totalUsage := totalUsage d;
     lastActivity := lastActivity d; lastUpdate := lastUpdate d |}.

Definition set_distance (v : number) (d : Db) : Db :=
  {| status := status d; capacity := capacity d; distance := v;
     dailyUsage := dailyUsage d; totalUsage := totalUsage d;
     lastActivity := lastActivity d; lastUpdate := lastUpdate d |}.

Definition set_dailyUsage (v : number) (d : Db) : Db :=
  {| status := status d; capacity := capacity d; distance := distance d;
     dailyUsage := v; totalUsage := totalUsage d;
     lastActivity := lastActivity d; lastUpdate := lastUpdate d |}.

Definition set_totalUsage (v : number) (d : Db) : Db :=
  {| status := status d; capacity := capacity d; distance := distance d;
     dailyUsage := dailyUsage d; totalUsage := v;
     lastActivity := lastActivity d; lastUpdate := lastUpdate d |}.

Definition set_lastActivity (v : Z) (d : Db) : Db :=
  {| status := status d; capacity := capacity d; distance := distance d;
     dailyUsage := dailyUsage d; totalUsage := totalUsage d;
     lastActivity := Some v; lastUpdate := lastUpdate d |}.

Definition set_lastUpdate (v : Z) (d : Db) : Db :=
  {| status := status d; capacity := capacity d; distance := distance d;
     dailyUsage := dailyUsage d; totalUsage := totalUsage d;
     lastActivity := lastActivity d; lastUpdate := v |}.

(** The test guarding the "door just opened" branch, as [style.js] evaluates
    it: after [db.status] has been assigned. *)
Definition justOpened (data : Data) (w : World) : bool :=
  (d_status data =? "BUKA")%string && negb (status (db w) =? "BUKA")%string.

(** The test guarding the "door just closed" branch. *)
Definition justClosed (data : Data) (w : World) : bool :=
  (d_status data =? "TUTUP")%string && negb (status (db w) =? "TUTUP")%string.

(** The five assignments that open [updateFromArduinoData] ("Update
    database"); the function's tests are evaluated in the state they leave. *)
Definition updateDatabase (data : Data) (w : World) : World :=
  let w := assign (set_status (d_status data)) w in
  let w := assign (set_capacity (d_capacity data)) w in
  let w := assign (set_distance (d_distance data)) w in
  let w := assign (set_dailyUsage (d_dailyUsage data)) w in
  assign (set_totalUsage (d_totalUsage data)) w.

(** [updateFromArduinoData(data)] *)
Definition updateFromArduinoData (data : Data) (w : World) : World :=
  let w := updateDatabase data w in
  let w :=
    if justOpened data w then
      let w := newDate set_lastActivity w in
      call (addLog "Tong dibuka oleh Arduino" "success") w
    else if justClosed data w then
      call (addLog "Tong ditutup oleh Arduino" "success") w
    else w in
  let w := call (addToUsageHistory (d_capacity data)) w in
  call (addLog ("Data diterima: " ++ renderNumber (d_capacity data) ++ "%, "
                  ++ renderNumber (d_distance data) ++ "cm") "info") w.

(** [line.replace(prefix, '')] for a line that starts with [prefix]. *)
Definition removePrefix (prefix line : string) : string :=
  match stripPrefix prefix line with
  | Some rest => rest
  | None => line
  end.

(** The callback [processSerialData] runs on each piece of the chunk. *)
Definition processLine (line : string) (w : World) : World :=
  let line := trim line in
  if (String.length line =? 0)%nat then w
  else
    let w := newDate set_lastUpdate w in
    if includes "," line then
      let parts := split "," line in
      if (5 <=? List.length parts)%nat then
        updateFromArduinoData
          {| d_status := nth 0 parts "";
             d_capacity := parseInt (nth 1 parts "");
             d_distance := parseInt (nth 2 parts "");
             d_dailyUsage := parseInt (nth 3 parts "");
             d_totalUsage := parseInt (nth 4 parts "") |} w
      else w
    else if startsWith line "STATUS:" then
      let status := trim (removePrefix "STATUS:" line) in
      let w := assign (set_status status) w in
      call (addLog ("Status dari Arduino: " ++ status) "info") w
    else if startsWith line "DISTANCE:" then
      let distance := parseInt (trim (removePrefix "DISTANCE:" line)) in
      let w := assign (set_distance distance) w in
      assign (set_capacity (calculateCapacity distance)) w
    else if startsWith line "USAGE:" then
      let usage := parseInt (trim (removePrefix "USAGE:" line)) in
      assign (set_dailyUsage usage) w
    else
      call (addLog ("Arduino: " ++ line) "info") w.

(** [processSerialData(data)] *)
Definition processSerialData (data : string) (w : World) : World :=
  let lines := split "010" data in
  let w := fold_left (fun w line => processLine line w) lines w in
  call updateAllDisplays w.

End WithScript.

Arguments db {Aux} _.
Arguments aux {Aux} _.
Arguments ticks {Aux} _.
Arguments Build_World {Aux} _ _ _.
Arguments justOpened {Aux} _ _.
Arguments justClosed {Aux} _ _.

End StyleJs.

(** ** A concrete host and initial state, for running the model *)

Module Scenario.

(** Proleptic Gregorian date of a day number counted from 1970-01-01:
    (year, month 1..12, day of month). *)
Definition civil (days : Z) : Z * Z * Z :=
  let z := days + 719468 in
  let era := z / 146097 in
  let doe := z - era * 146097 in
  let yoe := (doe - doe / 1460 + doe / 36524 - doe / 146096) / 365 in
  let doy := doe - (365 * yoe + yoe / 4 - yoe / 100) in
  let mp := (5 * doy + 2) / 153 in
  let d := doy - (153 * mp + 2) / 5 + 1 in
  let m := if mp <? 10 then mp + 3 else mp - 9 in
  let y := yoe + era * 400 + (if m <=? 2 then 1 else 0) in
  (y, m, d).

Definition msPerDay : Z := 86400000.

(** A host in the UTC time zone whose clock starts on 2024-01-15 00:00:00 and
    advances one second per reading. *)
Definition utcHost : Host :=
  {| clock := fun n => 1705276800000 + 1000 * Z.of_nat n;
     getFullYear := fun t => fst (fst (civil (t / msPerDay)));
     getMonth := fun t => snd (fst (civil (t / msPerDay))) - 1;
     getDate := fun t => snd (civil (t / msPerDay)) |}.

Definition emptyHistory : UsageHistory :=
  {| daily := []; weekly := []; monthly := [] |}.

(** The default [db] that [init] creates when nothing is stored. *)
Definition initialDB (now : Z) : DB :=
  {| status := VString "TUTUP"; capacity := Num 0; distance := Num 0;
     dailyUsage := Num 0; totalUsage := Num 0; lastActivity := None;
     lastUpdate := now; logs := []; usageHistory := emptyHistory |}.

Definition initialWorld : World :=
  {| db := initialDB 1705276800000; ticks := 1 |}.

(** The full report of the spec's scenario. *)
Definition report : Update :=
  DataProcessor.parseSerialLine "BUKA,45,27,3,120".

(** The state after that report, applied to the initial state. *)
Definition afterReport : World :=
  exec (DataProcessor.applyUpdate utcHost (Some report)) initialWorld.

(** A full report whose capacity field is above 100. *)
Definition overfullReport : Update :=
  DataProcessor.parseSerialLine "BUKA,150,27,3,120".

(** A state with an open lid whose counters are above those of [report]. *)
Definition busyWorld : World :=
  {| db := set_totalUsage (Num 200)
             (set_dailyUsage (Num 5)
                (set_status (VString "BUKA") (initialDB 1705276800000)));
     ticks := 1 |}.

(** A closed lid with counters 3 and 120 and no recorded activity. *)
Definition closedWorld : World :=
  {| db := set_totalUsage (Num 120)
             (set_dailyUsage (Num 3) (initialDB 1705276800000));
     ticks := 1 |}.

(** The partial report that announces an open lid. *)
Definition statusOpen : Update :=
  DataProcessor.parseSerialLine "STATUS:BUKA".

(** A diagnostic line and the ready announcement. *)
Definition diagnostic : Update := DataProcessor.parseSerialLine "hello".
Definition systemReady : Update := DataProcessor.parseSerialLine "SYSTEM_READY".

(** A five-field line whose capacity field is not a number. *)
Definition malformed : string := "STATUS,notanumber,27,3,120".

(** Samples taken every 31 days from 2024-01-15, each followed by a second
    one a day later: two in each month from January 2024 to January 2025. *)
Definition thirteenMonths : list (Z * Z) :=
  flat_map
    (fun k =>
       let t := 1705276800000 + Z.of_nat k * (31 * msPerDay) in
       [(t, 10 + Z.of_nat k); (t + msPerDay, 11 + Z.of_nat k)])
    (seq 0 13).

(** The argument [style.js] builds for [updateFromArduinoData] from the line
    of [report]. *)
Definition styleReport : StyleJs.Data :=
  {| StyleJs.d_status := "BUKA"; StyleJs.d_capacity := Num 45;
     StyleJs.d_distance := Num 27; StyleJs.d_dailyUsage := Num 3;
     StyleJs.d_totalUsage := Num 120 |}.

(** The page state of [style.js] with the device fields of [closedWorld] and
    nothing else. *)
Definition closedPage : StyleJs.World unit :=
  {| StyleJs.db :=
       {| StyleJs.status := "TUTUP"; StyleJs.capacity := Num 0;
          StyleJs.distance := Num 0; StyleJs.dailyUsage := Num 3;
          StyleJs.totalUsage := Num 120; StyleJs.lastActivity := None;
          StyleJs.lastUpdate := 1705276800000 |};
     StyleJs.aux := tt;
     StyleJs.ticks := 1 |}.

(** Helpers of [script.js] that do nothing. *)
Definition noLog (msg type : string) (s : unit * nat) : unit * nat := s.
Definition noHistory (capacity : number) (s : unit * nat) : unit * nat := s.

(** A state whose daily history holds 1000 samples. *)
Definition fullHistoryWorld : World :=
  {| db := set_usageHistory
             {| daily := repeat {| s_timestamp := 0; s_capacity := 10 |} 1000;
                weekly := []; monthly := [] |}
             (initialDB 1705276800000);
     ticks := 1 |}.

(** A line feed, for writing chunks. *)
Definition LF : string := String "010" EmptyString.

(** A chunk with two full reports among partial ones. *)
Definition mixedBatch : list Update :=
  DataProcessor.processSerialChunk
    ("STATUS:BUKA" ++ LF ++ "TUTUP,10,45,1,2" ++ LF ++ "BUKA,45,27,3,120"
       ++ LF ++ "USAGE:9" ++ LF).

(** A chunk of partial reports only. *)
Definition partialBatch : list Update :=
  DataProcessor.processSerialChunk
    ("STATUS:BUKA" ++ LF ++ "DISTANCE:10" ++ LF ++ "USAGE:9" ++ LF).

End Scenario.

(** ** Vocabulary of the properties *)

(** The spec's [clamp(x, lo, hi)]. *)
Definition clamp (x lo hi : Q) : Q := Qmax lo (Qmin hi x).

(** The capacity formula in the words of the spec:
    [round(clamp(100 - 100*(clamp(d,0,50)-0)/(50-0), 0, 100))]. *)
Definition spec_capacity (d : Z) : Z :=
  Math_round
    (clamp (100 - 100 * (clamp (inject_Z d) 0 50 - 0) / (50 - 0))%Q 0 100).

(** The binary64 value [calculateCapacity] of [javascript.js] computes before
    clamping and rounding, for a clamped distance. *)
Definition capacity64 (clamped : float) : float :=
  (100 - ((clamped - 0) / (50 - 0)) * 100)%float.

(** The rational a finite double denotes. *)
Definition exactQ (f : float) : option Q :=
  match Prim2SF f with
  | S754_zero _ => Some 0%Q
  | S754_finite s m e =>
      Some (inject_Z (if s then Z.neg m else Z.pos m) * Qpower 2 e)%Q
  | _ => None
  end.

(** [Math.round(Math.max(0, Math.min(100, capacity)))] on that double, for the
    clamped distance [c] (an integer, exact as a double). *)
Definition round64 (c : Z) : option Z :=
  match exactQ (capacity64 (PrimFloat.of_uint63 (Uint63.of_Z c))) with
  | Some q => Some (Math_round (Qmax 0 (Qmin 100 q)))
  | None => None
  end.

(** [a <= b] on numbers: false as soon as one side is NaN. *)
Definition number_le (a b : number) : Prop :=
  match a, b with
  | Num x, Num y => x <= y
  | _, _ => False
  end.

(** [lo <= x <= hi] on a number. *)
Definition number_in (lo hi : Z) (x : number) : Prop :=
  match x with
  | Num z => lo <= z <= hi
  | NaN => False
  end.

(** No full report in a batch. *)
Definition noFull (updates : list Update) : Prop :=
  Forall (fun u => isFull u = false) updates.

(** Applying one event to the state: the state update [batchUpdate] performs
    for the batch made of that event alone. *)
Definition applyEvent (H : Host) (u : Update) (w : World) : World :=
  exec (DataProcessor.batchUpdate H [u]) w.

(** The daily counter an event reports, if it reports one: the fourth field
    of a full report, the value of a [USAGE:] line. *)
Definition reportedDaily (u : Update) : option number :=
  match u with
  | full _ _ _ daily _ _ => Some (Num daily)
  | matched k_usage v _ => Some (DataProcessor.parseIntValue v)
  | _ => None
  end.

(** The total counter an event reports, if it reports one. *)
Definition reportedTotal (u : Update) : option number :=
  match u with
  | full _ _ _ _ total _ => Some (Num total)
  | _ => None
  end.

(** The capacity a full report carries. *)
Definition reportedCapacity (u : Update) : option number :=
  match u with
  | full _ cap _ _ _ _ => Some (Num cap)
  | _ => None
  end.

(** [r], when present, is at least [x]. *)
Definition atLeast (x : number) (r : option number) : Prop :=
  match r with
  | Some y => number_le x y
  | None => True
  end.

(** The last [n] elements of a list ([l.slice(-n)]). *)
Definition lastn {A : Type} (n : nat) (l : list A) : list A :=
  skipn (List.length l - n) l.

(** Recording a sequence of (timestamp, capacity) samples, oldest first. *)
Definition recordAll (H : Host) (samples : list (Z * Z)) (h : UsageHistory)
  : UsageHistory :=
  fold_left (fun h s => HistoryManager.aggregateHistory H (fst s) (snd s) h)
            samples h.

(** The device fields after a recorded opening at time [now]: the activity
    stamp is set and both counters are incremented. *)
Definition opened (now : Z) (dv : Device) : Device :=
  {| dev_status := dev_status dv; dev_capacity := dev_capacity dv;
     dev_distance := dev_distance dv;
     dev_dailyUsage := incr (dev_dailyUsage dv);
     dev_totalUsage := incr (dev_totalUsage dv);
     dev_lastActivity := Some now |}.

(** The device fields a full report writes, before any transition logic. *)
Definition reported (st : string) (cap dist daily total : Z) (dv : Device)
  : Device :=
  {| dev_status := VString st; dev_capacity := Num cap;
     dev_distance := Num dist; dev_dailyUsage := Num daily;
     dev_totalUsage := Num total; dev_lastActivity := dev_lastActivity dv |}.

(** The test of the first branch of [handleStatusChange]. *)
Definition opens (newStatus : string) (oldStatus : Value) : bool :=
  (newStatus =? "BUKA")%string && Value_eqb oldStatus (VString "TUTUP").

(** Every character is an ASCII digit. *)
Fixpoint allDigits (s : string) : bool :=
  match s with
  | EmptyString => true
  | String c r => isDigit c && allDigits r
  end.

(** A numeric field of a full report against what [parseInt] made of its
    text: the parsed integer, or 0 when parsing failed. *)
Definition defaulted (parsed : number) (field : Z) : Prop :=
  match parsed with
  | NaN => field = 0
  | Num z => field = z
  end.

(** [k] is one of [ks]. *)
Definition memb (k : string) (ks : list string) : bool :=
  existsb (String.eqb k) ks.

(** The month key of a sample. *)
Definition sampleMonth (H : Host) (s : Z * Z) : string :=
  HistoryManager.monthKey H (fst s).

(** The keys of [ks] in the order they first appear, after those of [seen]:
    the order in which the buckets of these keys are first created. *)
Fixpoint createdFrom (seen ks : list string) : list string :=
  match ks with
  | [] => seen
  | k :: rest => createdFrom (if memb k seen then seen else seen ++ [k]) rest
  end.

Definition created (ks : list string) : list string := createdFrom [] ks.

(** No key of [ks] comes back once 12 newer keys have appeared after it
    (samples in chronological order satisfy this). *)
Fixpoint inWindowFrom (seen ks : list string) : bool :=
  match ks with
  | [] => true
  | k :: rest =>
      (negb (memb k seen) || memb k (lastn 12 seen))
      && inWindowFrom (if memb k seen then seen else seen ++ [k]) rest
  end.

Definition inWindow (ks : list string) : bool := inWindowFrom [] ks.

(** ** Proof steps used more than once *)

(** Case analysis on the eight bits of a character. *)
Ltac ascii_cases c :=
  destruct c as [[] [] [] [] [] [] [] []].

(** Reading the fields of [db] off an equation between device records. *)
Ltac device_fields E :=
  pose proof (f_equal dev_status E);
  pose proof (f_equal dev_capacity E);
  pose proof (f_equal dev_distance E);
  pose proof (f_equal dev_dailyUsage E);
  pose proof (f_equal dev_totalUsage E);
  pose proof (f_equal dev_lastActivity E);
  cbn [device_of_DB opened reported incr dev_status dev_capacity dev_distance
       dev_dailyUsage dev_totalUsage dev_lastActivity] in *.

(** ** Vocabulary of the further properties *)

(** How many times [c] occurs in [s]. *)
Fixpoint countChar (c : ascii) (s : string) : nat :=
  match s with
  | EmptyString => 0%nat
  | String d r => ((if (d =? c)%char then 1 else 0) + countChar c r)%nat
  end.

(** The line a device writes for a full report: five comma-separated
    fields. *)
Definition renderFull (st : string) (cap dist daily total : Z) : string :=
  st ++ "," ++ toString cap ++ "," ++ toString dist ++ ","
     ++ toString daily ++ "," ++ toString total.

(** The number a decimal numeral denotes, read left to right after [acc]. *)
Fixpoint uintValue (d : Decimal.uint) (acc : Z) : Z :=
  match d with
  | Decimal.Nil => acc
  | Decimal.D0 r => uintValue r (10 * acc + 0)
  | Decimal.D1 r => uintValue r (10 * acc + 1)
  | Decimal.D2 r => uintValue r (10 * acc + 2)
  | Decimal.D3 r => uintValue r (10 * acc + 3)
  | Decimal.D4 r => uintValue r (10 * acc + 4)
  | Decimal.D5 r => uintValue r (10 * acc + 5)
  | Decimal.D6 r => uintValue r (10 * acc + 6)
  | Decimal.D7 r => uintValue r (10 * acc + 7)
  | Decimal.D8 r => uintValue r (10 * acc + 8)
  | Decimal.D9 r => uintValue r (10 * acc + 9)
  end.

(** Every character is white space. *)
Fixpoint allWhite (s : string) : bool :=
  match s with
  | EmptyString => true
  | String c r => isWhiteSpace c && allWhite r
  end.

(** The four numeric device fields of [db] hold integers. *)
Definition integral (d : DB) : Prop :=
  (exists z, capacity d = Num z) /\ (exists z, distance d = Num z)
  /\ (exists z, dailyUsage d = Num z) /\ (exists z, totalUsage d = Num z).

(** The line of a partial report: a prefix and a number. *)
Definition renderPartial (prefix : string) (n : Z) : string :=
  prefix ++ toString n.

(** The updates are what the classifier returns on some lines. *)
Definition classified (updates : list Update) : Prop :=
  Forall (fun u => exists line, u = DataProcessor.parseSerialLine line) updates.

(** The test of the second branch of [handleStatusChange]. *)
Definition closes (newStatus : string) (oldStatus : Value) : bool :=
  (newStatus =? "TUTUP")%string && Value_eqb oldStatus (VString "BUKA").

(** The log entry written by the call of [Logger.log] that starts at clock
    reading number [t]. *)
Definition logEntryAt (H : Host) (t : nat) (msg type : string) : LogEntry :=
  {| log_id := clock H t; log_timestamp := clock H (S t);
     log_message := msg; log_type := type |}.

(** The week key of a sample. *)
Definition sampleWeek (H : Host) (s : Z * Z) : string :=
  HistoryManager.weekKey H (fst s).

(** The samples of [samples] that fall under the week key [k], in order. *)
Definition inWeek (H : Host) (k : string) (samples : list (Z * Z))
  : list (Z * Z) :=
  filter (fun s => (sampleWeek H s =? k)%string) samples.

(** The statistics of a list of (timestamp, capacity) samples, computed from
    the list: sum, number, largest capacity or 0, smallest capacity or 100,
    and the timestamps. *)
Definition summary (samples : list (Z * Z)) : Bucket :=
  {| b_total := fold_left Z.add (map snd samples) 0;
     b_count := Z.of_nat (List.length samples);
     b_max := fold_left Z.max (map snd samples) 0;
     b_min := fold_left Z.min (map snd samples) 100;
     b_timestamps := map fst samples |}.

(** The bucket that should stand for a list of samples: none for no
    sample. *)
Definition summaryOf (samples : list (Z * Z)) : option Bucket :=
  match samples with
  | [] => None
  | _ => Some (summary samples)
  end.

(** The five week keys a year can have. *)
Definition weekKeysOf (year : Z) : list string :=
  map (fun n => (toString year ++ "-W" ++ toString n)%string) [1; 2; 3; 4; 5].

(** The device fields with another status. *)
Definition withStatus (v : Value) (dv : Device) : Device :=
  {| dev_status := v; dev_capacity := dev_capacity dv;
     dev_distance := dev_distance dv; dev_dailyUsage := dev_dailyUsage dv;
     dev_totalUsage := dev_totalUsage dv;
     dev_lastActivity := dev_lastActivity dv |}.

(** A stand-in for [JSON.parse] on integers. *)
Definition parseInt_option (text : string) : option Z :=
  match parseInt text with
  | Num z => Some z
  | NaN => None
  end.

(** The filler the polyfill really uses: one space when none is given. *)
Definition filler (fillString : string) : string :=
  if (String.length fillString =? 0)%nat then " " else fillString.

(** * Properties *)

(** ** Arithmetic of the capacity map *)

Lemma Qmax_inject_Z (a b : Z) :
  Qmax (inject_Z a) (inject_Z b) = inject_Z (Z.max a b).
Proof.
  unfold Qmax, GenericMinMax.gmax, Z.max, Qcompare. simpl.
  rewrite !Z.mul_1_r. now destruct (a ?= b).
Qed.

Lemma Qmin_inject_Z (a b : Z) :
  Qmin (inject_Z a) (inject_Z b) = inject_Z (Z.min a b).
Proof.
  unfold Qmin, GenericMinMax.gmin, Z.min, Qcompare. simpl.
  rewrite !Z.mul_1_r. now destruct (a ?= b).
Qed.

Lemma Math_round_inject_Z (z : Z) : Math_round (inject_Z z) = z.
Proof.
  unfold Math_round, Qfloor, Qplus, inject_Z. simpl.
  replace (z * 2 + 1) with (1 + z * 2) by lia.
  rewrite Z.div_add by lia. reflexivity.
Qed.

(** The linear map on an integer distance, in the order [javascript.js]
    evaluates it. *)
Lemma linear_js (c : Z) :
  (100 - ((inject_Z c - 0) / (50 - 0)) * 100 == inject_Z (100 - 2 * c))%Q.
Proof.
  unfold Z.sub. rewrite inject_Z_plus, inject_Z_opp, inject_Z_mult.
  change (inject_Z 100) with 100%Q. change (inject_Z 2) with 2%Q. field.
Qed.

(** The same map in the order the spec writes it. *)
Lemma linear_spec (c : Z) :
  (100 - 100 * (inject_Z c - 0) / (50 - 0) == inject_Z (100 - 2 * c))%Q.
Proof.
  unfold Z.sub. rewrite inject_Z_plus, inject_Z_opp, inject_Z_mult.
  change (inject_Z 100) with 100%Q. change (inject_Z 2) with 2%Q. field.
Qed.

Lemma round_clamped_comp (x : Q) (k : Z) :
  (x == inject_Z k)%Q ->
  Math_round (Qmax 0 (Qmin 100 x)) = Z.max 0 (Z.min 100 k).
Proof.
  intros E. unfold Math_round.
  rewrite E.
  change 0%Q with (inject_Z 0). change 100%Q with (inject_Z 100).
  rewrite Qmin_inject_Z, Qmax_inject_Z.
  apply Math_round_inject_Z.
Qed.

Lemma clamp_distance (d : Z) :
  Qmax 0 (Qmin 50 (inject_Z d)) = inject_Z (Z.max 0 (Z.min 50 d)).
Proof.
  change (Qmax 0 (Qmin 50 (inject_Z d)))
    with (Qmax (inject_Z 0) (Qmin (inject_Z 50) (inject_Z d))).
  now rewrite Qmin_inject_Z, Qmax_inject_Z.
Qed.

Lemma calculateCapacity1_closed (d : Z) :
  Utils.calculateCapacity1 (Num d) = Num (100 - 2 * Z.max 0 (Z.min 50 d)).
Proof.
  unfold Utils.calculateCapacity1, Utils.calculateCapacity. f_equal.
  rewrite clamp_distance.
  rewrite (round_clamped_comp _ _ (linear_js _)). lia.
Qed.

Lemma spec_capacity_closed (d : Z) :
  spec_capacity d = 100 - 2 * Z.max 0 (Z.min 50 d).
Proof.
  unfold spec_capacity, clamp.
  rewrite clamp_distance.
  rewrite (round_clamped_comp _ _ (linear_spec _)). lia.
Qed.

Lemma style_calculateCapacity_closed (d : Z) :
  StyleJs.calculateCapacity (Num d) = Num (100 - 2 * Z.max 0 (Z.min 50 d)).
Proof.
  unfold StyleJs.calculateCapacity. f_equal.
  unfold Math_round. rewrite (linear_js d).
  fold (Math_round (inject_Z (100 - 2 * d))).
  rewrite Math_round_inject_Z. lia.
Qed.

(** The rational model of the capacity map agrees with its binary64
    evaluation: on each of the 51 values a clamped integer distance can take,
    rounding the double gives [100 - 2 * clamped]. *)
Lemma capacity64_agrees :
  forallb (fun c => match round64 c with
                    | Some r => r =? 100 - 2 * c
                    | None => false
                    end)
          (map Z.of_nat (seq 0 51)) = true.
Proof. vm_compute. reflexivity. Qed.

(** C3.  For every integer distance [d], [Utils.calculateCapacity] (with its
    defaults) and [calculateCapacity] of [style.js] both return
    [round(clamp(100 - 100*(clamp(d,0,50)-0)/(50-0), 0, 100))]; distance 0
    gives 100, distance 50 gives 0, and a larger distance never gives a
    larger capacity. *)
Theorem capacity_formula :
  (forall d : Z,
      Utils.calculateCapacity1 (Num d) = Num (spec_capacity d)
      /\ StyleJs.calculateCapacity (Num d) = Num (spec_capacity d))
  /\ Utils.calculateCapacity1 (Num 0) = Num 100
  /\ Utils.calculateCapacity1 (Num 50) = Num 0
  /\ StyleJs.calculateCapacity (Num 0) = Num 100
  /\ StyleJs.calculateCapacity (Num 50) = Num 0
  /\ (forall d1 d2 : Z,
         d1 <= d2 ->
         number_le (Utils.calculateCapacity1 (Num d2))
                   (Utils.calculateCapacity1 (Num d1))
         /\ number_le (StyleJs.calculateCapacity (Num d2))
                      (StyleJs.calculateCapacity (Num d1))).
Proof.
  split; [| split; [| split; [| split; [| split]]]].
  - intro d. rewrite calculateCapacity1_closed, style_calculateCapacity_closed,
      spec_capacity_closed. split; reflexivity.
  - now rewrite calculateCapacity1_closed.
  - now rewrite calculateCapacity1_closed.
  - now rewrite style_calculateCapacity_closed.
  - now rewrite style_calculateCapacity_closed.
  - intros d1 d2 Hle.
    rewrite !calculateCapacity1_closed, !style_calculateCapacity_closed.
    unfold number_le. lia.
Qed.

Lemma capacity_formula_witness :
  10 <= 20
  /\ number_le (Utils.calculateCapacity1 (Num 20))
               (Utils.calculateCapacity1 (Num 10))
  /\ number_le (StyleJs.calculateCapacity (Num 20))
               (StyleJs.calculateCapacity (Num 10)).
Proof.
  split; [lia |].
  apply (proj2 (proj2 (proj2 (proj2 (proj2 capacity_formula)))) 10 20). lia.
Defined.

(** ** Running the state monad *)

Lemma exec_bind {A B : Type} (m : M A) (k : A -> M B) (w : World) :
  exec (bind m k) w = exec (k (fst (m w))) (exec m w).
Proof. unfold exec, bind. now destruct (m w). Qed.

Lemma exec_ret {A : Type} (a : A) (w : World) : exec (ret a) w = w.
Proof. reflexivity. Qed.

Lemma exec_forEach {A : Type} (f : A -> M unit) (xs : list A) (w : World) :
  exec (forEach f xs) w = fold_left (fun w x => exec (f x) w) xs w.
Proof.
  revert w. induction xs as [| x xs IH]; intro w; simpl.
  - reflexivity.
  - rewrite exec_bind. apply IH.
Qed.

(** ** What the logger and the history manager leave alone *)

Lemma log_frame (H : Host) (msg type : string) (w : World) :
  let w' := exec (Logger.log H msg type) w in
  device_of_DB (db w') = device_of_DB (db w)
  /\ lastUpdate (db w') = lastUpdate (db w)
  /\ usageHistory (db w') = usageHistory (db w)
  /\ ticks w' = (ticks w + 2)%nat.
Proof.
  destruct w as [d t].
  unfold Logger.log, Utils.generateId, exec, bind, modify, Date_now, ret.
  cbn [fst snd db ticks].
  destruct (Logger.maxLogs <? _)%nat; cbn; repeat split; try reflexivity; lia.
Qed.

Lemma addToHistory_frame (H : Host) (cap : Z) (w : World) :
  let w' := exec (HistoryManager.addToHistory H cap) w in
  device_of_DB (db w') = device_of_DB (db w)
  /\ lastUpdate (db w') = lastUpdate (db w)
  /\ logs (db w') = logs (db w)
  /\ ticks w' = (ticks w + 1)%nat.
Proof.
  destruct w as [d t].
  unfold HistoryManager.addToHistory, exec, bind, modify, Date_now.
  cbn [fst snd db ticks].
  destruct (HistoryManager.maxHistorySize <? _)%nat; cbn; repeat split; try reflexivity; lia.
Qed.

(** ** The device fields after each routine of [DataProcessor] *)

Lemma handleStatusChange_device (H : Host) (st : string) (old : Value)
  (w : World) :
  let w' := exec (DataProcessor.handleStatusChange H st old) w in
  device_of_DB (db w')
  = (if opens st old then opened (clock H (ticks w)) (device_of_DB (db w))
     else device_of_DB (db w))
  /\ lastUpdate (db w') = lastUpdate (db w).
Proof.
  unfold DataProcessor.handleStatusChange. fold (opens st old).
  destruct (opens st old).
  - cbv zeta. rewrite !exec_bind.
    match goal with
    | |- context [exec (Logger.log H ?m ?t) ?w0] =>
        destruct (log_frame H m t w0) as (E1 & E2 & _ & _)
    end.
    rewrite exec_ret. cbv zeta in E1, E2. rewrite E1, E2.
    destruct w as [d t]. split; reflexivity.
  - destruct ((st =? "TUTUP")%string && Value_eqb old (VString "BUKA")).
    + cbv zeta. rewrite exec_bind, exec_ret.
      destruct (log_frame H "Tong ditutup oleh Arduino" "success" w)
        as (E1 & E2 & _ & _).
      split; assumption.
    + split; reflexivity.
Qed.

Lemma Value_eqb_refl (v : Value) : Value_eqb v v = true.
Proof. destruct v; simpl; [apply String.eqb_refl | reflexivity]. Qed.

Lemma Value_eqb_eq (a b : Value) : Value_eqb a b = true <-> a = b.
Proof.
  destruct a, b; simpl; split; intro E; try discriminate; try reflexivity.
  - apply String.eqb_eq in E. now subst.
  - injection E as ->. apply String.eqb_refl.
Qed.

(** A report equal to the stored status never counts as an opening. *)
Lemma opens_changes (st : string) (old : Value) :
  opens st old = true -> Value_eqb old (VString st) = false.
Proof.
  unfold opens. intro E. apply andb_true_iff in E as [E1 E2].
  apply String.eqb_eq in E1. apply Value_eqb_eq in E2. subst. reflexivity.
Qed.

Lemma applyUpdate_device (H : Host) (st : string) (cap dist daily total : Z)
  (raw : string) (w : World) :
  let w' :=
    exec (DataProcessor.applyUpdate H (Some (full st cap dist daily total raw))) w in
  device_of_DB (db w')
  = (if opens st (status (db w))
     then opened (clock H (S (ticks w)))
            (reported st cap dist daily total (device_of_DB (db w)))
     else reported st cap dist daily total (device_of_DB (db w)))
  /\ lastUpdate (db w') = clock H (ticks w).
Proof.
  unfold DataProcessor.applyUpdate. cbv zeta. rewrite !exec_bind.
  match goal with
  | |- context [exec (HistoryManager.addToHistory H cap) ?w0] =>
      destruct (addToHistory_frame H cap w0) as (E1 & E2 & _ & _)
  end.
  cbv zeta in E1, E2. rewrite E1, E2. clear E1 E2.
  destruct w as [d t]. cbn [fst snd get modify Date_now db ticks status set_status
    set_capacity set_distance set_dailyUsage set_totalUsage set_lastUpdate].
  destruct (opens st (status d)) eqn:Eo.
  - rewrite (opens_changes _ _ Eo). cbn [negb].
    match goal with
    | |- context [exec (DataProcessor.handleStatusChange H st ?o) ?w0] =>
        destruct (handleStatusChange_device H st o w0) as (E1 & E2)
    end.
    cbv zeta in E1, E2. rewrite E1, E2, Eo. split; reflexivity.
  - destruct (negb (Value_eqb (status d) (VString st))).
    + match goal with
      | |- context [exec (DataProcessor.handleStatusChange H st ?o) ?w0] =>
          destruct (handleStatusChange_device H st o w0) as (E1 & E2)
      end.
      cbv zeta in E1, E2. rewrite E1, E2, Eo. split; reflexivity.
    + split; reflexivity.
Qed.

(** ** [parseInt] on what [\d+] captures *)

Lemma isDigit_digitValue (c : ascii) :
  isDigit c = true -> exists d, 0 <= d <= 9 /\ digitValue c = Some d.
Proof.
  ascii_cases c; intro E; try discriminate E;
    vm_compute; eexists; (split; [| reflexivity]); split; discriminate.
Qed.

Lemma isDigit_not_space (c : ascii) : isDigit c = true -> isWhiteSpace c = false.
Proof. ascii_cases c; intro E; try discriminate E; reflexivity. Qed.

Lemma takeDigits_allDigits (s : string) : allDigits (takeDigits s) = true.
Proof.
  induction s as [| c r IH]; simpl; [reflexivity |].
  destruct (isDigit c) eqn:E; simpl; [| reflexivity].
  now rewrite E, IH.
Qed.

Lemma parseDigits_allDigits (s : string) :
  allDigits s = true ->
  forall a, 0 <= a -> exists n, 0 <= n /\ parseDigits 10 s (Some a) = Some n.
Proof.
  induction s as [| c r IH]; cbn [parseDigits allDigits]; intros E a Ha.
  - exists a. split; [assumption | reflexivity].
  - apply andb_true_iff in E as [Ec Er].
    destruct (isDigit_digitValue c Ec) as (d & Hd & ->).
    replace (d <? 10) with true by (symmetry; apply Z.ltb_lt; lia).
    apply IH; [assumption | lia].
Qed.

(** On a non-empty run of digits [parseInt] reads radix 10, with no white
    space, sign or [0x] prefix to strip. *)
Lemma parseInt_allDigits (s : string) :
  s <> EmptyString -> allDigits s = true ->
  exists n, 0 <= n /\ parseInt s = Num n.
Proof.
  destruct s as [| c r]; [congruence |]. intros _ E.
  simpl in E. apply andb_true_iff in E as [Ec Er].
  assert (Hp : exists n, 0 <= n /\ parseDigits 10 (String c r) None = Some n).
  { cbn [parseDigits]. destruct (isDigit_digitValue c Ec) as (d & Hd & ->).
    replace (d <? 10) with true by (symmetry; apply Z.ltb_lt; lia).
    apply parseDigits_allDigits; [assumption | lia]. }
  destruct Hp as (n & Hn & Hp).
  exists n. split; [assumption |].
  unfold parseInt. cbn [trimStart]. rewrite (isDigit_not_space c Ec).
  assert (Hr : match r with
               | String c2 _ => isDigit c2 = true
               | EmptyString => True
               end).
  { destruct r as [| c2 r2]; [exact I |].
    simpl in Er. now apply andb_true_iff in Er as [Ec2 _]. }
  ascii_cases c; try discriminate Ec;
    try (cbv iota beta; rewrite Hp; f_equal; lia).
  destruct r as [| c2 r2].
  - cbv iota beta. rewrite Hp. f_equal. lia.
  - ascii_cases c2; try discriminate Hr; cbv iota beta; rewrite Hp; f_equal; lia.
Qed.

(** ** What the classifier can return *)

Lemma parseFull_isFull (line : string) (u : Update) :
  DataProcessor.parseFull line = Some u -> isFull u = true.
Proof.
  unfold DataProcessor.parseFull.
  destruct (includes "," line); [| discriminate].
  destruct (5 <=? _)%nat; [| discriminate].
  now intros [= <-].
Qed.

Lemma re_prefix_digits_group (prefix line : string) (g : option string) :
  re_prefix_digits prefix line = Some g ->
  exists d, g = Some d /\ d <> EmptyString /\ allDigits d = true.
Proof.
  unfold re_prefix_digits.
  destruct (stripPrefix prefix line) as [rest |]; [| discriminate].
  destruct (takeDigits rest =? "")%string eqn:E; [discriminate |].
  intros [= <-]. exists (takeDigits rest). split; [reflexivity |]. split.
  - intro K. rewrite K in E. discriminate.
  - apply takeDigits_allDigits.
Qed.

Lemma group_or_true_nonempty (d : string) :
  d <> EmptyString -> DataProcessor.group_or_true (Some d) = VString d.
Proof. destruct d; [congruence | reflexivity]. Qed.

(** The value of a [distance] or [usage] update the classifier returns is a
    non-empty run of digits: [parseInt] turns it into a natural number. *)
Lemma parseSerialLine_numeric (line : string) (key : PatternKey) (v : Value)
  (raw : string) :
  DataProcessor.parseSerialLine line = matched key v raw ->
  key = k_distance \/ key = k_usage ->
  exists n, 0 <= n /\ DataProcessor.parseIntValue v = Num n.
Proof.
  unfold DataProcessor.parseSerialLine.
  destruct (DataProcessor.parseFull line) as [u |] eqn:Ef.
  { intros ->. apply parseFull_isFull in Ef. discriminate. }
  unfold DataProcessor.patterns. cbn [DataProcessor.firstMatch].
  destruct (re_prefix_rest "STATUS:" line).
  { intros [= <- _ _] [K | K]; discriminate. }
  destruct (re_prefix_digits "DISTANCE:" line) as [g |] eqn:Ed.
  { apply re_prefix_digits_group in Ed as (d & -> & Hne & Hd).
    rewrite (group_or_true_nonempty d Hne). intros [= _ <- _] _.
    apply parseInt_allDigits; assumption. }
  destruct (re_prefix_digits "USAGE:" line) as [g |] eqn:Eu.
  { apply re_prefix_digits_group in Eu as (d & -> & Hne & Hd).
    rewrite (group_or_true_nonempty d Hne). intros [= _ <- _] _.
    apply parseInt_allDigits; assumption. }
  destruct (re_prefix "SYSTEM_READY" line).
  { intros [= <- _ _] [K | K]; discriminate. }
  destruct (re_prefix_rest "CMD_RECEIVED:" line).
  { intros [= <- _ _] [K | K]; discriminate. }
  discriminate.
Qed.

(** ** The state after [applyPartialUpdate] *)

Lemma applyPartialUpdate_db (H : Host) (u : Update) (w : World) :
  let w' := exec (DataProcessor.applyPartialUpdate H u) w in
  db w'
  = set_lastUpdate (clock H (ticks w))
      match u with
      | matched k_status v _ => set_status v (db w)
      | matched k_distance v _ =>
          set_capacity
            (Utils.calculateCapacity1 (DataProcessor.parseIntValue v))
            (set_distance (DataProcessor.parseIntValue v) (db w))
      | matched k_usage v _ =>
          set_dailyUsage (DataProcessor.parseIntValue v) (db w)
      | _ => db w
      end
  /\ ticks w' = S (ticks w).
Proof.
  destruct w as [d t].
  destruct u as [? ? ? ? ? ? | [] ? ? | ? ?]; split; reflexivity.
Qed.

(** ** Batches *)

Lemma nth_error_last {A : Type} (l : list A) (x : A) :
  nth_error (l ++ [x]) (List.length (l ++ [x]) - 1) = Some x.
Proof.
  rewrite length_app. simpl.
  replace (List.length l + 1 - 1)%nat with (List.length l) by lia.
  rewrite nth_error_app2 by lia.
  now rewrite Nat.sub_diag.
Qed.

Lemma filter_noFull (updates : list Update) :
  noFull updates -> filter isFull updates = [].
Proof.
  induction 1 as [| u us Hu _ IH]; simpl; [reflexivity |].
  now rewrite Hu.
Qed.

(** A batch with a full report splits around its last full report. *)
Lemma last_full_split (updates : list Update) :
  existsb isFull updates = true ->
  exists pre f post,
    updates = pre ++ f :: post /\ isFull f = true /\ noFull post.
Proof.
  induction updates as [| u us IH]; simpl; [discriminate |].
  destruct (existsb isFull us) eqn:E.
  - intros _. destruct (IH eq_refl) as (pre & f & post & -> & Hf & Hp).
    exists (u :: pre), f, post. repeat split; assumption.
  - rewrite orb_false_r. intro Hu.
    exists [], u, us. repeat split; [assumption |].
    apply Forall_forall. intros x Hx.
    destruct (isFull x) eqn:Ex; [| reflexivity].
    assert (K : existsb isFull us = true)
      by (apply existsb_exists; exists x; split; assumption).
    congruence.
Qed.

Lemma batchUpdate_full (H : Host) (pre post : list Update) (f : Update)
  (w : World) :
  isFull f = true -> noFull post ->
  DataProcessor.batchUpdate H (pre ++ f :: post) w
  = (true, exec (DataProcessor.applyUpdate H (Some f)) w).
Proof.
  intros Hf Hp. unfold DataProcessor.batchUpdate.
  rewrite filter_app. cbn [filter]. rewrite Hf, (filter_noFull post Hp).
  cbv zeta.
  replace (0 <? List.length (filter isFull pre ++ [f]))%nat with true
    by (symmetry; apply Nat.ltb_lt; rewrite length_app; simpl; lia).
  rewrite nth_error_last.
  unfold bind, ret, exec.
  now destruct (DataProcessor.applyUpdate H (Some f) w).
Qed.

Lemma batchUpdate_partial (H : Host) (updates : list Update) (w : World) :
  noFull updates ->
  DataProcessor.batchUpdate H updates w
  = ((0 <? List.length updates)%nat,
     fold_left (fun w u => exec (DataProcessor.applyPartialUpdate H u) w)
               updates w).
Proof.
  intro Hn. unfold DataProcessor.batchUpdate.
  rewrite (filter_noFull updates Hn). cbn [List.length Nat.ltb Nat.leb].
  rewrite <- exec_forEach.
  unfold bind, ret, exec.
  now destruct (forEach (DataProcessor.applyPartialUpdate H) updates w).
Qed.

(** ** One event at a time *)

Lemma existsb_false_noFull (updates : list Update) :
  existsb isFull updates = false -> noFull updates.
Proof.
  intro E. apply Forall_forall. intros x Hx.
  destruct (isFull x) eqn:Ex; [| reflexivity].
  assert (K : existsb isFull updates = true)
    by (apply existsb_exists; exists x; split; assumption).
  congruence.
Qed.

Lemma applyEvent_full (H : Host) (u : Update) (w : World) :
  isFull u = true ->
  applyEvent H u w = exec (DataProcessor.applyUpdate H (Some u)) w.
Proof.
  intro Hu. unfold applyEvent, exec at 1.
  change [u] with ([] ++ u :: []).
  now rewrite (batchUpdate_full H [] [] u w Hu (Forall_nil _)).
Qed.

Lemma applyEvent_partial (H : Host) (u : Update) (w : World) :
  isFull u = false ->
  applyEvent H u w = exec (DataProcessor.applyPartialUpdate H u) w.
Proof.
  intro Hu. unfold applyEvent, exec at 1.
  rewrite (batchUpdate_partial H [u] w); [reflexivity |].
  constructor; [assumption | constructor].
Qed.

(** The transition from TUTUP to BUKA as [applyUpdate] records it. *)
Lemma applyUpdate_opening (H : Host) (w : World) (cap dist daily total : Z)
  (raw : string) :
  status (db w) = VString "TUTUP" ->
  let w' :=
    exec (DataProcessor.applyUpdate H
            (Some (full "BUKA" cap dist daily total raw))) w in
  status (db w') = VString "BUKA"
  /\ capacity (db w') = Num cap
  /\ distance (db w') = Num dist
  /\ dailyUsage (db w') = Num (daily + 1)
  /\ totalUsage (db w') = Num (total + 1)
  /\ lastActivity (db w') = Some (clock H (S (ticks w)))
  /\ lastUpdate (db w') = clock H (ticks w).
Proof.
  intro Hs.
  destruct (applyUpdate_device H "BUKA" cap dist daily total raw w) as (E & Eu).
  cbv zeta in *. rewrite Hs in E.
  change (opens "BUKA" (VString "TUTUP")) with true in E.
  device_fields E. repeat split; assumption.
Qed.

(** ** Properties of [DataProcessor] *)

(** C1.  [batchUpdate] on a batch that contains a full report applies the
    last full report of the batch, in batch order, and nothing else: the
    resulting state is that of [applyUpdate] on that report alone, whatever
    the other events are.  On a batch without a full report it applies
    [applyPartialUpdate] to each event, first to last. *)
Theorem batch_policy (H : Host) (updates : list Update) (w : World) :
  (existsb isFull updates = true ->
   exists pre f post,
     updates = pre ++ f :: post /\ isFull f = true /\ noFull post
     /\ DataProcessor.batchUpdate H updates w
        = (true, exec (DataProcessor.applyUpdate H (Some f)) w))
  /\ (existsb isFull updates = false ->
      DataProcessor.batchUpdate H updates w
      = ((0 <? List.length updates)%nat,
         fold_left (fun w u => exec (DataProcessor.applyPartialUpdate H u) w)
                   updates w)).
Proof.
  split; intro E.
  - destruct (last_full_split updates E) as (pre & f & post & -> & Hf & Hp).
    exists pre, f, post. repeat split; try assumption.
    now apply batchUpdate_full.
  - apply batchUpdate_partial. now apply existsb_false_noFull.
Qed.

Lemma batch_policy_witness :
  (exists pre f post,
      Scenario.mixedBatch = pre ++ f :: post /\ isFull f = true /\ noFull post
      /\ DataProcessor.batchUpdate Scenario.utcHost Scenario.mixedBatch
           Scenario.initialWorld
         = (true,
            exec (DataProcessor.applyUpdate Scenario.utcHost (Some f))
                 Scenario.initialWorld))
  /\ DataProcessor.batchUpdate Scenario.utcHost Scenario.partialBatch
       Scenario.initialWorld
     = ((0 <? List.length Scenario.partialBatch)%nat,
        fold_left
          (fun w u => exec (DataProcessor.applyPartialUpdate Scenario.utcHost u) w)
          Scenario.partialBatch Scenario.initialWorld).
Proof.
  split.
  - apply (proj1 (batch_policy Scenario.utcHost _ Scenario.initialWorld)).
    reflexivity.
  - apply (proj2 (batch_policy Scenario.utcHost _ Scenario.initialWorld)).
    reflexivity.
Defined.



(** C4, as the code has it.  The counters follow the device: a full report
    overwrites both with its own fields (plus one on a TUTUP to BUKA
    transition) and a [USAGE:] line overwrites [dailyUsage]; every other
    event leaves both alone.  So, for every event applied to a state with
    integer counters, neither counter decreases provided the counter the
    event reports, if it reports one, is not below the stored one. *)
Theorem counters_follow_reports (H : Host) (u : Update) (w : World) (a b : Z) :
  dailyUsage (db w) = Num a ->
  totalUsage (db w) = Num b ->
  atLeast (Num a) (reportedDaily u) ->
  atLeast (Num b) (reportedTotal u) ->
  number_le (Num a) (dailyUsage (db (applyEvent H u w)))
  /\ number_le (Num b) (totalUsage (db (applyEvent H u w))).
Proof.
  intros Ha Hb Hd Ht.
  destruct u as [st cap dist daily total raw | key v raw | v raw].
  - rewrite applyEvent_full by reflexivity.
    destruct (applyUpdate_device H st cap dist daily total raw w) as (E & _).
    cbv zeta in E. cbn [atLeast reportedDaily reportedTotal number_le] in Hd, Ht.
    destruct (opens st (status (db w))); device_fields E;
      repeat match goal with
             | K : dailyUsage _ = _ |- _ => rewrite K
             | K : totalUsage _ = _ |- _ => rewrite K
             end; cbn [number_le]; lia.
  - rewrite applyEvent_partial by reflexivity.
    destruct (applyPartialUpdate_db H (matched key v raw) w) as (E & _).
    cbv zeta in E. rewrite E.
    destruct key; cbn [set_lastUpdate set_status set_capacity set_distance
                       set_dailyUsage dailyUsage totalUsage];
      rewrite ?Ha, ?Hb; cbn [number_le atLeast reportedDaily] in *;
      try (split; lia).
    split; [assumption | lia].
  - rewrite applyEvent_partial by reflexivity.
    destruct (applyPartialUpdate_db H (message v raw) w) as (E & _).
    cbv zeta in E. rewrite E. cbn [set_lastUpdate dailyUsage totalUsage].
    rewrite Ha, Hb. cbn [number_le]. lia.
Qed.

Lemma counters_follow_reports_witness :
  number_le (Num 0)
    (dailyUsage (db (applyEvent Scenario.utcHost Scenario.report Scenario.initialWorld)))
  /\ number_le (Num 0)
       (totalUsage (db (applyEvent Scenario.utcHost Scenario.report Scenario.initialWorld))).
Proof.
  apply (counters_follow_reports Scenario.utcHost Scenario.report
           Scenario.initialWorld 0 0).
  - reflexivity.
  - reflexivity.
  - vm_compute. discriminate.
  - vm_compute. discriminate.
Defined.

(** C4, as stated, fails: the report ["BUKA,45,27,3,120"] applied to a state
    with status BUKA, dailyUsage 5 and totalUsage 200 leaves dailyUsage 3 and
    totalUsage 120. *)
Lemma counters_can_decrease :
  dailyUsage (db Scenario.busyWorld) = Num 5
  /\ totalUsage (db Scenario.busyWorld) = Num 200
  /\ dailyUsage (db (applyEvent Scenario.utcHost Scenario.report Scenario.busyWorld))
     = Num 3
  /\ totalUsage (db (applyEvent Scenario.utcHost Scenario.report Scenario.busyWorld))
     = Num 120
  /\ ~ number_le (dailyUsage (db Scenario.busyWorld))
        (dailyUsage (db (applyEvent Scenario.utcHost Scenario.report Scenario.busyWorld)))
  /\ ~ number_le (totalUsage (db Scenario.busyWorld))
        (totalUsage (db (applyEvent Scenario.utcHost Scenario.report Scenario.busyWorld))).
Proof.
  vm_compute. repeat split; try reflexivity; intro K; apply K; reflexivity.
Qed.

(** C5, as the code has it.  For every event the classifier returns, applied
    to a state whose capacity is in [0,100]: if the capacity field a full
    report carries is itself in [0,100], the resulting capacity is in
    [0,100].  (A [DISTANCE:] line always yields a capacity in [0,100]; the
    other events leave the capacity alone.) *)
Theorem capacity_in_range (H : Host) (line : string) (w : World) :
  number_in 0 100 (capacity (db w)) ->
  match reportedCapacity (DataProcessor.parseSerialLine line) with
  | Some c => number_in 0 100 c
  | None => True
  end ->
  number_in 0 100
    (capacity (db (applyEvent H (DataProcessor.parseSerialLine line) w))).
Proof.
  intros Hc Hr.
  destruct (DataProcessor.parseSerialLine line)
    as [st cap dist daily total raw | key v raw | v raw] eqn:Eu.
  - rewrite applyEvent_full by reflexivity.
    destruct (applyUpdate_device H st cap dist daily total raw w) as (E & _).
    cbv zeta in E. cbn [reportedCapacity] in Hr.
    destruct (opens st (status (db w))); device_fields E;
      match goal with K : capacity _ = _ |- _ => rewrite K end; assumption.
  - rewrite applyEvent_partial by reflexivity.
    destruct (applyPartialUpdate_db H (matched key v raw) w) as (E & _).
    cbv zeta in E. rewrite E.
    destruct key; cbn [set_lastUpdate set_status set_capacity set_distance
                       set_dailyUsage capacity]; try assumption.
    destruct (parseSerialLine_numeric line k_distance v raw Eu (or_introl eq_refl))
      as (n & Hn & ->).
    rewrite calculateCapacity1_closed. cbn [number_in]. lia.
  - rewrite applyEvent_partial by reflexivity.
    destruct (applyPartialUpdate_db H (message v raw) w) as (E & _).
    cbv zeta in E. rewrite E. assumption.
Qed.

Lemma capacity_in_range_witness :
  number_in 0 100
    (capacity
       (db (applyEvent Scenario.utcHost
              (DataProcessor.parseSerialLine "BUKA,45,27,3,120")
              Scenario.initialWorld))).
Proof.
  apply (capacity_in_range Scenario.utcHost "BUKA,45,27,3,120" Scenario.initialWorld).
  - vm_compute. split; discriminate.
  - vm_compute. split; discriminate.
Defined.

(** C5, as stated, fails: the report ["BUKA,150,27,3,120"] applied to the
    initial state, whose capacity is 0, leaves capacity 150. *)
Lemma capacity_can_leave_range :
  number_in 0 100 (capacity (db Scenario.initialWorld))
  /\ capacity (db (applyEvent Scenario.utcHost Scenario.overfullReport
                     Scenario.initialWorld)) = Num 150
  /\ ~ number_in 0 100
        (capacity (db (applyEvent Scenario.utcHost Scenario.overfullReport
                         Scenario.initialWorld))).
Proof.
  vm_compute. repeat split; try discriminate.
  intros [_ K]. apply K. reflexivity.
Qed.

(** What a [STATUS:] update does to the state, for every stored value. *)
Lemma partial_status_db (H : Host) (v : Value) (raw : string) (w : World) :
  db (applyEvent H (matched k_status v raw) w)
  = set_lastUpdate (clock H (ticks w)) (set_status v (db w)).
Proof.
  rewrite applyEvent_partial by reflexivity.
  now destruct (applyPartialUpdate_db H (matched k_status v raw) w) as (E & _).
Qed.

(** C6, on the code.  The line ["STATUS:BUKA"] applied to a state with status
    TUTUP, dailyUsage 3, totalUsage 120 and no recorded activity sets the
    status to BUKA and [lastUpdate] to the clock reading, and that is all:
    [lastActivity] stays empty and the counters stay at 3 and 120, where the
    same transition reported by a full report stamps [lastActivity] and
    counts the opening. *)
Theorem partial_status_opening_unrecorded :
  Scenario.statusOpen = matched k_status (VString "BUKA") "STATUS:BUKA"
  /\ status (db Scenario.closedWorld) = VString "TUTUP"
  /\ status (db (applyEvent Scenario.utcHost Scenario.statusOpen Scenario.closedWorld))
     = VString "BUKA"
  /\ lastUpdate (db (applyEvent Scenario.utcHost Scenario.statusOpen Scenario.closedWorld))
     = clock Scenario.utcHost (ticks Scenario.closedWorld)
  /\ lastActivity (db (applyEvent Scenario.utcHost Scenario.statusOpen Scenario.closedWorld))
     = None
  /\ dailyUsage (db (applyEvent Scenario.utcHost Scenario.statusOpen Scenario.closedWorld))
     = Num 3
  /\ totalUsage (db (applyEvent Scenario.utcHost Scenario.statusOpen Scenario.closedWorld))
     = Num 120
  /\ lastActivity
       (db (exec (DataProcessor.applyUpdate Scenario.utcHost (Some Scenario.report))
                 Scenario.closedWorld))
     = Some (clock Scenario.utcHost (S (ticks Scenario.closedWorld)))
  /\ dailyUsage
       (db (exec (DataProcessor.applyUpdate Scenario.utcHost (Some Scenario.report))
                 Scenario.closedWorld))
     = Num 4.
Proof.
  change Scenario.statusOpen with (matched k_status (VString "BUKA") "STATUS:BUKA").
  rewrite partial_status_db.
  destruct (applyUpdate_opening Scenario.utcHost Scenario.closedWorld 45 27 3 120
              "BUKA,45,27,3,120" eq_refl)
    as (_ & _ & _ & E4 & _ & E6 & _).
  cbv zeta in E4, E6.
  change (full "BUKA" 45 27 3 120 "BUKA,45,27,3,120") with Scenario.report in E4, E6.
  repeat split; assumption.
Qed.

(** C7, as the code has it.  Applying a message event or a [SYSTEM_READY]
    event changes exactly one field of [db]: [lastUpdate], which receives the
    clock reading; every other field keeps its value. *)
Theorem message_touches_lastUpdate_only (H : Host) (w : World) :
  (forall v raw : string,
      db (applyEvent H (message v raw) w)
      = set_lastUpdate (clock H (ticks w)) (db w))
  /\ (forall (v : Value) (raw : string),
         db (applyEvent H (matched k_ready v raw) w)
         = set_lastUpdate (clock H (ticks w)) (db w)).
Proof.
  split; intros v raw; rewrite applyEvent_partial by reflexivity.
  - now destruct (applyPartialUpdate_db H (message v raw) w) as (E & _).
  - now destruct (applyPartialUpdate_db H (matched k_ready v raw) w) as (E & _).
Qed.

(** C7, as stated, fails: the diagnostic line ["hello"] and the line
    ["SYSTEM_READY"], applied to the initial state, move [lastUpdate] from
    its initial value to the clock reading, one second later. *)
Lemma message_changes_state :
  Scenario.diagnostic = message "hello" "hello"
  /\ Scenario.systemReady = matched k_ready VTrue "SYSTEM_READY"
  /\ lastUpdate (db Scenario.initialWorld) = 1705276800000
  /\ lastUpdate (db (applyEvent Scenario.utcHost Scenario.diagnostic Scenario.initialWorld))
     = 1705276801000
  /\ lastUpdate (db (applyEvent Scenario.utcHost Scenario.systemReady Scenario.initialWorld))
     = 1705276801000
  /\ db (applyEvent Scenario.utcHost Scenario.diagnostic Scenario.initialWorld)
     <> db Scenario.initialWorld
  /\ db (applyEvent Scenario.utcHost Scenario.systemReady Scenario.initialWorld)
     <> db Scenario.initialWorld.
Proof.
  repeat split; try reflexivity; intro K; apply (f_equal lastUpdate) in K;
    vm_compute in K; discriminate K.
Qed.

(** ** The classifier *)

Lemma firstMatch_raw (ps : list (PatternKey * (string -> Match)))
  (line : string) (u : Update) :
  DataProcessor.firstMatch ps line = Some u ->
  exists k v, u = matched k v line.
Proof.
  induction ps as [| [key regex] ps IH]; simpl; [discriminate |].
  destruct (regex line) as [g |].
  - intros [= <-]. eauto.
  - exact IH.
Qed.

Lemma parseFull_fields (line : string) :
  includes "," line = true ->
  (5 <= List.length (split "," line))%nat ->
  DataProcessor.parseFull line
  = Some (full (nth 0 (split "," line) "")
               (or_zero (parseInt (nth 1 (split "," line) "")))
               (or_zero (parseInt (nth 2 (split "," line) "")))
               (or_zero (parseInt (nth 3 (split "," line) "")))
               (or_zero (parseInt (nth 4 (split "," line) "")))
               line).
Proof.
  intros Hc Hn. unfold DataProcessor.parseFull. rewrite Hc.
  now replace (5 <=? List.length (split "," line))%nat with true
    by (symmetry; apply Nat.leb_le; exact Hn).
Qed.

Lemma or_zero_defaulted (x : number) : defaulted x (or_zero x).
Proof. destruct x; reflexivity. Qed.

(** C8.  [parseSerialLine] is total: every line yields one update, which is a
    full report, a pattern match or a message, and carries the line.  A line
    with a comma and at least five comma-separated fields yields a full
    report whose status is the first field and whose four numeric fields are
    what [parseInt] reads in fields two to five, each replaced by 0 when
    [parseInt] gives NaN, independently of the others.  The line
    ["STATUS,notanumber,27,3,120"] yields capacity 0, distance 27,
    dailyUsage 3 and totalUsage 120. *)
Theorem classify_total (line : string) :
  ((exists st cap dist daily total,
       DataProcessor.parseSerialLine line = full st cap dist daily total line)
   \/ (exists k v, DataProcessor.parseSerialLine line = matched k v line)
   \/ DataProcessor.parseSerialLine line = message line line)
  /\ (includes "," line = true ->
      (5 <= List.length (split "," line))%nat ->
      exists cap dist daily total,
        DataProcessor.parseSerialLine line
        = full (nth 0 (split "," line) "") cap dist daily total line
        /\ defaulted (parseInt (nth 1 (split "," line) "")) cap
        /\ defaulted (parseInt (nth 2 (split "," line) "")) dist
        /\ defaulted (parseInt (nth 3 (split "," line) "")) daily
        /\ defaulted (parseInt (nth 4 (split "," line) "")) total)
  /\ DataProcessor.parseSerialLine Scenario.malformed
     = full "STATUS" 0 27 3 120 Scenario.malformed.
Proof.
  split; [| split].
  - unfold DataProcessor.parseSerialLine.
    destruct (DataProcessor.parseFull line) as [u |] eqn:Ef.
    + left. unfold DataProcessor.parseFull in Ef.
      destruct (includes "," line); [| discriminate].
      destruct (5 <=? _)%nat; [| discriminate].
      injection Ef as <-. eauto 6.
    + destruct (DataProcessor.firstMatch DataProcessor.patterns line) as [u |] eqn:Em.
      * right. left. now apply firstMatch_raw in Em.
      * right. right. reflexivity.
  - intros Hc Hn. unfold DataProcessor.parseSerialLine.
    rewrite (parseFull_fields line Hc Hn).
    do 4 eexists. split; [reflexivity |].
    repeat split; apply or_zero_defaulted.
  - reflexivity.
Qed.

Lemma classify_total_witness :
  exists cap dist daily total,
    DataProcessor.parseSerialLine Scenario.malformed
    = full (nth 0 (split "," Scenario.malformed) "") cap dist daily total
           Scenario.malformed
    /\ defaulted (parseInt (nth 1 (split "," Scenario.malformed) "")) cap
    /\ defaulted (parseInt (nth 2 (split "," Scenario.malformed) "")) dist
    /\ defaulted (parseInt (nth 3 (split "," Scenario.malformed) "")) daily
    /\ defaulted (parseInt (nth 4 (split "," Scenario.malformed) "")) total.
Proof.
  apply (proj1 (proj2 (classify_total Scenario.malformed))).
  - reflexivity.
  - vm_compute. lia.
Defined.

(** ** Objects: keys, deletion and the retention window *)

Lemma keys_adjust (k : string) (f : Bucket -> Bucket) (o : Obj) :
  Object.keys (Object.adjust k f o) = Object.keys o.
Proof.
  induction o as [| [k' v] o IH]; simpl; [reflexivity |].
  destruct (k =? k')%string; simpl; [reflexivity | now rewrite IH].
Qed.

Lemma lookup_None (k : string) (o : Obj) :
  Object.lookup k o = None <-> ~ In k (Object.keys o).
Proof.
  induction o as [| [k' v] o IH]; simpl.
  - tauto.
  - destruct (k =? k')%string eqn:E.
    + apply String.eqb_eq in E. subst. split; [discriminate | tauto].
    + apply String.eqb_neq in E. rewrite IH. split.
      * intros K [K1 | K1]; [congruence | tauto].
      * tauto.
Qed.

(** The keys after [aggregateInto]: a new key goes last, a known key keeps
    the order. *)
Lemma keys_aggregateInto (k : string) (ts cap : Z) (o : Obj) :
  Object.keys (HistoryManager.aggregateInto k ts cap o)
  = match Object.lookup k o with
    | None => Object.keys o ++ [k]
    | Some _ => Object.keys o
    end.
Proof.
  unfold HistoryManager.aggregateInto. rewrite keys_adjust.
  destruct (Object.lookup k o); [reflexivity |].
  unfold Object.create, Object.keys. now rewrite map_app.
Qed.

Lemma filter_filter {A : Type} (p q : A -> bool) (l : list A) :
  filter p (filter q l) = filter (fun x => q x && p x) l.
Proof.
  induction l as [| x l IH]; simpl; [reflexivity |].
  destruct (q x); simpl; [destruct (p x) |]; now rewrite IH.
Qed.

(** Deleting a list of keys keeps the entries whose key is not listed. *)
Lemma fold_delete (ks : list string) (o : Obj) :
  fold_left (fun acc m => Object.delete m acc) ks o
  = filter (fun kv => negb (memb (fst kv) ks)) o.
Proof.
  revert o. induction ks as [| k ks IH]; intro o; simpl.
  - symmetry. apply forallb_filter_id. now apply forallb_forall.
  - rewrite IH. unfold Object.delete. rewrite filter_filter.
    apply filter_ext. intros [k' v]. simpl.
    rewrite (String.eqb_sym k' k). now rewrite negb_orb.
Qed.

Lemma memb_In (k : string) (ks : list string) : memb k ks = true <-> In k ks.
Proof.
  unfold memb. rewrite existsb_exists. split.
  - intros (x & Hx & E). apply String.eqb_eq in E. now subst.
  - intro Hk. exists k. split; [assumption | apply String.eqb_refl].
Qed.

Lemma filter_own_keys (a : Obj) (ks : list string) :
  incl (Object.keys a) ks ->
  filter (fun kv => negb (memb (fst kv) ks)) a = [].
Proof.
  induction a as [| [k v] a IH]; simpl; intro Hi; [reflexivity |].
  replace (memb k ks) with true
    by (symmetry; apply memb_In, Hi; now left).
  simpl. apply IH. intros x Hx. apply Hi. now right.
Qed.

Lemma filter_other_keys (b : Obj) (ks : list string) :
  (forall k, In k (Object.keys b) -> ~ In k ks) ->
  filter (fun kv => negb (memb (fst kv) ks)) b = b.
Proof.
  induction b as [| [k v] b IH]; simpl; intro Hd; [reflexivity |].
  destruct (memb k ks) eqn:E.
  - apply memb_In in E. exfalso. apply (Hd k); [now left | assumption].
  - simpl. f_equal. apply IH. intros x Hx. apply Hd. now right.
Qed.

Lemma keys_firstn (n : nat) (o : Obj) :
  firstn n (Object.keys o) = Object.keys (firstn n o).
Proof. unfold Object.keys. apply firstn_map. Qed.

(** Deleting the keys of the first [n] entries leaves, of the entries past
    them, those with another key. *)
Lemma delete_prefix (n : nat) (o : Obj) :
  fold_left (fun acc m => Object.delete m acc) (firstn n (Object.keys o)) o
  = filter (fun kv => negb (memb (fst kv) (Object.keys (firstn n o))))
           (skipn n o).
Proof.
  rewrite fold_delete, keys_firstn.
  set (ks := Object.keys (firstn n o)).
  transitivity
    (filter (fun kv => negb (memb (fst kv) ks)) (firstn n o ++ skipn n o)).
  - now rewrite firstn_skipn.
  - rewrite filter_app, filter_own_keys by apply incl_refl. reflexivity.
Qed.

Lemma keys_length (o : Obj) : List.length (Object.keys o) = List.length o.
Proof. apply length_map. Qed.

(** After the clean-up at most 12 keys are left, whatever the object held. *)
Lemma cleanup_length (o : Obj) :
  (List.length (Object.keys (HistoryManager.cleanup o)) <= 12)%nat.
Proof.
  unfold HistoryManager.cleanup. cbv zeta.
  destruct (12 <? List.length (Object.keys o))%nat eqn:E.
  - rewrite delete_prefix, keys_length.
    etransitivity; [apply filter_length_le |].
    rewrite length_skipn, keys_length. lia.
  - now apply Nat.ltb_ge in E.
Qed.

Lemma NoDup_app_disjoint {A : Type} (a b : list A) :
  NoDup (a ++ b) -> forall x, In x b -> ~ In x a.
Proof.
  induction a as [| y a IH]; simpl; intros Hn x Hb; [tauto |].
  inversion Hn as [| ? ? Hy Hn']; subst.
  intros [-> | Ha].
  - apply Hy, in_or_app. now right.
  - exact (IH Hn' x Hb Ha).
Qed.

(** With distinct keys the clean-up keeps exactly the last 12 entries. *)
Lemma cleanup_keys (o : Obj) :
  NoDup (Object.keys o) ->
  Object.keys (HistoryManager.cleanup o) = lastn 12 (Object.keys o).
Proof.
  intro Hn. unfold HistoryManager.cleanup, lastn. cbv zeta.
  destruct (12 <? List.length (Object.keys o))%nat eqn:E.
  - rewrite delete_prefix.
    set (n := (List.length (Object.keys o) - 12)%nat).
    rewrite filter_other_keys.
    + unfold Object.keys. now rewrite skipn_map.
    + intros k Hk. apply NoDup_app_disjoint with (b := Object.keys (skipn n o));
        [| assumption].
      unfold Object.keys in *. rewrite <- map_app, firstn_skipn. assumption.
  - apply Nat.ltb_ge in E.
    replace (List.length (Object.keys o) - 12)%nat with 0%nat by lia.
    reflexivity.
Qed.

Lemma lastn_short {A : Type} (n : nat) (l : list A) :
  (List.length l <= n)%nat -> lastn n l = l.
Proof.
  intro Hl. unfold lastn.
  now replace (List.length l - n)%nat with 0%nat by lia.
Qed.

Lemma lastn_snoc {A : Type} (n : nat) (l : list A) (x : A) :
  (1 <= n)%nat -> lastn n (lastn n l ++ [x]) = lastn n (l ++ [x]).
Proof.
  intro Hn.
  destruct (Nat.le_gt_cases (List.length l) n) as [Hl | Hl].
  - now rewrite (lastn_short n l Hl).
  - unfold lastn. rewrite !length_app, length_skipn. simpl List.length.
    set (d := (List.length l - n)%nat).
    replace (List.length l - d + 1 - n)%nat with 1%nat by (subst d; lia).
    replace (List.length l + 1 - n)%nat with (1 + d)%nat by (subst d; lia).
    rewrite <- skipn_skipn. f_equal.
    rewrite skipn_app.
    replace (d - List.length l)%nat with 0%nat by (subst d; lia).
    reflexivity.
Qed.

Lemma lastn_incl {A : Type} (n : nat) (l : list A) : incl (lastn n l) l.
Proof.
  unfold lastn. intros x Hx.
  rewrite <- (firstn_skipn (List.length l - n) l). apply in_or_app. now right.
Qed.

Lemma lastn_NoDup {A : Type} (n : nat) (l : list A) :
  NoDup l -> NoDup (lastn n l).
Proof.
  unfold lastn. intro Hn.
  rewrite <- (firstn_skipn (List.length l - n) l) in Hn.
  now apply NoDup_app_remove_l in Hn.
Qed.

Lemma monthly_aggregateHistory (H : Host) (ts cap : Z) (h : UsageHistory) :
  monthly (HistoryManager.aggregateHistory H ts cap h)
  = HistoryManager.cleanup
      (HistoryManager.aggregateInto (HistoryManager.monthKey H ts) ts cap
         (monthly h)).
Proof. reflexivity. Qed.

Lemma lastn_length_le {A : Type} (n : nat) (l : list A) :
  (List.length (lastn n l) <= n)%nat.
Proof. unfold lastn. rewrite length_skipn. lia. Qed.

Lemma lookup_Some (k : string) (o : Obj) :
  In k (Object.keys o) -> exists v, Object.lookup k o = Some v.
Proof.
  intro Hk. destruct (Object.lookup k o) as [v |] eqn:E; [eauto |].
  apply lookup_None in E. contradiction.
Qed.

(** Recording samples keeps the keys of the last 12 months created, oldest
    first, as long as no sample falls into a month that has left the
    window. *)
Lemma recordAll_keys (H : Host) (samples : list (Z * Z)) :
  forall (seen : list string) (h : UsageHistory),
    Object.keys (monthly h) = lastn 12 seen ->
    NoDup seen ->
    inWindowFrom seen (map (sampleMonth H) samples) = true ->
    Object.keys (monthly (recordAll H samples h))
    = lastn 12 (createdFrom seen (map (sampleMonth H) samples)).
Proof.
  induction samples as [| s rest IH]; intros seen h Hk Hn Hw.
  - exact Hk.
  - cbn [recordAll fold_left map createdFrom inWindowFrom] in *.
    change (fold_left _ rest ?h0) with (recordAll H rest h0).
    apply andb_true_iff in Hw as [Hin Hw].
    destruct (memb (sampleMonth H s) seen) eqn:Em.
    + cbn [negb orb] in Hin. apply memb_In in Hin. rewrite <- Hk in Hin.
      apply IH; [| assumption | assumption].
      rewrite monthly_aggregateHistory.
      change (HistoryManager.monthKey H (fst s)) with (sampleMonth H s).
      rewrite cleanup_keys; rewrite keys_aggregateInto;
        destruct (lookup_Some _ _ Hin) as (v & ->); rewrite Hk.
      * apply lastn_short, lastn_length_le.
      * now apply lastn_NoDup.
    + assert (Hfresh : ~ In (sampleMonth H s) seen).
      { intro K. apply memb_In in K. congruence. }
      assert (Hl : Object.lookup (sampleMonth H s) (monthly h) = None).
      { apply lookup_None. rewrite Hk. intro K.
        apply Hfresh. exact (lastn_incl 12 seen _ K). }
      apply IH; [| | assumption].
      * rewrite monthly_aggregateHistory.
        change (HistoryManager.monthKey H (fst s)) with (sampleMonth H s).
        rewrite cleanup_keys; rewrite keys_aggregateInto, Hl, Hk.
        -- apply lastn_snoc. lia.
        -- apply NoDup_app; [now apply lastn_NoDup | repeat constructor; tauto |].
           intros x Hx [<- | []]. apply Hfresh. exact (lastn_incl 12 seen _ Hx).
      * apply NoDup_app; [assumption | repeat constructor; tauto |].
        intros x Hx [<- | []]. contradiction.
Qed.

Lemma lastn_tl {A : Type} (l : list A) :
  List.length l = 13%nat -> lastn 12 l = tl l.
Proof.
  intro Hl. unfold lastn. rewrite Hl. now destruct l.
Qed.

(** C9.  Every call of [aggregateHistory], and so every call of
    [addToHistory], leaves at most 12 month buckets, whatever was stored
    before.  Starting without month buckets, recording samples that between
    them create buckets for 13 distinct months (no sample falling into a
    month that has already left the window, as with samples in chronological
    order) leaves exactly 12 buckets: those of the 12 months created last, in
    the order they were created. *)
Theorem monthly_retention (H : Host) :
  (forall (ts cap : Z) (h : UsageHistory),
      (List.length
         (Object.keys (monthly (HistoryManager.aggregateHistory H ts cap h)))
       <= 12)%nat)
  /\ (forall (cap : Z) (w : World),
         (List.length
            (Object.keys
               (monthly
                  (usageHistory
                     (db (exec (HistoryManager.addToHistory H cap) w)))))
          <= 12)%nat)
  /\ (forall (samples : list (Z * Z)) (h : UsageHistory),
         monthly h = [] ->
         inWindow (map (sampleMonth H) samples) = true ->
         List.length (created (map (sampleMonth H) samples)) = 13%nat ->
         Object.keys (monthly (recordAll H samples h))
         = tl (created (map (sampleMonth H) samples))
         /\ List.length (Object.keys (monthly (recordAll H samples h))) = 12%nat).
Proof.
  split; [| split].
  - intros ts cap h. rewrite monthly_aggregateHistory. apply cleanup_length.
  - intros cap [d t].
    unfold HistoryManager.addToHistory, exec, bind, modify, Date_now.
    cbn [fst snd db ticks].
    destruct (HistoryManager.maxHistorySize <? _)%nat;
      cbn [usageHistory set_usageHistory];
      rewrite monthly_aggregateHistory; apply cleanup_length.
  - intros samples h Hm Hw Hl.
    assert (E : Object.keys (monthly (recordAll H samples h))
                = tl (created (map (sampleMonth H) samples))).
    { rewrite (recordAll_keys H samples [] h).
      - now apply lastn_tl.
      - now rewrite Hm.
      - constructor.
      - exact Hw. }
    split; [exact E |].
    rewrite E.
    destruct (created (map (sampleMonth H) samples)) as [| k ks];
      [discriminate |].
    simpl in *. lia.
Qed.

Lemma monthly_retention_witness :
  Object.keys (monthly (recordAll Scenario.utcHost Scenario.thirteenMonths
                          Scenario.emptyHistory))
  = ["2024-2"; "2024-3"; "2024-4"; "2024-5"; "2024-6"; "2024-7"; "2024-8";
     "2024-9"; "2024-10"; "2024-11"; "2024-12"; "2025-1"]
  /\ List.length
       (Object.keys (monthly (recordAll Scenario.utcHost Scenario.thirteenMonths
                                Scenario.emptyHistory))) = 12%nat.
Proof.
  exact (proj2 (proj2 (monthly_retention Scenario.utcHost))
           Scenario.thirteenMonths Scenario.emptyHistory eq_refl eq_refl eq_refl).
Defined.

(** ** [style.js] against [javascript.js] *)

Section StyleAgainstJavascript.

Variable Aux : Type.
Variable addLog : string -> string -> Aux * nat -> Aux * nat.
Variable addToUsageHistory : number -> Aux * nat -> Aux * nat.
Variable H : Host.

Lemma call_db (f : Aux * nat -> Aux * nat) (w : StyleJs.World Aux) :
  StyleJs.db (StyleJs.call Aux f w) = StyleJs.db w.
Proof. unfold StyleJs.call. now destruct (f (StyleJs.aux w, StyleJs.ticks w)). Qed.

Lemma updateDatabase_db (data : StyleJs.Data) (w : StyleJs.World Aux) :
  StyleJs.db (StyleJs.updateDatabase Aux data w)
  = {| StyleJs.status := StyleJs.d_status data;
       StyleJs.capacity := StyleJs.d_capacity data;
       StyleJs.distance := StyleJs.d_distance data;
       StyleJs.dailyUsage := StyleJs.d_dailyUsage data;
       StyleJs.totalUsage := StyleJs.d_totalUsage data;
       StyleJs.lastActivity := StyleJs.lastActivity (StyleJs.db w);
       StyleJs.lastUpdate := StyleJs.lastUpdate (StyleJs.db w) |}.
Proof. reflexivity. Qed.

(** Both tests of [updateFromArduinoData] compare [data.status] with the
    value just assigned from it. *)
Lemma tests_never_hold (data : StyleJs.Data) (w : StyleJs.World Aux) :
  StyleJs.justOpened data (StyleJs.updateDatabase Aux data w) = false
  /\ StyleJs.justClosed data (StyleJs.updateDatabase Aux data w) = false.
Proof.
  unfold StyleJs.justOpened, StyleJs.justClosed.
  rewrite updateDatabase_db. cbn [StyleJs.status].
  split; apply andb_negb_r.
Qed.

Lemma updateFromArduinoData_db (data : StyleJs.Data) (w : StyleJs.World Aux) :
  StyleJs.db (StyleJs.updateFromArduinoData Aux addLog addToUsageHistory H data w)
  = StyleJs.db (StyleJs.updateDatabase Aux data w).
Proof.
  unfold StyleJs.updateFromArduinoData. cbv zeta.
  destruct (tests_never_hold data w) as (-> & ->).
  now rewrite !call_db.
Qed.

End StyleAgainstJavascript.

(** C10.  In [style.js], [updateFromArduinoData] evaluates both of its
    status tests after [db.status] has been assigned, so neither holds for
    any input and [lastActivity] is never written: the function leaves the
    report's five fields and the old [lastActivity], whatever the helpers of
    [script.js] do.  In [javascript.js], [applyUpdate] on a report BUKA over a
    stored TUTUP stamps [lastActivity].  On the line ["BUKA,45,27,3,120"] and
    a closed lid with counters 3 and 120 the two leave different device
    fields: [style.js] has dailyUsage 3 and no activity stamp,
    [javascript.js] dailyUsage 4 and a stamp. *)
Theorem style_differs_from_javascript
  (Aux : Type) (addLog : string -> string -> Aux * nat -> Aux * nat)
  (addToUsageHistory : number -> Aux * nat -> Aux * nat) (H : Host) :
  (forall (data : StyleJs.Data) (w : StyleJs.World Aux),
      StyleJs.justOpened data (StyleJs.updateDatabase Aux data w) = false
      /\ StyleJs.lastActivity
           (StyleJs.db
              (StyleJs.updateFromArduinoData Aux addLog addToUsageHistory H data w))
         = StyleJs.lastActivity (StyleJs.db w))
  /\ (forall (w : World) (cap dist daily total : Z) (raw : string),
         status (db w) = VString "TUTUP" ->
         lastActivity
           (db (exec (DataProcessor.applyUpdate H
                        (Some (full "BUKA" cap dist daily total raw))) w))
         = Some (clock H (S (ticks w))))
  /\ (forall ws : StyleJs.World Aux,
         StyleJs.device (StyleJs.db ws) = device_of_DB (db Scenario.closedWorld) ->
         StyleJs.processLine Aux addLog addToUsageHistory H "BUKA,45,27,3,120" ws
         = StyleJs.updateFromArduinoData Aux addLog addToUsageHistory H
             Scenario.styleReport (StyleJs.newDate Aux H StyleJs.set_lastUpdate ws)
         /\ StyleJs.device
              (StyleJs.db
                 (StyleJs.processLine Aux addLog addToUsageHistory H
                    "BUKA,45,27,3,120" ws))
            = reported "BUKA" 45 27 3 120 (device_of_DB (db Scenario.closedWorld))
         /\ device_of_DB
              (db (exec (DataProcessor.applyUpdate H (Some Scenario.report))
                        Scenario.closedWorld))
            = opened (clock H (S (ticks Scenario.closedWorld)))
                (reported "BUKA" 45 27 3 120 (device_of_DB (db Scenario.closedWorld)))
         /\ StyleJs.device
              (StyleJs.db
                 (StyleJs.processLine Aux addLog addToUsageHistory H
                    "BUKA,45,27,3,120" ws))
            <> device_of_DB
                 (db (exec (DataProcessor.applyUpdate H (Some Scenario.report))
                           Scenario.closedWorld))).
Proof.
  split; [| split].
  - intros data w. split.
    + apply tests_never_hold.
    + now rewrite updateFromArduinoData_db, updateDatabase_db.
  - intros w cap dist daily total raw Hs.
    now destruct (applyUpdate_opening H w cap dist daily total raw Hs)
      as (_ & _ & _ & _ & _ & E & _).
  - intros ws Hws.
    assert (E1 :
              StyleJs.processLine Aux addLog addToUsageHistory H
                "BUKA,45,27,3,120" ws
              = StyleJs.updateFromArduinoData Aux addLog addToUsageHistory H
                  Scenario.styleReport
                  (StyleJs.newDate Aux H StyleJs.set_lastUpdate ws))
      by reflexivity.
    assert (E2 :
              StyleJs.device
                (StyleJs.db
                   (StyleJs.processLine Aux addLog addToUsageHistory H
                      "BUKA,45,27,3,120" ws))
              = reported "BUKA" 45 27 3 120 (device_of_DB (db Scenario.closedWorld))).
    { rewrite E1, updateFromArduinoData_db, updateDatabase_db.
      apply (f_equal dev_lastActivity) in Hws.
      unfold StyleJs.device, reported. cbn. cbn in Hws. now rewrite Hws. }
    assert (E3 :
              device_of_DB
                (db (exec (DataProcessor.applyUpdate H (Some Scenario.report))
                          Scenario.closedWorld))
              = opened (clock H (S (ticks Scenario.closedWorld)))
                  (reported "BUKA" 45 27 3 120
                     (device_of_DB (db Scenario.closedWorld)))).
    { now destruct (applyUpdate_device H "BUKA" 45 27 3 120 "BUKA,45,27,3,120"
                      Scenario.closedWorld) as (E & _). }
    repeat split; try assumption.
    rewrite E2, E3. intro K. apply (f_equal dev_dailyUsage) in K.
    discriminate K.
Qed.

Lemma style_differs_from_javascript_witness :
  lastActivity
    (db (exec (DataProcessor.applyUpdate Scenario.utcHost (Some Scenario.report))
              Scenario.closedWorld))
  = Some 1705276802000
  /\ StyleJs.device
       (StyleJs.db
          (StyleJs.processLine unit Scenario.noLog Scenario.noHistory Scenario.utcHost
             "BUKA,45,27,3,120" Scenario.closedPage))
     <> device_of_DB
          (db (exec (DataProcessor.applyUpdate Scenario.utcHost (Some Scenario.report))
                    Scenario.closedWorld)).
Proof.
  split.
  - exact (proj1 (proj2 (style_differs_from_javascript unit Scenario.noLog
                           Scenario.noHistory Scenario.utcHost))
             Scenario.closedWorld 45 27 3 120 "BUKA,45,27,3,120" eq_refl).
  - exact (proj2 (proj2 (proj2
             (proj2 (proj2 (style_differs_from_javascript unit Scenario.noLog
                              Scenario.noHistory Scenario.utcHost))
                Scenario.closedPage eq_refl)))).
Defined.

(** * Further properties *)

(** ** Splitting and counting *)

Lemma split_length (c : ascii) (s : string) :
  List.length (split c s) = S (countChar c s).
Proof.
  induction s as [| d r IH]; simpl; [reflexivity |].
  destruct (d =? c)%char; simpl.
  - now rewrite IH.
  - destruct (split c r) as [| p ps]; simpl in *; [discriminate | assumption].
Qed.

Lemma includes_countChar (c : ascii) (s : string) :
  includes c s = true <-> (1 <= countChar c s)%nat.
Proof.
  induction s as [| d r IH]; simpl.
  - split; [discriminate | lia].
  - destruct (d =? c)%char; simpl; [split; [lia | reflexivity] | exact IH].
Qed.

Lemma firstMatch_not_full (ps : list (PatternKey * (string -> Match)))
  (line : string) (u : Update) :
  DataProcessor.firstMatch ps line = Some u -> isFull u = false.
Proof.
  intro E. apply firstMatch_raw in E as (k & v & ->). reflexivity.
Qed.

(** X1.  [parseSerialLine] returns a full report exactly when the line holds
    at least four commas, whatever else the line looks like: a line that
    starts with [STATUS:] or [DISTANCE:] and has four commas is a full
    report, and no line with fewer commas is. *)
Theorem full_iff_four_commas (line : string) :
  isFull (DataProcessor.parseSerialLine line) = true
  <-> (4 <= countChar "," line)%nat.
Proof.
  unfold DataProcessor.parseSerialLine, DataProcessor.parseFull.
  pose proof (includes_countChar "," line) as Hi.
  pose proof (split_length "," line) as Hl.
  destruct (includes "," line) eqn:Ei.
  - destruct (5 <=? List.length (split "," line))%nat eqn:E5.
    + apply Nat.leb_le in E5. split; [lia | reflexivity].
    + apply Nat.leb_gt in E5.
      destruct (DataProcessor.firstMatch DataProcessor.patterns line) as [u |] eqn:Em.
      * rewrite (firstMatch_not_full _ _ _ Em). split; [discriminate | lia].
      * split; [discriminate | lia].
  - assert (countChar "," line = 0)%nat.
    { destruct (countChar "," line); [reflexivity |].
      assert (K : false = true) by (apply Hi; lia). discriminate K. }
    destruct (DataProcessor.firstMatch DataProcessor.patterns line) as [u |] eqn:Em.
    + rewrite (firstMatch_not_full _ _ _ Em). split; [discriminate | lia].
    + split; [discriminate | lia].
Qed.

(** ** Decimal numerals through [parseInt] *)

Lemma string_of_uint_allDigits (d : Decimal.uint) :
  allDigits (NilEmpty.string_of_uint d) = true.
Proof. induction d; simpl; auto. Qed.

Lemma parseDigits_step (c : ascii) (r : string) (k a : Z) :
  digitValue c = Some k -> k < 10 ->
  parseDigits 10 (String c r) (Some a) = parseDigits 10 r (Some (10 * a + k)).
Proof.
  intros E Hk. cbn [parseDigits]. rewrite E.
  now replace (k <? 10) with true by (symmetry; apply Z.ltb_lt; exact Hk).
Qed.

Lemma parseDigits_uint (d : Decimal.uint) :
  forall a, parseDigits 10 (NilEmpty.string_of_uint d) (Some a)
            = Some (uintValue d a).
Proof.
  induction d; intro a; cbn [NilEmpty.string_of_uint uintValue];
    [reflexivity | ..];
    (erewrite parseDigits_step; [apply IHd | reflexivity | lia]).
Qed.

Lemma parseDigits_uint_start (d : Decimal.uint) :
  d <> Decimal.Nil ->
  parseDigits 10 (NilEmpty.string_of_uint d) None = Some (uintValue d 0).
Proof.
  destruct d; intro Hd; [congruence | ..];
    cbn [NilEmpty.string_of_uint uintValue];
    change (parseDigits 10 (String ?c ?r) None)
      with (parseDigits 10 (String c r) (Some 0));
    (erewrite parseDigits_step; [apply parseDigits_uint | reflexivity | lia]).
Qed.

Lemma uintValue_acc (d : Decimal.uint) :
  forall acc, Z.pos (Pos.of_uint_acc d acc) = uintValue d (Z.pos acc).
Proof.
  induction d; intro acc; cbn [Pos.of_uint_acc uintValue];
    [reflexivity | ..]; rewrite IHd; f_equal; lia.
Qed.

Lemma uintValue_of_uint (d : Decimal.uint) :
  Z.of_N (Pos.of_uint d) = uintValue d 0.
Proof.
  induction d; cbn [Pos.of_uint uintValue]; [reflexivity | exact IHd | ..];
    cbn [Z.of_N]; now rewrite uintValue_acc.
Qed.

Lemma uintValue_to_uint (p : positive) : uintValue (Pos.to_uint p) 0 = Z.pos p.
Proof.
  now rewrite <- uintValue_of_uint, DecimalPos.Unsigned.of_to.
Qed.

Lemma isDigit_not_sign (c : ascii) :
  isDigit c = true -> c <> "-"%char /\ c <> "+"%char.
Proof. ascii_cases c; intro E; try discriminate E; split; discriminate. Qed.

(** On a non-empty run of digits [parseInt] returns what the digits denote,
    with or without a minus sign in front. *)
Lemma parseInt_digits_value (s : string) (n : Z) :
  s <> EmptyString -> allDigits s = true ->
  parseDigits 10 s None = Some n ->
  parseInt s = Num n /\ parseInt (String "-" s) = Num (- n).
Proof.
  destruct s as [| c r]; [congruence |]. intros _ E Hp.
  simpl in E. apply andb_true_iff in E as [Ec Er].
  assert (Hr : match r with
               | String c2 _ => isDigit c2 = true
               | EmptyString => True
               end).
  { destruct r as [| c2 r2]; [exact I |].
    simpl in Er. now apply andb_true_iff in Er as [Ec2 _]. }
  unfold parseInt. cbn [trimStart].
  rewrite (isDigit_not_space c Ec).
  change (isWhiteSpace "-") with false. cbv iota.
  split.
  - ascii_cases c; try discriminate Ec;
      try (cbv iota beta; rewrite Hp; f_equal; lia).
    destruct r as [| c2 r2].
    + cbv iota beta; rewrite Hp; f_equal; lia.
    + ascii_cases c2; try discriminate Hr; cbv iota beta; rewrite Hp; f_equal; lia.
  - ascii_cases c; try discriminate Ec;
      try (cbv iota beta; rewrite Hp; f_equal; lia).
    destruct r as [| c2 r2].
    + cbv iota beta; rewrite Hp; f_equal; lia.
    + ascii_cases c2; try discriminate Hr; cbv iota beta; rewrite Hp; f_equal; lia.
Qed.

Lemma string_of_uint_nonempty (d : Decimal.uint) :
  d <> Decimal.Nil -> NilEmpty.string_of_uint d <> EmptyString.
Proof. destruct d; intro Hd; [congruence | ..]; discriminate. Qed.

(** [parseInt] inverts the decimal rendering of an integer, negative numbers
    included. *)
Lemma parseInt_toString (z : Z) : parseInt (toString z) = Num z.
Proof.
  destruct z as [| p | p]; [reflexivity | |];
    unfold toString; cbn [Z.to_int NilEmpty.string_of_int];
    pose proof (DecimalPos.Unsigned.to_uint_nonnil p) as Hn;
    destruct (parseInt_digits_value (NilEmpty.string_of_uint (Pos.to_uint p))
                (Z.pos p)) as (E1 & E2);
    try (now apply string_of_uint_nonempty);
    try apply string_of_uint_allDigits;
    try (rewrite parseDigits_uint_start by assumption;
         now rewrite uintValue_to_uint);
    assumption.
Qed.

(** ** The wire format, written and read back *)

Lemma allDigits_no_comma (s : string) :
  allDigits s = true -> includes "," s = false.
Proof.
  induction s as [| c r IH]; simpl; [reflexivity |].
  intro E. apply andb_true_iff in E as [Ec Er]. rewrite (IH Er).
  ascii_cases c; try discriminate Ec; reflexivity.
Qed.

Lemma toString_cases (z : Z) :
  (0 <= z /\ allDigits (toString z) = true /\ toString z <> EmptyString)
  \/ (z < 0 /\ exists s, toString z = String "-" s /\ allDigits s = true).
Proof.
  destruct z as [| p | p].
  - left. repeat split; [lia | discriminate].
  - left. unfold toString. cbn [Z.to_int NilEmpty.string_of_int].
    repeat split; [lia | apply string_of_uint_allDigits |].
    apply string_of_uint_nonempty, DecimalPos.Unsigned.to_uint_nonnil.
  - right. split; [lia |]. unfold toString.
    cbn [Z.to_int NilEmpty.string_of_int]. eexists. split; [reflexivity |].
    apply string_of_uint_allDigits.
Qed.

Lemma toString_no_comma (z : Z) : includes "," (toString z) = false.
Proof.
  destruct (toString_cases z) as [(_ & E & _) | (_ & s & -> & E)].
  - now apply allDigits_no_comma.
  - simpl. now apply allDigits_no_comma.
Qed.

Lemma split_app_sep (c : ascii) (a rest : string) :
  includes c a = false ->
  split c (a ++ String c rest) = a :: split c rest.
Proof.
  induction a as [| d r IH]; simpl; intro E.
  - now rewrite Ascii.eqb_refl.
  - apply orb_false_iff in E as [Ed Er].
    rewrite Ed, (IH Er). reflexivity.
Qed.

Lemma split_no_sep (c : ascii) (a : string) :
  includes c a = false -> split c a = [a].
Proof.
  induction a as [| d r IH]; simpl; intro E; [reflexivity |].
  apply orb_false_iff in E as [Ed Er].
  now rewrite Ed, (IH Er).
Qed.

Lemma includes_app_sep (c : ascii) (a rest : string) :
  includes c (a ++ String c rest) = true.
Proof.
  induction a as [| d r IH]; simpl.
  - now rewrite Ascii.eqb_refl.
  - rewrite IH. apply orb_true_r.
Qed.



Lemma takeDigits_id (s : string) : allDigits s = true -> takeDigits s = s.
Proof.
  induction s as [| c r IH]; simpl; [reflexivity |].
  intro E. apply andb_true_iff in E as [Ec Er]. now rewrite Ec, (IH Er).
Qed.

Lemma parse_distance_line (n : Z) :
  0 <= n ->
  DataProcessor.parseSerialLine (renderPartial "DISTANCE:" n)
  = matched k_distance (VString (toString n)) (renderPartial "DISTANCE:" n).
Proof.
  intro Hn.
  destruct (toString_cases n) as [(_ & Ed & Hne) | (K & _)]; [| lia].
  unfold DataProcessor.parseSerialLine, DataProcessor.parseFull, renderPartial.
  cbn [append includes Ascii.eqb Bool.eqb orb].
  rewrite (allDigits_no_comma _ Ed).
  unfold DataProcessor.patterns. cbn [DataProcessor.firstMatch].
  change (re_prefix_rest "STATUS:" (String "D" ?r)) with (@None (option string)).
  unfold re_prefix_digits. cbn [stripPrefix Ascii.eqb Bool.eqb].
  rewrite (takeDigits_id _ Ed).
  destruct (toString n) as [| c r] eqn:E; [congruence |]. reflexivity.
Qed.

Lemma parse_usage_line (n : Z) :
  0 <= n ->
  DataProcessor.parseSerialLine (renderPartial "USAGE:" n)
  = matched k_usage (VString (toString n)) (renderPartial "USAGE:" n).
Proof.
  intro Hn.
  destruct (toString_cases n) as [(_ & Ed & Hne) | (K & _)]; [| lia].
  unfold DataProcessor.parseSerialLine, DataProcessor.parseFull, renderPartial.
  cbn [append includes Ascii.eqb Bool.eqb orb].
  rewrite (allDigits_no_comma _ Ed).
  unfold DataProcessor.patterns. cbn [DataProcessor.firstMatch].
  change (re_prefix_rest "STATUS:" (String "U" ?r)) with (@None (option string)).
  change (re_prefix_digits "DISTANCE:" (String "U" ?r)) with (@None (option string)).
  unfold re_prefix_digits. cbn [stripPrefix Ascii.eqb Bool.eqb].
  rewrite (takeDigits_id _ Ed).
  destruct (toString n) as [| c r] eqn:E; [congruence |]. reflexivity.
Qed.

Lemma parse_negative_line (n : Z) :
  n < 0 ->
  DataProcessor.parseSerialLine (renderPartial "DISTANCE:" n)
  = message (renderPartial "DISTANCE:" n) (renderPartial "DISTANCE:" n)
  /\ DataProcessor.parseSerialLine (renderPartial "USAGE:" n)
     = message (renderPartial "USAGE:" n) (renderPartial "USAGE:" n).
Proof.
  intro Hn.
  destruct (toString_cases n) as [(K & _) | (_ & s & E & Ed)]; [lia |].
  unfold DataProcessor.parseSerialLine, DataProcessor.parseFull, renderPartial.
  rewrite E. cbn [append includes Ascii.eqb Bool.eqb orb].
  rewrite (allDigits_no_comma _ Ed).
  split; reflexivity.
Qed.



(** ** Chunks *)

Lemma trimStart_allWhite (s : string) :
  allWhite s = true -> trimStart s = EmptyString.
Proof.
  induction s as [| c r IH]; simpl; [reflexivity |].
  intro E. apply andb_true_iff in E as [Ec Er]. now rewrite Ec, (IH Er).
Qed.

Lemma trimStart_visible (s : string) :
  allWhite s = false ->
  exists c r, trimStart s = String c r /\ isWhiteSpace c = false.
Proof.
  induction s as [| c r IH]; simpl; [discriminate |].
  destruct (isWhiteSpace c) eqn:Ec; simpl.
  - exact IH.
  - intros _. now exists c, r.
Qed.

Lemma trimEnd_visible (c : ascii) (r : string) :
  isWhiteSpace c = false -> trimEnd (String c r) = String c (trimEnd r).
Proof. intro Ec. cbn [trimEnd]. now rewrite Ec. Qed.

Lemma split_first (sep c : ascii) (r : string) :
  (c =? sep)%char = false ->
  exists p ps, split sep (String c r) = String c p :: ps.
Proof.
  intro E. cbn [split]. rewrite E.
  destruct (split sep r) as [| p ps]; eauto.
Qed.

Lemma processSerialChunk_classified (chunk : string) :
  classified (DataProcessor.processSerialChunk chunk).
Proof.
  unfold DataProcessor.processSerialChunk, classified.
  induction (split "010" (trim chunk)) as [| line rest IH]; simpl.
  - constructor.
  - destruct (trim line =? "")%string; [exact IH |].
    constructor; [eauto | exact IH].
Qed.

(** X4.  A chunk yields no update exactly when it is made of white space
    only; [processData] on such a chunk changes nothing at all: no field of
    [db], no log entry, no clock reading. *)
Theorem blank_chunk (H : Host) (chunk : string) (w : World) :
  (DataProcessor.processSerialChunk chunk = [] <-> allWhite chunk = true)
  /\ (allWhite chunk = true -> SerialManager.processData H chunk w = (tt, w)).
Proof.
  assert (Hb : allWhite chunk = true ->
               DataProcessor.processSerialChunk chunk = []).
  { intro E. unfold DataProcessor.processSerialChunk, trim.
    now rewrite (trimStart_allWhite chunk E). }
  split; [split |].
  - intro E. destruct (allWhite chunk) eqn:Ew; [reflexivity | exfalso].
    destruct (trimStart_visible chunk Ew) as (c & r & Et & Ec).
    unfold DataProcessor.processSerialChunk, trim in E.
    rewrite Et, (trimEnd_visible c r Ec) in E.
    assert (Hc : (c =? "010")%char = false).
    { destruct (c =? "010")%char eqn:K; [| reflexivity].
      apply Ascii.eqb_eq in K. subst c. discriminate Ec. }
    destruct (split_first "010" c (trimEnd r) Hc) as (p & ps & Es).
    rewrite Es in E. cbn [DataProcessor.processLines] in E.
    unfold trim in E. cbn [trimStart] in E.
    rewrite Ec, (trimEnd_visible c p Ec) in E. discriminate E.
  - exact Hb.
  - intro E. unfold SerialManager.processData. cbv zeta.
    rewrite (Hb E). destruct w. reflexivity.
Qed.

Lemma blank_chunk_witness :
  SerialManager.processData Scenario.utcHost (" " ++ Scenario.LF ++ Scenario.LF)
    Scenario.initialWorld
  = (tt, Scenario.initialWorld).
Proof.
  apply (proj2 (blank_chunk Scenario.utcHost (" " ++ Scenario.LF ++ Scenario.LF)
                  Scenario.initialWorld)).
  reflexivity.
Defined.

(** The pass of [processData] that logs messages leaves the device fields,
    [lastUpdate] and the history as they are. *)
Lemma logging_frame (H : Host) (updates : list Update) :
  forall w : World,
    let w' :=
      exec (forEach
              (fun update =>
                 if SerialManager.isLogged update
                 then Logger.log H ("Arduino: " ++ SerialManager.renderValue update)
                        "arduino" ;; ret tt
                 else ret tt)
              updates) w in
    device_of_DB (db w') = device_of_DB (db w)
    /\ lastUpdate (db w') = lastUpdate (db w)
    /\ usageHistory (db w') = usageHistory (db w).
Proof.
  induction updates as [| u us IH]; intro w; cbv zeta.
  - repeat split.
  - cbn [forEach]. rewrite exec_bind.
    match goal with
    | |- context [forEach ?f us] =>
        destruct (IH (exec (f u) w)) as (E1 & E2 & E3)
    end.
    cbv zeta in E1, E2, E3. rewrite E1, E2, E3.
    destruct (SerialManager.isLogged u).
    + rewrite exec_bind, exec_ret.
      destruct (log_frame H ("Arduino: " ++ SerialManager.renderValue u)
                  "arduino" w) as (F1 & F2 & F3 & _).
      repeat split; assumption.
    + repeat split.
Qed.

Lemma processData_frame (H : Host) (chunk : string) (w : World) :
  device_of_DB (db (exec (SerialManager.processData H chunk) w))
  = device_of_DB
      (db (exec (DataProcessor.batchUpdate H
                   (DataProcessor.processSerialChunk chunk)) w))
  /\ lastUpdate (db (exec (SerialManager.processData H chunk) w))
     = lastUpdate
         (db (exec (DataProcessor.batchUpdate H
                      (DataProcessor.processSerialChunk chunk)) w))
  /\ usageHistory (db (exec (SerialManager.processData H chunk) w))
     = usageHistory
         (db (exec (DataProcessor.batchUpdate H
                      (DataProcessor.processSerialChunk chunk)) w)).
Proof.
  unfold SerialManager.processData. cbv zeta.
  rewrite exec_bind. apply logging_frame.
Qed.

(** X5.  What [processData] leaves in the device fields is decided by the
    last full report of the chunk when there is one, and otherwise by the
    partial updates in order: the logging of messages that follows never
    touches the device fields, [lastUpdate] or the history. *)
Theorem processData_device (H : Host) (chunk : string) (w : World) :
  (exists f,
      In f (DataProcessor.processSerialChunk chunk) /\ isFull f = true
      /\ device_of_DB (db (exec (SerialManager.processData H chunk) w))
         = device_of_DB (db (exec (DataProcessor.applyUpdate H (Some f)) w)))
  \/ (noFull (DataProcessor.processSerialChunk chunk)
      /\ device_of_DB (db (exec (SerialManager.processData H chunk) w))
         = device_of_DB
             (db (fold_left
                    (fun w u => exec (DataProcessor.applyPartialUpdate H u) w)
                    (DataProcessor.processSerialChunk chunk) w))).
Proof.
  destruct (processData_frame H chunk w) as (E & _ & _). rewrite E.
  set (updates := DataProcessor.processSerialChunk chunk).
  destruct (existsb isFull updates) eqn:Ef.
  - left. destruct (last_full_split updates Ef) as (pre & f & post & Eu & Hf & Hp).
    exists f. split; [rewrite Eu; apply in_elt |]. split; [assumption |].
    unfold exec at 1. now rewrite Eu, (batchUpdate_full H pre post f w Hf Hp).
  - right. apply existsb_false_noFull in Ef. split; [assumption |].
    unfold exec at 1. now rewrite (batchUpdate_partial H updates w Ef).
Qed.

(** ** No NaN in [db] *)

Lemma integral_device (d : DB) (dv : Device) :
  device_of_DB d = dv ->
  (exists z, dev_capacity dv = Num z) -> (exists z, dev_distance dv = Num z) ->
  (exists z, dev_dailyUsage dv = Num z) -> (exists z, dev_totalUsage dv = Num z) ->
  integral d.
Proof. intros <-. unfold integral. cbn. tauto. Qed.

Lemma applyUpdate_integral (H : Host) (u : Update) (w : World) :
  isFull u = true ->
  integral (db (exec (DataProcessor.applyUpdate H (Some u)) w)).
Proof.
  destruct u as [st cap dist daily total raw | |]; try discriminate. intros _.
  destruct (applyUpdate_device H st cap dist daily total raw w) as (E & _).
  cbv zeta in E. apply (integral_device _ _ E);
    destruct (opens st (status (db w))); cbn; eauto.
Qed.

Lemma applyPartialUpdate_integral (H : Host) (line : string) (w : World) :
  isFull (DataProcessor.parseSerialLine line) = false ->
  integral (db w) ->
  integral
    (db (exec (DataProcessor.applyPartialUpdate H
                 (DataProcessor.parseSerialLine line)) w)).
Proof.
  intros Hf (Hc & Hd & Hu & Ht).
  destruct (applyPartialUpdate_db H (DataProcessor.parseSerialLine line) w)
    as (E & _).
  cbv zeta in E. rewrite E. clear E.
  destruct (DataProcessor.parseSerialLine line)
    as [| key v raw |] eqn:Eu; [discriminate | |].
  - destruct key; unfold integral; cbn; try tauto.
    + destruct (parseSerialLine_numeric line k_distance v raw Eu
                  (or_introl eq_refl)) as (n & _ & ->).
      rewrite calculateCapacity1_closed. repeat split; eauto.
    + destruct (parseSerialLine_numeric line k_usage v raw Eu
                  (or_intror eq_refl)) as (n & _ & ->).
      repeat split; eauto.
  - unfold integral. cbn. tauto.
Qed.

Lemma fold_partial_integral (H : Host) (updates : list Update) :
  classified updates -> noFull updates ->
  forall w, integral (db w) ->
            integral
              (db (fold_left
                     (fun w u => exec (DataProcessor.applyPartialUpdate H u) w)
                     updates w)).
Proof.
  induction updates as [| u us IH]; intros Hc Hn w Hw; [exact Hw |].
  inversion Hc as [| ? ? (line & ->) Hc']; subst.
  inversion Hn as [| ? ? Hu Hn']; subst.
  cbn [fold_left]. apply IH; try assumption.
  now apply applyPartialUpdate_integral.
Qed.

Lemma batchUpdate_exec_cases (H : Host) (updates : list Update) (w : World) :
  (exists f, isFull f = true
             /\ exec (DataProcessor.batchUpdate H updates) w
                = exec (DataProcessor.applyUpdate H (Some f)) w)
  \/ (noFull updates
      /\ exec (DataProcessor.batchUpdate H updates) w
         = fold_left (fun w u => exec (DataProcessor.applyPartialUpdate H u) w)
                     updates w).
Proof.
  destruct (existsb isFull updates) eqn:Ef.
  - left. destruct (last_full_split updates Ef) as (pre & f & post & -> & Hf & Hp).
    exists f. split; [assumption |].
    unfold exec at 1. now rewrite (batchUpdate_full H pre post f w Hf Hp).
  - right. apply existsb_false_noFull in Ef. split; [assumption |].
    unfold exec at 1. now rewrite (batchUpdate_partial H updates w Ef).
Qed.

Lemma batchUpdate_integral (H : Host) (updates : list Update) (w : World) :
  classified updates -> integral (db w) ->
  integral (db (exec (DataProcessor.batchUpdate H updates) w)).
Proof.
  intros Hc Hw.
  destruct (batchUpdate_exec_cases H updates w) as [(f & Hf & ->) | (Hn & ->)].
  - now apply applyUpdate_integral.
  - now apply fold_partial_integral.
Qed.



(** ** The log *)

Lemma log_logs (H : Host) (msg type : string) (w : World) :
  logs (db (exec (Logger.log H msg type) w))
  = firstn Logger.maxLogs (logEntryAt H (ticks w) msg type :: logs (db w)).
Proof.
  destruct w as [d t].
  unfold Logger.log, Utils.generateId, exec, bind, modify, Date_now, ret.
  cbn [fst snd db ticks logs set_logs].
  destruct (Logger.maxLogs <? _)%nat eqn:E; cbn [db logs set_logs].
  - reflexivity.
  - apply Nat.ltb_ge in E. symmetry. now apply firstn_all2.
Qed.

(** X7.  [Logger.log] puts the new entry first and never lets the log grow
    beyond 500 entries, however long it was: the log becomes the first 500
    of the new entry followed by the old ones, so the oldest are the ones
    dropped. *)
Theorem log_is_bounded (H : Host) (msg type : string) (w : World) :
  logs (db (exec (Logger.log H msg type) w))
  = firstn 500 (logEntryAt H (ticks w) msg type :: logs (db w))
  /\ (List.length (logs (db (exec (Logger.log H msg type) w))) <= 500)%nat
  /\ hd_error (logs (db (exec (Logger.log H msg type) w)))
     = Some (logEntryAt H (ticks w) msg type).
Proof.
  rewrite log_logs. change Logger.maxLogs with 500%nat.
  split; [reflexivity |]. split.
  - apply firstn_le_length.
  - reflexivity.
Qed.

(** ** Full reports that are not an opening *)

Lemma opens_iff (st : string) (old : Value) :
  opens st old = true <-> st = "BUKA" /\ old = VString "TUTUP".
Proof.
  unfold opens. rewrite andb_true_iff, String.eqb_eq, Value_eqb_eq. tauto.
Qed.

Lemma report_without_opening_aux (H : Host) (st : string)
  (cap dist daily total : Z) (raw : string) (w : World) :
  ~ (st = "BUKA" /\ status (db w) = VString "TUTUP") ->
  device_of_DB
    (db (exec (DataProcessor.applyUpdate H
                 (Some (full st cap dist daily total raw))) w))
  = reported st cap dist daily total (device_of_DB (db w)).
Proof.
  intro Hn.
  destruct (applyUpdate_device H st cap dist daily total raw w) as (E & _).
  cbv zeta in E. rewrite E.
  destruct (opens st (status (db w))) eqn:Eo; [| reflexivity].
  apply opens_iff in Eo. contradiction.
Qed.

(** X8.  A full report that is not a TUTUP to BUKA transition stores its five
    fields and nothing else in the device fields: a closing, a repeated
    status and a status string the code does not know all leave
    [lastActivity] alone and the counters at the reported values. *)
Theorem report_without_opening (H : Host) (st : string)
  (cap dist daily total : Z) (raw : string) (w : World) :
  ~ (st = "BUKA" /\ status (db w) = VString "TUTUP") ->
  device_of_DB
    (db (exec (DataProcessor.applyUpdate H
                 (Some (full st cap dist daily total raw))) w))
  = reported st cap dist daily total (device_of_DB (db w)).
Proof. apply report_without_opening_aux. Qed.

Lemma report_without_opening_witness :
  device_of_DB
    (db (exec (DataProcessor.applyUpdate Scenario.utcHost
                 (Some (full "TUTUP" 10 45 1 2 "TUTUP,10,45,1,2")))
              Scenario.busyWorld))
  = reported "TUTUP" 10 45 1 2 (device_of_DB (db Scenario.busyWorld)).
Proof.
  apply (report_without_opening Scenario.utcHost "TUTUP" 10 45 1 2
           "TUTUP,10,45,1,2" Scenario.busyWorld).
  intros [K _]. discriminate K.
Defined.



(** ** What a full report logs *)

Lemma handleStatusChange_logs (H : Host) (st : string) (old : Value)
  (w : World) :
  logs (db (exec (DataProcessor.handleStatusChange H st old) w))
  = if opens st old
    then firstn Logger.maxLogs
           (logEntryAt H (S (ticks w)) "Tong dibuka oleh Arduino" "success"
              :: logs (db w))
    else if closes st old
    then firstn Logger.maxLogs
           (logEntryAt H (ticks w) "Tong ditutup oleh Arduino" "success"
              :: logs (db w))
    else logs (db w).
Proof.
  unfold DataProcessor.handleStatusChange. fold (opens st old). fold (closes st old).
  destruct (opens st old).
  - rewrite !exec_bind, exec_ret, log_logs. now destruct w.
  - destruct (closes st old).
    + now rewrite exec_bind, exec_ret, log_logs.
    + reflexivity.
Qed.

Lemma closes_changes (st : string) (old : Value) :
  closes st old = true -> Value_eqb old (VString st) = false.
Proof.
  unfold closes. intro E. apply andb_true_iff in E as [E1 E2].
  apply String.eqb_eq in E1. apply Value_eqb_eq in E2. subst. reflexivity.
Qed.

(** X10.  A full report writes one log entry when it opens the lid (TUTUP to
    BUKA) and one when it closes it (BUKA to TUTUP), and none in any other
    case; the entry goes first and the log stays within its 500 entries. *)
Theorem report_logging (H : Host) (st : string) (cap dist daily total : Z)
  (raw : string) (w : World) :
  logs (db (exec (DataProcessor.applyUpdate H
                    (Some (full st cap dist daily total raw))) w))
  = if opens st (status (db w))
    then firstn 500
           (logEntryAt H (ticks w + 2) "Tong dibuka oleh Arduino" "success"
              :: logs (db w))
    else if closes st (status (db w))
    then firstn 500
           (logEntryAt H (ticks w + 1) "Tong ditutup oleh Arduino" "success"
              :: logs (db w))
    else logs (db w).
Proof.
  unfold DataProcessor.applyUpdate. rewrite !exec_bind.
  match goal with
  | |- context [exec (HistoryManager.addToHistory H cap) ?w0] =>
      destruct (addToHistory_frame H cap w0) as (_ & _ & E & _)
  end.
  cbv zeta in E. rewrite E. clear E.
  destruct w as [d t].
  cbn [fst snd get modify Date_now db ticks status set_status
       set_capacity set_distance set_dailyUsage set_totalUsage set_lastUpdate].
  change Logger.maxLogs with 500%nat in *.
  pose proof (handleStatusChange_logs H st (status d)) as Hl.
  change Logger.maxLogs with 500%nat in Hl.
  destruct (opens st (status d)) eqn:Eo.
  - rewrite (opens_changes _ _ Eo). cbn [negb]. rewrite Hl.
    cbn [db ticks logs]. now replace (t + 2)%nat with (S (S t)) by lia.
  - destruct (closes st (status d)) eqn:Ec.
    + rewrite (closes_changes _ _ Ec). cbn [negb]. rewrite Hl.
      cbn [db ticks logs]. now replace (t + 1)%nat with (S t) by lia.
    + destruct (negb (Value_eqb (status d) (VString st))).
      * rewrite Hl. reflexivity.
      * reflexivity.
Qed.

(** ** The daily history *)

(** X11.  [addToHistory] appends the sample, stamped with the clock reading,
    and keeps the daily history within 1000 entries: while the history holds
    fewer than 1000 entries the sample is simply added; once the addition
    would make it longer than 1000, only the last 500, the new sample
    included, are kept. *)
Theorem daily_history_bounded (H : Host) (cap : Z) (w : World) :
  let entry := {| s_timestamp := clock H (ticks w); s_capacity := cap |} in
  let before := daily (usageHistory (db w)) in
  let after :=
    daily (usageHistory (db (exec (HistoryManager.addToHistory H cap) w))) in
  (List.length after <= 1000)%nat
  /\ last after entry = entry
  /\ after <> []
  /\ ((List.length before < 1000)%nat -> after = before ++ [entry])
  /\ ((1000 <= List.length before)%nat ->
      after = lastn 500 (before ++ [entry]) /\ List.length after = 500%nat).
Proof.
  destruct w as [d t]. cbv zeta.
  unfold HistoryManager.addToHistory, exec, bind, modify, Date_now.
  cbn [fst snd db ticks].
  set (entry := {| s_timestamp := clock H t; s_capacity := cap |}).
  set (before := daily (usageHistory d)).
  change HistoryManager.maxHistorySize with 1000%nat.
  cbn [usageHistory set_usageHistory daily].
  assert (Hlen : List.length (before ++ [entry]) = S (List.length before))
    by (rewrite length_app; simpl; lia).
  destruct (1000 <? List.length (before ++ [entry]))%nat eqn:E;
    cbn [usageHistory set_usageHistory daily HistoryManager.aggregateHistory].
  - apply Nat.ltb_lt in E. unfold HistoryManager.slice_last.
    fold (lastn 500 (before ++ [entry])).
    assert (Hl : List.length (lastn 500 (before ++ [entry])) = 500%nat)
      by (unfold lastn; rewrite length_skipn; lia).
    assert (Hs : lastn 500 (before ++ [entry])
                 = skipn (List.length before - 499) before ++ [entry]).
    { unfold lastn. rewrite Hlen, skipn_app.
      replace (S (List.length before) - 500)%nat
        with (List.length before - 499)%nat by lia.
      replace (List.length before - 499 - List.length before)%nat
        with 0%nat by lia.
      reflexivity. }
    repeat split.
    + lia.
    + rewrite Hs. apply last_last.
    + intro K. rewrite K in Hl. discriminate Hl.
    + intro K. lia.
    + assumption.
  - apply Nat.ltb_ge in E.
    repeat split.
    + lia.
    + apply last_last.
    + intro K. apply (f_equal (@List.length _)) in K. rewrite Hlen in K.
      discriminate K.
    + lia.
    + lia.
Qed.

Lemma daily_history_bounded_witness :
  daily (usageHistory
           (db (exec (HistoryManager.addToHistory Scenario.utcHost 45)
                     Scenario.initialWorld)))
  = daily (usageHistory (db Scenario.initialWorld))
      ++ [{| s_timestamp := clock Scenario.utcHost (ticks Scenario.initialWorld);
             s_capacity := 45 |}]
  /\ List.length
       (daily (usageHistory
                 (db (exec (HistoryManager.addToHistory Scenario.utcHost 45)
                           Scenario.fullHistoryWorld)))) = 500%nat.
Proof.
  split.
  - apply (proj1 (proj2 (proj2 (proj2
             (daily_history_bounded Scenario.utcHost 45 Scenario.initialWorld))))).
    simpl. lia.
  - apply (proj2 (proj2 (proj2 (proj2
             (daily_history_bounded Scenario.utcHost 45
                Scenario.fullHistoryWorld))))).
    apply Nat.leb_le. vm_compute. reflexivity.
Defined.

(** ** Weekly buckets *)

Lemma lookup_adjust (k k0 : string) (f : Bucket -> Bucket) (o : Obj) :
  Object.lookup k (Object.adjust k0 f o)
  = if (k =? k0)%string then option_map f (Object.lookup k0 o)
    else Object.lookup k o.
Proof.
  induction o as [| [k' v] o IH]; simpl.
  - now destruct (k =? k0)%string.
  - destruct (k0 =? k')%string eqn:E0; simpl.
    + apply String.eqb_eq in E0. subst k'.
      destruct (k =? k0)%string; reflexivity.
    + rewrite IH. destruct (k =? k0)%string eqn:E; [| reflexivity].
      apply String.eqb_eq in E. subst k. now rewrite E0.
Qed.

Lemma lookup_create (k k0 : string) (v : Bucket) (o : Obj) :
  Object.lookup k (Object.create k0 v o)
  = match Object.lookup k o with
    | Some b => Some b
    | None => if (k =? k0)%string then Some v else None
    end.
Proof.
  unfold Object.create.
  induction o as [| [k' v'] o IH]; simpl; [reflexivity |].
  destruct (k =? k')%string; [reflexivity | exact IH].
Qed.

(** Looking a key up after [aggregateInto]: the bucket of the key recorded
    has one more sample, the others are as they were. *)
Lemma lookup_aggregateInto (k k0 : string) (ts cap : Z) (o : Obj) :
  Object.lookup k (HistoryManager.aggregateInto k0 ts cap o)
  = if (k =? k0)%string
    then Some (HistoryManager.record ts cap
                 match Object.lookup k0 o with
                 | Some b => b
                 | None => HistoryManager.newBucket
                 end)
    else Object.lookup k o.
Proof.
  unfold HistoryManager.aggregateInto. rewrite lookup_adjust.
  destruct (k =? k0)%string eqn:E.
  - destruct (Object.lookup k0 o) eqn:El; simpl.
    + now rewrite El.
    + now rewrite lookup_create, El, String.eqb_refl.
  - destruct (Object.lookup k0 o) eqn:El; [reflexivity |].
    rewrite lookup_create, E. now destruct (Object.lookup k o).
Qed.

Lemma summary_snoc (l : list (Z * Z)) (ts cap : Z) :
  summary (l ++ [(ts, cap)]) = HistoryManager.record ts cap (summary l).
Proof.
  unfold summary, HistoryManager.record. cbn [b_total b_count b_max b_min b_timestamps].
  rewrite !map_app, !fold_left_app, length_app. cbn [map fold_left List.length fst snd].
  f_equal. lia.
Qed.

Lemma summaryOf_snoc (l : list (Z * Z)) (ts cap : Z) :
  summaryOf (l ++ [(ts, cap)])
  = Some (HistoryManager.record ts cap
            match summaryOf l with
            | Some b => b
            | None => HistoryManager.newBucket
            end).
Proof.
  destruct l as [| s l]; [reflexivity |].
  change (summaryOf ((s :: l) ++ [(ts, cap)]))
    with (Some (summary ((s :: l) ++ [(ts, cap)]))).
  now rewrite summary_snoc.
Qed.

Lemma weekly_aggregateHistory (H : Host) (ts cap : Z) (h : UsageHistory) :
  weekly (HistoryManager.aggregateHistory H ts cap h)
  = HistoryManager.aggregateInto (HistoryManager.weekKey H ts) ts cap (weekly h).
Proof. reflexivity. Qed.

Lemma recordAll_weekly (H : Host) (samples : list (Z * Z)) :
  forall (processed : list (Z * Z)) (h : UsageHistory),
    (forall k, Object.lookup k (weekly h) = summaryOf (inWeek H k processed)) ->
    forall k,
      Object.lookup k (weekly (recordAll H samples h))
      = summaryOf (inWeek H k (processed ++ samples)).
Proof.
  induction samples as [| [ts cap] rest IH]; intros processed h Hinv k.
  - simpl. rewrite app_nil_r. apply Hinv.
  - cbn [recordAll fold_left].
    change (fold_left _ rest ?h0) with (recordAll H rest h0).
    replace (processed ++ (ts, cap) :: rest)
      with ((processed ++ [(ts, cap)]) ++ rest) by (now rewrite <- app_assoc).
    revert k. apply IH. intro k.
    cbn [fst snd]. rewrite weekly_aggregateHistory, lookup_aggregateInto.
    unfold inWeek. rewrite filter_app. cbn [filter].
    change (sampleWeek H (ts, cap)) with (HistoryManager.weekKey H ts).
    rewrite (String.eqb_sym k).
    destruct (HistoryManager.weekKey H ts =? k)%string eqn:E.
    + apply String.eqb_eq in E. subst k.
      rewrite Hinv. fold (inWeek H (HistoryManager.weekKey H ts) processed).
      symmetry. apply summaryOf_snoc.
    + rewrite app_nil_r. apply Hinv.
Qed.



Lemma weekKey_range (H : Host) (ts : Z) :
  1 <= getDate H ts <= 31 ->
  In (HistoryManager.weekKey H ts) (weekKeysOf (getFullYear H ts)).
Proof.
  intro Hd. unfold HistoryManager.weekKey, weekKeysOf, Math_ceil_div.
  set (n := - (- getDate H ts / 7)).
  assert (Hn : n = 1 \/ n = 2 \/ n = 3 \/ n = 4 \/ n = 5).
  { subst n.
    pose proof (Z.div_mod (- getDate H ts) 7 ltac:(lia)).
    pose proof (Z.mod_pos_bound (- getDate H ts) 7 ltac:(lia)).
    lia. }
  cbn [map In].
  destruct Hn as [-> | [-> | [-> | [-> | ->]]]]; tauto.
Qed.

Lemma recordAll_weekly_keys (H : Host) (samples : list (Z * Z)) :
  forall h : UsageHistory,
    NoDup (Object.keys (weekly h)) ->
    NoDup (Object.keys (weekly (recordAll H samples h)))
    /\ incl (Object.keys (weekly (recordAll H samples h)))
            (Object.keys (weekly h) ++ map (sampleWeek H) samples).
Proof.
  induction samples as [| s rest IH]; intros h Hn.
  - simpl. split; [assumption |]. rewrite app_nil_r. apply incl_refl.
  - cbn [recordAll fold_left map].
    change (fold_left _ rest ?h0) with (recordAll H rest h0).
    set (h1 := HistoryManager.aggregateHistory H (fst s) (snd s) h).
    assert (Hk : Object.keys (weekly h1)
                 = match Object.lookup (sampleWeek H s) (weekly h) with
                   | None => Object.keys (weekly h) ++ [sampleWeek H s]
                   | Some _ => Object.keys (weekly h)
                   end)
      by apply keys_aggregateInto.
    assert (Hn1 : NoDup (Object.keys (weekly h1))).
    { rewrite Hk. destruct (Object.lookup _ _) eqn:El; [assumption |].
      apply lookup_None in El.
      apply NoDup_app; [assumption | repeat constructor; tauto |].
      intros x Hx [<- | []]. contradiction. }
    destruct (IH h1 Hn1) as (N & I). split; [exact N |].
    intros x Hx. apply I in Hx. apply in_app_or in Hx as [Hx | Hx].
    + rewrite Hk in Hx. destruct (Object.lookup _ _).
      * apply in_or_app. now left.
      * apply in_app_or in Hx as [Hx | [<- | []]].
        -- apply in_or_app. now left.
        -- apply in_or_app. right. now left.
    + apply in_or_app. right. now right.
Qed.

(** X13.  The week key is the year and the week of the month, so the weekly
    history holds at most five buckets for the samples of one calendar year,
    however many weeks and months they span: weeks of different months share
    a bucket. *)
Theorem weekly_five_per_year (H : Host) (year : Z) (samples : list (Z * Z))
  (h : UsageHistory) :
  weekly h = [] ->
  (forall s, In s samples ->
             getFullYear H (fst s) = year /\ 1 <= getDate H (fst s) <= 31) ->
  (List.length (Object.keys (weekly (recordAll H samples h))) <= 5)%nat
  /\ incl (Object.keys (weekly (recordAll H samples h))) (weekKeysOf year).
Proof.
  intros Hw Hs.
  destruct (recordAll_weekly_keys H samples h) as (N & I).
  { rewrite Hw. constructor. }
  rewrite Hw in I. cbn [Object.keys map app] in I.
  assert (I' : incl (Object.keys (weekly (recordAll H samples h)))
                    (weekKeysOf year)).
  { intros x Hx. apply I, in_map_iff in Hx as (s & <- & Hin).
    destruct (Hs s Hin) as (<- & Hd). now apply weekKey_range. }
  split; [| exact I'].
  change 5%nat with (List.length (weekKeysOf year)).
  now apply NoDup_incl_length.
Qed.

(** ** The bucket of the current month *)

Lemma lastn_last_In {A : Type} (n : nat) (l : list A) (x : A) :
  (1 <= n)%nat -> In x (lastn n (l ++ [x])).
Proof.
  intro Hn. unfold lastn. rewrite length_app, skipn_app. simpl List.length.
  apply in_or_app. right.
  replace (List.length l + 1 - n - List.length l)%nat with 0%nat by lia.
  now left.
Qed.

Lemma cleanup_entries (o : Obj) :
  NoDup (Object.keys o) -> HistoryManager.cleanup o = lastn 12 o.
Proof.
  intro Hn. unfold HistoryManager.cleanup, lastn. cbv zeta.
  rewrite keys_length.
  destruct (12 <? List.length o)%nat eqn:E.
  - rewrite <- (keys_length o) at 1. rewrite <- (keys_length o) at 1.
    rewrite delete_prefix, keys_length.
    apply filter_other_keys.
    intros k Hk.
    apply NoDup_app_disjoint
      with (b := Object.keys (skipn (List.length o - 12) o)); [| assumption].
    unfold Object.keys in *. rewrite <- map_app, firstn_skipn. assumption.
  - apply Nat.ltb_ge in E.
    now replace (List.length o - 12)%nat with 0%nat by lia.
Qed.

Lemma lookup_app_r (k : string) (a b : Obj) :
  ~ In k (Object.keys a) ->
  Object.lookup k (a ++ b) = Object.lookup k b.
Proof.
  induction a as [| [k' v] a IH]; simpl; intro Hk; [reflexivity |].
  destruct (k =? k')%string eqn:E.
  - apply String.eqb_eq in E. subst. tauto.
  - apply IH. tauto.
Qed.

Lemma lookup_lastn (k : string) (n : nat) (o : Obj) :
  NoDup (Object.keys o) -> In k (Object.keys (lastn n o)) ->
  Object.lookup k (lastn n o) = Object.lookup k o.
Proof.
  unfold lastn. intros Hn Hk.
  rewrite <- (firstn_skipn (List.length o - n) o) at 3.
  symmetry. apply lookup_app_r.
  apply NoDup_app_disjoint
    with (b := Object.keys (skipn (List.length o - n) o)); [| assumption].
  unfold Object.keys in *. rewrite <- map_app, firstn_skipn. assumption.
Qed.

Lemma NoDup_aggregateInto (k : string) (ts cap : Z) (o : Obj) :
  NoDup (Object.keys o) ->
  NoDup (Object.keys (HistoryManager.aggregateInto k ts cap o)).
Proof.
  intro Hn. rewrite keys_aggregateInto.
  destruct (Object.lookup k o) eqn:El; [assumption |].
  apply lookup_None in El.
  apply NoDup_app; [assumption | repeat constructor; tauto |].
  intros x Hx [<- | []]. contradiction.
Qed.



Lemma weekly_five_per_year_witness :
  (List.length
     (Object.keys (weekly (recordAll Scenario.utcHost
                             (firstn 24 Scenario.thirteenMonths)
                             Scenario.emptyHistory))) <= 5)%nat
  /\ incl (Object.keys (weekly (recordAll Scenario.utcHost
                                  (firstn 24 Scenario.thirteenMonths)
                                  Scenario.emptyHistory)))
          (weekKeysOf 2024).
Proof.
  apply (weekly_five_per_year Scenario.utcHost 2024
           (firstn 24 Scenario.thirteenMonths) Scenario.emptyHistory).
  - reflexivity.
  - intros s Hs. vm_compute in Hs.
    repeat (destruct Hs as [<- | Hs];
            [vm_compute; repeat split; discriminate |]).
    destruct Hs.
Defined.

(** ** Statistics of the daily history *)

Lemma maximum_bounds (l : list Z) :
  forall a, a <= fold_left Z.max l a
            /\ (forall x, In x l -> x <= fold_left Z.max l a).
Proof.
  induction l as [| y l IH]; intro a; simpl.
  - split; [lia | tauto].
  - destruct (IH (Z.max a y)) as (Ha & Hl). split; [lia |].
    intros x [<- | Hx]; [lia | now apply Hl].
Qed.

Lemma minimum_bounds (l : list Z) :
  forall a, fold_left Z.min l a <= a
            /\ (forall x, In x l -> fold_left Z.min l a <= x).
Proof.
  induction l as [| y l IH]; intro a; simpl.
  - split; [lia | tauto].
  - destruct (IH (Z.min a y)) as (Ha & Hl). split; [lia |].
    intros x [<- | Hx]; [lia | now apply Hl].
Qed.

Lemma sum_bounds (lo hi : Z) (l : list Z) :
  (forall x, In x l -> lo <= x <= hi) ->
  forall acc,
    acc + Z.of_nat (List.length l) * lo <= fold_left Z.add l acc
    <= acc + Z.of_nat (List.length l) * hi.
Proof.
  induction l as [| y l IH]; intros Hb acc.
  - simpl. lia.
  - cbn [fold_left List.length].
    assert (Hy : lo <= y <= hi) by (apply Hb; now left).
    assert (Hl : forall x, In x l -> lo <= x <= hi)
      by (intros x Hx; apply Hb; now right).
    specialize (IH Hl (acc + y)). lia.
Qed.

Lemma Qle_div_lower (lo s n : Z) :
  0 < n -> lo * n <= s -> (inject_Z lo <= inject_Z s / inject_Z n)%Q.
Proof.
  intros Hn Hs. apply Qle_shift_div_l.
  - change 0%Q with (inject_Z 0). now rewrite <- Zlt_Qlt.
  - rewrite <- inject_Z_mult. now rewrite <- Zle_Qle.
Qed.

Lemma Qle_div_upper (hi s n : Z) :
  0 < n -> s <= hi * n -> (inject_Z s / inject_Z n <= inject_Z hi)%Q.
Proof.
  intros Hn Hs. apply Qle_shift_div_r.
  - change 0%Q with (inject_Z 0). now rewrite <- Zlt_Qlt.
  - rewrite <- inject_Z_mult. now rewrite <- Zle_Qle.
Qed.

Lemma last_cons_default {A : Type} (l : list A) :
  forall a d : A, last (a :: l) d = last l a.
Proof.
  induction l as [| b l IH]; intros a d; [reflexivity |].
  change (last (a :: b :: l) d) with (last (b :: l) d).
  now rewrite !IH.
Qed.



(** ** Elapsed time *)



(** ** Commands simulated while disconnected *)

Section Simulation.

Variable H : Host.
Variable hasNotificationContainer : bool.
Variable send : string -> M unit.

Lemma showNotification_db (msg type : string) (w : World) :
  db (exec (UI.showNotification H hasNotificationContainer msg type) w) = db w.
Proof.
  unfold UI.showNotification. destruct hasNotificationContainer.
  - now destruct w.
  - reflexivity.
Qed.

Lemma simulate_BUKA_device (r1 r2 : Q) (w : World) :
  device_of_DB
    (db (exec (UI.simulateCommand H hasNotificationContainer r1 r2 "BUKA") w))
  = opened (clock H (ticks w))
      (withStatus (VString "BUKA") (device_of_DB (db w))).
Proof.
  unfold UI.simulateCommand. cbn [String.eqb Ascii.eqb Bool.eqb].
  rewrite exec_bind, showNotification_db, !exec_bind, exec_ret.
  match goal with
  | |- context [exec (Logger.log H ?m ?t) ?w0] =>
      destruct (log_frame H m t w0) as (E & _)
  end.
  cbv zeta in E. rewrite E. now destruct w.
Qed.

Lemma simulate_TUTUP_device (r1 r2 : Q) (w : World) :
  device_of_DB
    (db (exec (UI.simulateCommand H hasNotificationContainer r1 r2 "TUTUP") w))
  = withStatus (VString "TUTUP") (device_of_DB (db w)).
Proof.
  unfold UI.simulateCommand. cbn [String.eqb Ascii.eqb Bool.eqb].
  rewrite exec_bind, showNotification_db, !exec_bind, exec_ret.
  match goal with
  | |- context [exec (Logger.log H ?m ?t) ?w0] =>
      destruct (log_frame H m t w0) as (E & _)
  end.
  cbv zeta in E. rewrite E. now destruct w.
Qed.

Lemma toggle_device (r1 r2 : Q) (w : World) :
  device_of_DB
    (db (exec (UI.toggleDoor H hasNotificationContainer send false r1 r2) w))
  = if Value_eqb (status (db w)) (VString "BUKA")
    then withStatus (VString "TUTUP") (device_of_DB (db w))
    else opened (clock H (ticks w))
           (withStatus (VString "BUKA") (device_of_DB (db w))).
Proof.
  unfold UI.toggleDoor, UI.sendCommand. rewrite exec_bind.
  cbn [get fst exec snd].
  destruct (Value_eqb (status (db w)) (VString "BUKA")).
  - apply simulate_TUTUP_device.
  - apply simulate_BUKA_device.
Qed.

End Simulation.





Lemma Qfloor_digit (r : Q) :
  (0 <= r)%Q -> (r < 1)%Q -> 0 <= Qfloor (r * 10) <= 9.
Proof.
  intros H0 H1. split.
  - change 0 with (Qfloor 0). apply Qfloor_resp_le.
    apply Qmult_le_0_compat; [assumption | discriminate].
  - assert (K : (inject_Z (Qfloor (r * 10)) < inject_Z 10)%Q).
    { apply Qle_lt_trans with (r * 10)%Q; [apply Qfloor_le |].
      change (inject_Z 10) with (1 * 10)%Q.
      apply Qmult_lt_compat_r; [reflexivity | assumption]. }
    rewrite <- Zlt_Qlt in K. lia.
Qed.

(** X19.  [generateSimulatedData] keeps the simulated sensor consistent: from
    an integer distance it leaves a distance between 0 and 50 and the
    capacity [100 - 2 * distance], whatever [Math.random] returns; with draws
    in [0,1) the distance moves by at most 9 from its clamped old value. *)
Theorem simulated_data_in_range (H : Host) (r1 r2 : Q) (w : World) (n : Z) :
  distance (db w) = Num n ->
  exists m,
    distance (db (exec (UI.generateSimulatedData H r1 r2) w)) = Num m
    /\ capacity (db (exec (UI.generateSimulatedData H r1 r2) w))
       = Num (100 - 2 * m)
    /\ 0 <= m <= 50
    /\ lastUpdate (db (exec (UI.generateSimulatedData H r1 r2) w))
       = clock H (ticks w)
    /\ ((0 <= r2)%Q -> (r2 < 1)%Q ->
        - 9 <= m - Z.max 0 (Z.min 50 n) <= 9).
Proof.
  intro Hd. destruct w as [d t]. cbn [db] in Hd.
  unfold UI.generateSimulatedData, exec, bind, modify, Date_now.
  cbn [fst snd db ticks distance capacity lastUpdate set_distance set_capacity
       set_lastUpdate].
  rewrite Hd. cbn [UI.plus UI.clampDistance].
  set (change := Qfloor (r2 * 10) * (if Qlt_le_dec (1 # 2) r1 then 1 else -1)).
  exists (Z.max 0 (Z.min 50 (n + change))).
  rewrite calculateCapacity1_closed.
  split; [reflexivity |]. split; [f_equal; lia |]. split; [lia |].
  split; [reflexivity |].
  intros H0 H1. pose proof (Qfloor_digit r2 H0 H1) as Hf.
  subst change. destruct (Qlt_le_dec (1 # 2) r1); lia.
Qed.

Lemma simulated_data_in_range_witness :
  exists m,
    distance (db (exec (UI.generateSimulatedData Scenario.utcHost (3 # 4) (7 # 10))
                       Scenario.initialWorld)) = Num m
    /\ capacity (db (exec (UI.generateSimulatedData Scenario.utcHost (3 # 4) (7 # 10))
                          Scenario.initialWorld)) = Num (100 - 2 * m)
    /\ 0 <= m <= 50
    /\ - 9 <= m - Z.max 0 (Z.min 50 0) <= 9.
Proof.
  destruct (simulated_data_in_range Scenario.utcHost (3 # 4) (7 # 10)
              Scenario.initialWorld 0 eq_refl) as (m & E1 & E2 & E3 & _ & E5).
  exists m. split; [exact E1 |]. split; [exact E2 |]. split; [exact E3 |].
  apply E5.
  - unfold Qle. simpl. lia.
  - unfold Qlt. simpl. lia.
Defined.

(** ** The store *)

Lemma getItem_setItem_same (k v : string) (ls : Storage.LocalStorage) :
  Storage.getItem k (Storage.setItem k v ls) = Some v.
Proof.
  induction ls as [| [k' v'] ls IH]; simpl.
  - now rewrite String.eqb_refl.
  - destruct (k =? k')%string eqn:E; simpl; rewrite E; [reflexivity | exact IH].
Qed.

Lemma getItem_setItem_other (k k' v : string) (ls : Storage.LocalStorage) :
  k' <> k ->
  Storage.getItem k' (Storage.setItem k v ls) = Storage.getItem k' ls.
Proof.
  intro Hk. induction ls as [| [k0 v0] ls IH]; simpl.
  - now replace (k' =? k)%string with false
      by (symmetry; now apply String.eqb_neq).
  - destruct (k =? k0)%string eqn:E; simpl.
    + apply String.eqb_eq in E. subst k0.
      now replace (k' =? k)%string with false
        by (symmetry; now apply String.eqb_neq).
    + now rewrite IH.
Qed.

Lemma prefix_injective (a b : string) :
  (Storage.storagePrefix ++ a)%string = (Storage.storagePrefix ++ b)%string ->
  a = b.
Proof. unfold Storage.storagePrefix. simpl. now intros [= ->]. Qed.

Lemma prefixed_startsWith (key : string) :
  startsWith (Storage.storagePrefix ++ key) Storage.storagePrefix = true.
Proof. reflexivity. Qed.

(** X20.  [Storage.set] followed by [Storage.get] of the same key returns the
    value stored, provided [JSON.parse] reads back what [JSON.stringify]
    wrote, the text is not empty and the quota is not exceeded; every other
    key reads as before.  When [set] returns [false], because
    [JSON.stringify] or [setItem] threw, the store is unchanged. *)
Theorem storage_round_trip (V : Type) (JSON_stringify : V -> option string)
  (JSON_parse : string -> option V)
  (withinQuota : Storage.LocalStorage -> bool)
  (key : string) (value : V) (ls : Storage.LocalStorage) :
  (forall text,
      JSON_stringify value = Some text ->
      text <> EmptyString ->
      JSON_parse text = Some value ->
      withinQuota (Storage.setItem (Storage.storagePrefix ++ key) text ls) = true ->
      fst (Storage.set V JSON_stringify withinQuota key value ls) = true
      /\ (forall d,
             Storage.get V JSON_parse key d
               (snd (Storage.set V JSON_stringify withinQuota key value ls))
             = value)
      /\ (forall key' d,
             key' <> key ->
             Storage.get V JSON_parse key' d
               (snd (Storage.set V JSON_stringify withinQuota key value ls))
             = Storage.get V JSON_parse key' d ls))
  /\ (fst (Storage.set V JSON_stringify withinQuota key value ls) = false ->
      snd (Storage.set V JSON_stringify withinQuota key value ls) = ls).
Proof.
  split.
  - intros text Es Hne Ep Hq. unfold Storage.set. rewrite Es. cbv zeta.
    rewrite Hq. cbn [fst snd]. split; [reflexivity |]. split.
    + intro d. unfold Storage.get. rewrite getItem_setItem_same.
      destruct (text =? "")%string eqn:E.
      * apply String.eqb_eq in E. contradiction.
      * now rewrite Ep.
    + intros key' d Hk. unfold Storage.get.
      rewrite getItem_setItem_other; [reflexivity |].
      intro K. apply prefix_injective in K. contradiction.
  - unfold Storage.set. destruct (JSON_stringify value) as [text |];
      [| reflexivity].
    cbv zeta. destruct (withinQuota _); [discriminate | reflexivity].
Qed.

Lemma storage_round_trip_witness :
  Storage.get Z parseInt_option "db" 0
    (snd (Storage.set Z (fun z => Some (toString z)) (fun _ => true) "db" 42
            [("other", "x")]))
  = 42
  /\ snd (Storage.set Z (fun z => Some (toString z)) (fun _ => false) "db" 42
            [("other", "x")])
     = [("other", "x")].
Proof.
  split.
  - apply (proj1 (storage_round_trip Z (fun z => Some (toString z))
                    parseInt_option (fun _ => true) "db" 42 [("other", "x")])
             "42").
    + reflexivity.
    + discriminate.
    + reflexivity.
    + reflexivity.
  - apply (proj2 (storage_round_trip Z (fun z => Some (toString z))
                    parseInt_option (fun _ => false) "db" 42 [("other", "x")])).
    reflexivity.
Defined.

Lemma clear_filter (keys : list string) :
  forall ls : Storage.LocalStorage,
    fold_left
      (fun acc key =>
         if startsWith key Storage.storagePrefix
         then Storage.removeItem key acc else acc)
      keys ls
    = filter
        (fun kv => negb (startsWith (fst kv) Storage.storagePrefix
                         && memb (fst kv) keys))
        ls.
Proof.
  induction keys as [| k keys IH]; intro ls; cbn [fold_left].
  - symmetry. apply forallb_filter_id. apply forallb_forall.
    intros x _. cbn. now rewrite andb_false_r.
  - rewrite IH. destruct (startsWith k Storage.storagePrefix) eqn:Ek.
    + unfold Storage.removeItem. rewrite filter_filter.
      apply filter_ext. intros [k' v]. cbn [fst memb existsb].
      rewrite (String.eqb_sym k' k).
      destruct (k =? k')%string eqn:E; cbn [negb andb orb].
      * apply String.eqb_eq in E. subst k'. now rewrite Ek.
      * reflexivity.
    + apply filter_ext. intros [k' v]. cbn [fst memb existsb].
      destruct (k' =? k)%string eqn:E; cbn [orb]; [| reflexivity].
      apply String.eqb_eq in E. subst k'. rewrite Ek. reflexivity.
Qed.

Lemma clear_is_filter (ls : Storage.LocalStorage) :
  Storage.clear ls
  = filter (fun kv => negb (startsWith (fst kv) Storage.storagePrefix)) ls.
Proof.
  unfold Storage.clear. rewrite clear_filter.
  apply filter_ext_in. intros [k v] Hin. cbn [fst].
  replace (memb k (map fst ls)) with true; [now rewrite andb_true_r |].
  symmetry. apply memb_In. change k with (fst (k, v)). now apply in_map.
Qed.

Lemma getItem_filter (p : string -> bool) (k : string)
  (ls : Storage.LocalStorage) :
  Storage.getItem k (filter (fun kv => p (fst kv)) ls)
  = if p k then Storage.getItem k ls else None.
Proof.
  induction ls as [| [k' v] ls IH]; simpl.
  - now destruct (p k).
  - destruct (k =? k')%string eqn:E.
    + apply String.eqb_eq in E. subst k'.
      destruct (p k) eqn:Ep; simpl.
      * now rewrite String.eqb_refl.
      * rewrite IH. now rewrite ?Ep.
    + destruct (p k') eqn:Ep'; simpl; [rewrite E |]; exact IH.
Qed.

Lemma getSize_no_prefix (keys : list string) (ls : Storage.LocalStorage) :
  (forall k, In k keys -> startsWith k Storage.storagePrefix = false) ->
  forall total,
    fold_left
      (fun total key =>
         if startsWith key Storage.storagePrefix then
           match Storage.getItem key ls with
           | Some v => if (v =? "")%string then total
                       else (total + String.length v)%nat
           | None => total
           end
         else total)
      keys total = total.
Proof.
  induction keys as [| k keys IH]; intros Hk total; [reflexivity |].
  cbn [fold_left]. rewrite (Hk k) by now left.
  apply IH. intros k' Hk'. apply Hk. now right.
Qed.

(** X21.  [Storage.clear] removes every item whose key carries the
    application prefix and leaves the items of other applications alone:
    afterwards [getSize] is 0, [get] returns the default for every key, and
    an item with another key reads as before. *)
Theorem clear_removes_own_items (V : Type) (JSON_parse : string -> option V)
  (ls : Storage.LocalStorage) :
  Storage.getSize (Storage.clear ls) = 0%nat
  /\ (forall key d, Storage.get V JSON_parse key d (Storage.clear ls) = d)
  /\ (forall k,
         Storage.getItem k (Storage.clear ls)
         = if startsWith k Storage.storagePrefix then None
           else Storage.getItem k ls).
Proof.
  assert (Hg : forall k,
             Storage.getItem k (Storage.clear ls)
             = if startsWith k Storage.storagePrefix then None
               else Storage.getItem k ls).
  { intro k. rewrite clear_is_filter.
    rewrite (getItem_filter
               (fun k => negb (startsWith k Storage.storagePrefix)) k ls).
    now destruct (startsWith k Storage.storagePrefix). }
  split; [| split; [| exact Hg]].
  - unfold Storage.getSize. apply getSize_no_prefix.
    intros k Hk. rewrite clear_is_filter in Hk.
    apply in_map_iff in Hk as ([k' v] & <- & Hin).
    apply filter_In in Hin as (_ & Hp). cbn [fst] in *.
    now apply negb_true_iff in Hp.
  - intros key d. unfold Storage.get.
    now rewrite Hg, prefixed_startsWith.
Qed.

(** ** The [padStart] polyfill *)

Lemma length_append (a b : string) :
  String.length (a ++ b) = (String.length a + String.length b)%nat.
Proof. induction a as [| c a IH]; simpl; [reflexivity | now rewrite IH]. Qed.

Lemma length_double (n : nat) :
  forall s, String.length (Polyfill.double n s) = (2 ^ n * String.length s)%nat.
Proof.
  induction n as [| n IH]; intro s; cbn [Polyfill.double].
  - simpl. lia.
  - rewrite IH, length_append. rewrite Nat.pow_succ_r'. lia.
Qed.

Lemma length_substring (n : nat) :
  forall s, (n <= String.length s)%nat ->
            String.length (substring 0 n s) = n.
Proof.
  induction n as [| n IH]; intros s Hn.
  - now destruct s.
  - destruct s as [| c s]; simpl in *; [lia |]. rewrite IH; lia.
Qed.

Lemma get_twice (s : string) (j : nat) :
  (j < 2 * String.length s)%nat ->
  String.get j (s ++ s) = String.get (j mod String.length s) s.
Proof.
  intro Hj. destruct (Nat.lt_ge_cases j (String.length s)) as [Hl | Hl].
  - rewrite <- append_correct1 by assumption. now rewrite Nat.mod_small.
  - replace j with ((j - String.length s) + String.length s)%nat at 1 by lia.
    rewrite <- append_correct2.
    replace j with ((j - String.length s) + 1 * String.length s)%nat at 2 by lia.
    rewrite Nat.Div0.mod_add. rewrite Nat.mod_small by lia. reflexivity.
Qed.

Lemma get_double (n : nat) :
  forall s i,
    (0 < String.length s)%nat ->
    (i < 2 ^ n * String.length s)%nat ->
    String.get i (Polyfill.double n s) = String.get (i mod String.length s) s.
Proof.
  induction n as [| n IH]; intros s i Hs Hi; cbn [Polyfill.double].
  - simpl in Hi. now rewrite Nat.mod_small by lia.
  - rewrite IH.
    + rewrite length_append. rewrite get_twice.
      * f_equal.
        replace (String.length s + String.length s)%nat
          with (String.length s * 2)%nat by lia.
        rewrite Nat.Div0.mod_mul_r.
        set (q := ((i / String.length s) mod 2)%nat).
        replace (String.length s * q)%nat with (q * String.length s)%nat by lia.
        rewrite Nat.Div0.mod_add. apply Nat.Div0.mod_mod.
      * replace (String.length s + String.length s)%nat
          with (2 * String.length s)%nat by lia.
        apply Nat.mod_upper_bound. lia.
    + rewrite length_append. lia.
    + rewrite length_append. rewrite Nat.pow_succ_r' in Hi. lia.
Qed.

Lemma filler_nonempty (fillString : string) :
  (0 < String.length (filler fillString))%nat.
Proof.
  unfold filler. destruct (String.length fillString =? 0)%nat eqn:E.
  - simpl. lia.
  - apply Nat.eqb_neq in E. lia.
Qed.



(** ** [style.js]: what [processSerialData] writes *)

Section StyleLines.

Variable Aux : Type.
Variable addLog : string -> string -> Aux * nat -> Aux * nat.
Variable addToUsageHistory : number -> Aux * nat -> Aux * nat.
Variable updateAllDisplays : Aux * nat -> Aux * nat.
Variable H : Host.

Lemma processLine_lastActivity (line : string) (w : StyleJs.World Aux) :
  StyleJs.lastActivity
    (StyleJs.db (StyleJs.processLine Aux addLog addToUsageHistory H line w))
  = StyleJs.lastActivity (StyleJs.db w).
Proof.
  unfold StyleJs.processLine. cbv zeta.
  destruct (String.length (trim line) =? 0)%nat; [reflexivity |].
  destruct (includes "," (trim line)).
  - destruct (5 <=? _)%nat; [| reflexivity].
    now rewrite updateFromArduinoData_db, updateDatabase_db.
  - destruct (startsWith (trim line) "STATUS:");
      [now rewrite call_db |].
    destruct (startsWith (trim line) "DISTANCE:"); [reflexivity |].
    destruct (startsWith (trim line) "USAGE:"); [reflexivity |].
    now rewrite call_db.
Qed.

Lemma short_comma_line_style (l : string) (w : StyleJs.World Aux) :
  trim l = l -> l <> EmptyString ->
  (1 <= countChar "," l <= 3)%nat ->
  StyleJs.db (StyleJs.processLine Aux addLog addToUsageHistory H l w)
  = StyleJs.set_lastUpdate (clock H (StyleJs.ticks w)) (StyleJs.db w).
Proof.
  intros Ht Hne Hc. unfold StyleJs.processLine. cbv zeta. rewrite Ht.
  destruct l as [| c r]; [congruence |]. cbn [String.length Nat.eqb].
  replace (includes "," (String c r)) with true
    by (symmetry; apply includes_countChar; lia).
  replace (5 <=? List.length (split "," (String c r)))%nat with false
    by (symmetry; apply Nat.leb_gt; rewrite split_length; lia).
  reflexivity.
Qed.

Lemma full_line_style (l : string) (w : StyleJs.World Aux) :
  trim l = l -> l <> EmptyString ->
  (4 <= countChar "," l)%nat ->
  StyleJs.device
    (StyleJs.db (StyleJs.processLine Aux addLog addToUsageHistory H l w))
  = {| dev_status := VString (nth 0 (split "," l) "");
       dev_capacity := parseInt (nth 1 (split "," l) "");
       dev_distance := parseInt (nth 2 (split "," l) "");
       dev_dailyUsage := parseInt (nth 3 (split "," l) "");
       dev_totalUsage := parseInt (nth 4 (split "," l) "");
       dev_lastActivity := StyleJs.lastActivity (StyleJs.db w) |}.
Proof.
  intros Ht Hne Hc. unfold StyleJs.processLine. cbv zeta. rewrite Ht.
  destruct l as [| c r]; [congruence |]. cbn [String.length Nat.eqb].
  replace (includes "," (String c r)) with true
    by (symmetry; apply includes_countChar; lia).
  replace (5 <=? List.length (split "," (String c r)))%nat with true
    by (symmetry; apply Nat.leb_le; rewrite split_length; lia).
  rewrite updateFromArduinoData_db, updateDatabase_db. reflexivity.
Qed.

End StyleLines.

(** X23.  [processSerialData] of [style.js] never writes [lastActivity]:
    whatever chunk arrives, and whatever the helpers of [script.js] do to the
    rest of the page, the field keeps the value it had. *)
Theorem style_never_stamps_activity
  (Aux : Type) (addLog : string -> string -> Aux * nat -> Aux * nat)
  (addToUsageHistory : number -> Aux * nat -> Aux * nat)
  (updateAllDisplays : Aux * nat -> Aux * nat) (H : Host)
  (data : string) (w : StyleJs.World Aux) :
  StyleJs.lastActivity
    (StyleJs.db
       (StyleJs.processSerialData Aux addLog addToUsageHistory updateAllDisplays
          H data w))
  = StyleJs.lastActivity (StyleJs.db w).
Proof.
  unfold StyleJs.processSerialData. cbv zeta. rewrite call_db.
  generalize (split "010" data). intro lines. revert w.
  induction lines as [| line lines IH]; intro w; [reflexivity |].
  cbn [fold_left]. rewrite IH. apply processLine_lastActivity.
Qed.

Lemma status_line_js (rest : string) :
  noLineTerminator rest = true ->
  (1 <= countChar "," rest <= 3)%nat ->
  DataProcessor.parseSerialLine ("STATUS:" ++ rest)
  = matched k_status (VString rest) ("STATUS:" ++ rest).
Proof.
  intros Hn Hc.
  assert (Hne : rest <> EmptyString) by (intros ->; simpl in Hc; lia).
  unfold DataProcessor.parseSerialLine, DataProcessor.parseFull.
  assert (Hcount : countChar "," ("STATUS:" ++ rest) = countChar "," rest)
    by reflexivity.
  replace (includes "," ("STATUS:" ++ rest)) with true
    by (symmetry; apply includes_countChar; rewrite Hcount; lia).
  replace (5 <=? List.length (split "," ("STATUS:" ++ rest)))%nat with false
    by (symmetry; apply Nat.leb_gt; rewrite split_length, Hcount; lia).
  unfold DataProcessor.patterns. cbn [DataProcessor.firstMatch].
  unfold re_prefix_rest. cbn [append stripPrefix Ascii.eqb Bool.eqb].
  rewrite Hn.
  destruct rest as [| c r]; [congruence |]. reflexivity.
Qed.

(** X24.  The two files disagree on lines with one to three commas:
    [style.js] takes the comma for the sign of a full report, finds fewer
    than five fields and drops the line, touching only [lastUpdate]; on such
    a line that starts with [STATUS:], [javascript.js] stores what follows
    the prefix as the status. *)
Theorem short_comma_line
  (Aux : Type) (addLog : string -> string -> Aux * nat -> Aux * nat)
  (addToUsageHistory : number -> Aux * nat -> Aux * nat) (H : Host)
  (rest : string) (ws : StyleJs.World Aux) (w : World) :
  trim ("STATUS:" ++ rest) = ("STATUS:" ++ rest)%string ->
  noLineTerminator rest = true ->
  (1 <= countChar "," rest <= 3)%nat ->
  StyleJs.db
    (StyleJs.processLine Aux addLog addToUsageHistory H ("STATUS:" ++ rest) ws)
  = StyleJs.set_lastUpdate (clock H (StyleJs.ticks ws)) (StyleJs.db ws)
  /\ status (db (applyEvent H (DataProcessor.parseSerialLine ("STATUS:" ++ rest)) w))
     = VString rest.
Proof.
  intros Ht Hn Hc. split.
  - apply short_comma_line_style; [assumption | discriminate |].
    exact Hc.
  - rewrite (status_line_js rest Hn Hc).
    rewrite applyEvent_partial by reflexivity.
    now destruct (applyPartialUpdate_db H
                    (matched k_status (VString rest) ("STATUS:" ++ rest)) w)
      as (-> & _).
Qed.

Lemma short_comma_line_witness :
  StyleJs.db
    (StyleJs.processLine unit Scenario.noLog Scenario.noHistory Scenario.utcHost
       ("STATUS:" ++ "BUKA,1") Scenario.closedPage)
  = StyleJs.set_lastUpdate 1705276801000 (StyleJs.db Scenario.closedPage)
  /\ status (db (applyEvent Scenario.utcHost
                   (DataProcessor.parseSerialLine ("STATUS:" ++ "BUKA,1"))
                   Scenario.closedWorld))
     = VString "BUKA,1".
Proof.
  apply (short_comma_line unit Scenario.noLog Scenario.noHistory Scenario.utcHost
           "BUKA,1" Scenario.closedPage Scenario.closedWorld).
  - reflexivity.
  - reflexivity.
  - simpl. lia.
Defined.

(** X25.  On a line with at least four commas the two files read the same
    report: the status is the same, and each numeric field [javascript.js]
    stores is the one [style.js] stores with NaN replaced by 0.  [style.js]
    therefore keeps NaN in [db] where a field does not parse, and it leaves
    [lastActivity] alone. *)
Theorem full_line_in_both_files
  (Aux : Type) (addLog : string -> string -> Aux * nat -> Aux * nat)
  (addToUsageHistory : number -> Aux * nat -> Aux * nat) (H : Host)
  (l : string) (ws : StyleJs.World Aux) :
  trim l = l -> l <> EmptyString ->
  (4 <= countChar "," l)%nat ->
  exists st cap dist daily total,
    DataProcessor.parseSerialLine l = full st cap dist daily total l
    /\ dev_status
         (StyleJs.device
            (StyleJs.db (StyleJs.processLine Aux addLog addToUsageHistory H l ws)))
       = VString st
    /\ or_zero
         (dev_capacity
            (StyleJs.device
               (StyleJs.db (StyleJs.processLine Aux addLog addToUsageHistory H l ws))))
       = cap
    /\ or_zero
         (dev_distance
            (StyleJs.device
               (StyleJs.db (StyleJs.processLine Aux addLog addToUsageHistory H l ws))))
       = dist
    /\ or_zero
         (dev_dailyUsage
            (StyleJs.device
               (StyleJs.db (StyleJs.processLine Aux addLog addToUsageHistory H l ws))))
       = daily
    /\ or_zero
         (dev_totalUsage
            (StyleJs.device
               (StyleJs.db (StyleJs.processLine Aux addLog addToUsageHistory H l ws))))
       = total.
Proof.
  intros Ht Hne Hc.
  rewrite (full_line_style Aux addLog addToUsageHistory H l ws Ht Hne Hc).
  cbn [dev_status dev_capacity dev_distance dev_dailyUsage dev_totalUsage].
  do 5 eexists. split.
  - unfold DataProcessor.parseSerialLine. rewrite parseFull_fields.
    + reflexivity.
    + apply includes_countChar. lia.
    + rewrite split_length. lia.
  - repeat split.
Qed.

Lemma full_line_in_both_files_witness :
  exists st cap dist daily total,
    DataProcessor.parseSerialLine Scenario.malformed
    = full st cap dist daily total Scenario.malformed
    /\ dev_status
         (StyleJs.device
            (StyleJs.db (StyleJs.processLine unit Scenario.noLog
                           Scenario.noHistory Scenario.utcHost
                           Scenario.malformed Scenario.closedPage)))
       = VString st
    /\ or_zero
         (dev_capacity
            (StyleJs.device
               (StyleJs.db (StyleJs.processLine unit Scenario.noLog
                              Scenario.noHistory Scenario.utcHost
                              Scenario.malformed Scenario.closedPage))))
       = cap
    /\ or_zero
         (dev_distance
            (StyleJs.device
               (StyleJs.db (StyleJs.processLine unit Scenario.noLog
                              Scenario.noHistory Scenario.utcHost
                              Scenario.malformed Scenario.closedPage))))
       = dist
    /\ or_zero
         (dev_dailyUsage
            (StyleJs.device
               (StyleJs.db (StyleJs.processLine unit Scenario.noLog
                              Scenario.noHistory Scenario.utcHost
                              Scenario.malformed Scenario.closedPage))))
       = daily
    /\ or_zero
         (dev_totalUsage
            (StyleJs.device
               (StyleJs.db (StyleJs.processLine unit Scenario.noLog
                              Scenario.noHistory Scenario.utcHost
                              Scenario.malformed Scenario.closedPage))))
       = total.
Proof.
  apply (full_line_in_both_files unit Scenario.noLog Scenario.noHistory
           Scenario.utcHost Scenario.malformed Scenario.closedPage).
  - reflexivity.
  - discriminate.
  - simpl. lia.
Defined.
